(** * Comparison and recommendation engine

    A shallow embedding of [logic_blocks/comparison_logic.py] and of the
    rule methods of [agents/comparison_agent.py], with the properties the
    specification states about them.

    Conventions of the embedding
    - A Python [str] is the list of its code points ([list N]); slicing,
      iteration and [len] count code points, as Python does.
    - A Python [dict] with string keys is a [gmap string _]; [d[k]] raises
      [KeyError] on an absent key, [d.get(k)] does not.
    - Exceptions are values of [exn], threaded through the [result] monad;
      a bare [except:] is [catch].
    - [str.lower] is the Unicode lowering of the Python runtime.  Its table
      is not part of the repository, so it is a parameter [lower] of the
      engine; what is known of it is its action on ASCII text.
    - [int(s)] is only ever applied to strings of ASCII digits; on those it
      is the arbitrary-precision decimal value, and it raises [ValueError]
      on the empty string and on a string with more digits than the
      interpreter converts.  That limit, [sys.get_int_max_str_digits()],
      is 4300 unless the interpreter was started otherwise; it is set
      outside the repository, so it is a parameter [max_str_digits] of the
      engine, as CPython reads it: [0] is no limit, and a string of at
      most 640 digits is always converted.  [str(n)] and the [{n}] of an
      f-string are modelled without that limit: the engine prints only
      numbers that [int] returned and differences of two of them, which
      have no more digits than [int] accepted.
    - [len(x) / len(y)] is Python's true division.  The quotient is kept
      exact, in [Q], and the literals [0.7] and [0.3] are [7/10] and
      [3/10].  Python rounds the quotient and the literals to binary64
      before it compares them; an exact quotient of sizes that is not
      [7/10] (or [3/10]) is at least [1/(10 * size)] away from it, far
      more than the rounding, so both readings of the tests agree for any
      set that fits in memory.  [binary64_thresholds_agree] checks this on
      Rocq's binary64 numbers for every overlap of up to 128 tokens. *)

From Stdlib Require Import ZArith NArith QArith List String Ascii Bool Lia Lqa.
From Stdlib Require Import PrimFloat Uint63.
From stdpp Require Import base gmap strings list fin_sets.

Local Open Scope string_scope.
Local Open Scope N_scope.
Local Open Scope list_scope.

(** ** Python strings *)

Abbreviation str := (list N).

(** A source literal made of ASCII characters. *)
Definition py (s : string) : str :=
  List.map N_of_ascii (list_ascii_of_string s).

(** The rupee sign, U+20B9. *)
Definition rupee : N := 8377.

(** [c in '0123456789'] for a one-character [c]. *)
Definition is_digit (c : N) : bool := (48 <=? c) && (c <=? 57).

(** [''.join(c for c in s if c in '0123456789')] *)
Definition digits_of (s : str) : str := List.filter is_digit s.

(** [s.replace(' ', '')] *)
Definition strip_spaces (s : str) : str :=
  List.filter (λ c, negb (c =? 32)) s.

(** [s.split(',')]: the pieces between the commas, at least one. *)
Fixpoint split_comma (s : str) : list str :=
  match s with
  | [] => [[]]
  | c :: s' =>
      if c =? 44 then [] :: split_comma s'
      else match split_comma s' with
           | [] => [[c]]
           | t :: ts => (c :: t) :: ts
           end
  end.

(** [sep.join(pieces)] *)
Fixpoint join (sep : str) (pieces : list str) : str :=
  match pieces with
  | [] => []
  | [piece] => piece
  | piece :: rest => piece ++ sep ++ join sep rest
  end.

(** [needle in hay]: [needle] occurs as a contiguous block of [hay]. *)
Fixpoint starts_with (needle hay : str) : bool :=
  match needle, hay with
  | [], _ => true
  | _ :: _, [] => false
  | x :: n', y :: h' => (x =? y) && starts_with n' h'
  end.

Fixpoint contains (needle hay : str) : bool :=
  starts_with needle hay ||
  match hay with
  | [] => false
  | _ :: h' => contains needle h'
  end.

(** The lowering of ASCII text: [A]..[Z] to [a]..[z], the rest unchanged. *)
Definition ascii_lower_char (c : N) : N :=
  if (65 <=? c) && (c <=? 90) then c + 32 else c.

Definition ascii_lower (s : str) : str := List.map ascii_lower_char s.

Definition is_ascii (s : str) : bool := forallb (λ c, c <? 128) s.

(** [str(n)] and the [{n}] of an f-string, for an integer. *)
Fixpoint uint_digits (u : Decimal.uint) : str :=
  match u with
  | Decimal.Nil => []
  | Decimal.D0 u => 48 :: uint_digits u
  | Decimal.D1 u => 49 :: uint_digits u
  | Decimal.D2 u => 50 :: uint_digits u
  | Decimal.D3 u => 51 :: uint_digits u
  | Decimal.D4 u => 52 :: uint_digits u
  | Decimal.D5 u => 53 :: uint_digits u
  | Decimal.D6 u => 54 :: uint_digits u
  | Decimal.D7 u => 55 :: uint_digits u
  | Decimal.D8 u => 56 :: uint_digits u
  | Decimal.D9 u => 57 :: uint_digits u
  end.

Definition str_of_int (z : Z) : str :=
  match Z.to_int z with
  | Decimal.Pos u => uint_digits u
  | Decimal.Neg u => 45 :: uint_digits u
  end.

(** ** Exceptions *)

Inductive exn : Type :=
| KeyError (key : string)
| ValueError
| AttributeError.

Inductive result (A : Type) : Type :=
| Ok (a : A)
| Raise (e : exn).
Arguments Ok {A} a.
Arguments Raise {A} e.

Global Instance result_bind : MBind result :=
  λ A B k r, match r with
             | Ok a => k a
             | Raise e => Raise e
             end.

(** [try: body  except: handler] with a bare [except]. *)
Definition catch {A} (body : result A) (handler : A) : A :=
  match body with
  | Ok a => a
  | Raise _ => handler
  end.

(** [d[k]] *)
Definition getitem {V} (d : gmap string V) (k : string) : result V :=
  match d !! k with
  | Some v => Ok v
  | None => Raise (KeyError k)
  end.

(** [int(s)] on a string of ASCII digits. *)
Definition digit_val (c : N) : Z := Z.of_N c - 48.

Definition int_of_digits (s : str) : Z :=
  fold_left (λ acc c, 10 * acc + digit_val c)%Z s 0%Z.

(** The test CPython makes before it converts a string of digits: one of
    more than 640 digits is refused when the limit is set and the string
    has more digits than the limit, leading zeros included. *)
Definition exceeds_limit (max_str_digits : nat) (s : str) : bool :=
  (640 <? length s)%nat && (0 <? max_str_digits)%nat
  && (max_str_digits <? length s)%nat.

Definition py_int (max_str_digits : nat) (s : str) : result Z :=
  match s with
  | [] => Raise ValueError
  | _ :: _ =>
      if exceeds_limit max_str_digits s then Raise ValueError
      else Ok (int_of_digits s)
  end.

(** The limit of an interpreter started with its defaults. *)
Definition default_max_str_digits : nat := 4300.

(** ** Values held by the comparison record *)

Inductive value : Type :=
| VInt (z : Z)
| VStr (s : str).

Global Instance value_eq_dec : EqDecision value.
Proof. solve_decision. Defined.

(** The [{v}] of an f-string. *)
Definition format_value (v : value) : str :=
  match v with
  | VInt z => str_of_int z
  | VStr s => s
  end.

(** ** logic_blocks/comparison_logic.py *)

(** [len(x) / len(y)], kept exact. *)
Definition true_div (n m : nat) : Q :=
  (inject_Z (Z.of_nat n) / inject_Z (Z.of_nat m))%Q.

Section Engine.

(** [str.lower] *)
Variable lower : str → str.

(** [sys.get_int_max_str_digits()] *)
Variable max_str_digits : nat.

(** [_extract_price]: [int(digits) if digits else 0]. *)
Definition _extract_price (price_str : str) : result Z :=
  let digits := digits_of price_str in
  match digits with
  | [] => Ok 0%Z
  | _ :: _ => py_int max_str_digits digits
  end.

(** [int(''.join(c for c in s[:3] if c in '0123456789'))] *)
Definition leading_int (s : str) : result Z :=
  py_int max_str_digits (digits_of (take 3 s)).

(** The [try] block of [compare_products]: both concentrations, or both
    [0] as soon as anything in the block raises. *)
Definition extract_concentrations (product_a product_b : gmap string str)
  : Z * Z :=
  catch (conc_str_a ← getitem product_a "concentration";
         conc_a ← leading_int conc_str_a;
         conc_str_b ← getitem product_b "concentration";
         conc_b ← leading_int conc_str_b;
         Ok (conc_a, conc_b))
        (0%Z, 0%Z).

(** [set(s.lower().replace(' ', '').split(','))] *)
Definition token_set (s : str) : gset str :=
  list_to_set (split_comma (strip_spaces (lower s))).

Definition _analyze_skin_type_overlap (skin_type_a skin_type_b : str) : str :=
  let types_a := token_set skin_type_a in
  let types_b := token_set skin_type_b in
  let overlap := types_a ∩ types_b in
  if contains (py "all") (lower skin_type_b)
     || contains (py "all") (lower skin_type_a)
  then py "One product suits all skin types"
  else if (size overlap =? 0)%nat
  then py "Different target skin types"
  else if (size overlap =? size types_a)%nat
          && (size overlap =? size types_b)%nat
  then py "Identical skin type targeting"
  else py "Partial overlap in skin types".

Definition _calculate_ingredient_overlap (ingredients_a ingredients_b : str) : str :=
  let ing_a := token_set ingredients_a in
  let ing_b := token_set ingredients_b in
  let overlap := ing_a ∩ ing_b in
  let total := ing_a ∪ ing_b in
  if (size total =? 0)%nat then py "Unknown"
  else
    let similarity := true_div (size overlap) (size total) in
    if Qlt_le_dec (7 # 10) similarity then py "High similarity"
    else if Qlt_le_dec (3 # 10) similarity then py "Medium similarity"
    else py "Different formulations".

Definition _determine_versatility (skin_type_a skin_type_b : str) : str :=
  if contains (py "all") (lower skin_type_b) then py "product_b"
  else if contains (py "all") (lower skin_type_a) then py "product_a"
  else
    let count_a := length (split_comma skin_type_a) in
    let count_b := length (split_comma skin_type_b) in
    if (count_b <? count_a)%nat then py "product_a" else py "product_b".

Definition compare_products (product_a product_b : gmap string str)
  : result (gmap string value) :=
  price_str_a ← getitem product_a "price";
  price_a ← _extract_price price_str_a;
  price_str_b ← getitem product_b "price";
  price_b ← _extract_price price_str_b;
  let '(conc_a, conc_b) := extract_concentrations product_a product_b in
  name_a ← getitem product_a "name";
  name_b ← getitem product_b "name";
  skin_type_a ← getitem product_a "skin_type";
  skin_type_b ← getitem product_b "skin_type";
  ingredients_a ← getitem product_a "key_ingredients";
  ingredients_b ← getitem product_b "key_ingredients";
  Ok (list_to_map
        [ ("product_a_name", VStr name_a);
          ("product_b_name", VStr name_b);
          ("price_a", VInt price_a);
          ("price_b", VInt price_b);
          ("price_diff", VInt (Z.abs (price_a - price_b)));
          ("cheaper_product",
            VStr (if (price_a <? price_b)%Z then name_a else name_b));
          ("better_price",
            VStr (if (price_a <? price_b)%Z
                  then py "product_a" else py "product_b"));
          ("concentration_a", VInt conc_a);
          ("concentration_b", VInt conc_b);
          ("concentration_diff",
            VStr (str_of_int (Z.abs (conc_a - conc_b)) ++ py "%"));
          ("higher_concentration",
            VStr (if (conc_b <? conc_a)%Z then name_a else name_b));
          ("skin_type_a", VStr skin_type_a);
          ("skin_type_b", VStr skin_type_b);
          ("skin_type_match",
            VStr (_analyze_skin_type_overlap skin_type_a skin_type_b));
          ("ingredients_a", VStr ingredients_a);
          ("ingredients_b", VStr ingredients_b);
          ("ingredient_similarity",
            VStr (_calculate_ingredient_overlap ingredients_a ingredients_b));
          ("more_versatile",
            VStr (_determine_versatility skin_type_a skin_type_b)) ]).

(** [v.lower()] for a value of the comparison record: only a string
    has the method. *)
Definition value_lower (v : value) : result str :=
  match v with
  | VStr s => Ok (lower s)
  | VInt _ => Raise AttributeError
  end.

Definition generate_comparison_analysis
    (product_a product_b : gmap string str) (comparison : gmap string value)
  : result str :=
  (* Paragraph 1: Overview *)
  name_a ← getitem product_a "name";
  name_b ← getitem product_b "name";
  concentration_a ← getitem product_a "concentration";
  skin_type_a ← getitem product_a "skin_type";
  concentration_b ← getitem product_b "concentration";
  skin_type_b ← getitem product_b "skin_type";
  let para1 :=
    concat
      [ py "Both "; name_a; py " and "; name_b;
        py " are skincare serums designed to improve skin health and appearance. ";
        name_a; py " features "; concentration_a;
        py " and is formulated for "; skin_type_a; py " skin, while ";
        name_b; py " contains "; concentration_b; py " and targets ";
        skin_type_b;
        py " skin. These products serve different needs in a comprehensive skincare routine." ] in
  (* Paragraph 2: Key Differences *)
  cheaper_product ← getitem comparison "cheaper_product";
  better_price ← getitem comparison "better_price";
  price ← (if decide (better_price = VStr (py "product_a"))
           then getitem comparison "price_a"
           else getitem comparison "price_b");
  let price_comparison :=
    concat [ format_value cheaper_product; py " is more affordable at ";
             [rupee]; format_value price ] in
  conc_a ← getitem comparison "concentration_a";
  conc_b ← getitem comparison "concentration_b";
  conc_comparison ←
    (if decide (conc_a ≠ conc_b)
     then higher ← getitem comparison "higher_concentration";
          Ok (format_value higher ++ py " has a higher concentration")
     else Ok (py "Both have similar concentrations"));
  similarity ← getitem comparison "ingredient_similarity";
  similarity_lower ← value_lower similarity;
  let ingredient_note := py "The formulations show " ++ similarity_lower in
  ingredients_a ← getitem product_a "key_ingredients";
  ingredients_b ← getitem product_b "key_ingredients";
  let para2 :=
    concat
      [ py "Key differences include formulation and targeting. ";
        conc_comparison;
        py ", which may indicate different potency levels. ";
        ingredient_note; py ", with "; name_a; py " focusing on ";
        ingredients_a; py " and "; name_b; py " utilizing "; ingredients_b;
        py ". In terms of pricing, "; price_comparison;
        py ", making it the more budget-friendly option." ] in
  (* Paragraph 3: Value Assessment *)
  more_versatile ← getitem comparison "more_versatile";
  let versatility_winner :=
    if decide (more_versatile = VStr (py "product_a"))
    then name_a else name_b in
  benefits_a ← getitem product_a "benefits";
  benefits_b ← getitem product_b "benefits";
  price_diff ← getitem comparison "price_diff";
  let para3 :=
    concat
      [ versatility_winner;
        py " offers greater versatility in terms of skin type compatibility. For those seeking ";
        lower benefits_a; py ", "; name_a;
        py " is the clear choice, while "; name_b; py " excels at ";
        lower benefits_b; py ". The price difference of "; [rupee];
        format_value price_diff;
        py " should be weighed against your specific skin concerns and budget constraints." ] in
  Ok (concat [ para1; [10; 10]; para2; [10; 10]; para3 ]).

(** ** agents/comparison_agent.py *)

Definition _recommend_for_skin_type
    (product_a product_b : gmap string str) (skin_type : str) : result str :=
  skin_type_a ← getitem product_a "skin_type";
  let a_compatible := contains (lower skin_type) (lower skin_type_a) in
  skin_type_b ← getitem product_b "skin_type";
  let b_compatible := contains (lower skin_type) (lower skin_type_b) in
  if a_compatible && negb b_compatible then getitem product_a "name"
  else if b_compatible && negb a_compatible then getitem product_b "name"
  else Ok (py "Both products suitable").

Definition _recommend_by_price (product_a product_b : gmap string str)
  : result str :=
  price_str_a ← getitem product_a "price";
  price_a ← py_int max_str_digits (digits_of price_str_a);
  price_str_b ← getitem product_b "price";
  price_b ← py_int max_str_digits (digits_of price_str_b);
  if (price_a <? price_b)%Z then getitem product_a "name"
  else getitem product_b "name".

Definition _recommend_by_effectiveness (product_a product_b : gmap string str)
  : str :=
  catch (conc_str_a ← getitem product_a "concentration";
         conc_a ← leading_int conc_str_a;
         conc_str_b ← getitem product_b "concentration";
         conc_b ← leading_int conc_str_b;
         if (conc_b <=? conc_a)%Z then getitem product_a "name"
         else getitem product_b "name")
        (py "Both equally effective").

Definition _generate_recommendations
    (product_a product_b : gmap string str) (comparison : gmap string value)
  : result (gmap string str) :=
  for_oily_skin ← _recommend_for_skin_type product_a product_b (py "oily");
  for_sensitive_skin ←
    _recommend_for_skin_type product_a product_b (py "sensitive");
  for_budget_conscious ← _recommend_by_price product_a product_b;
  let for_maximum_results := _recommend_by_effectiveness product_a product_b in
  Ok (list_to_map
        [ ("for_oily_skin", for_oily_skin);
          ("for_sensitive_skin", for_sensitive_skin);
          ("for_budget_conscious", for_budget_conscious);
          ("for_maximum_results", for_maximum_results) ]).

End Engine.

(** [comparison.get(k) == 'product_a'] *)
Definition marks_a (comparison : gmap string value) (k : string) : bool :=
  bool_decide (comparison !! k = Some (VStr (py "product_a"))).

Definition _determine_winner (comparison : gmap string value) : value :=
  let score_a := 0%nat in
  let score_b := 0%nat in
  (* Price factor *)
  let '(score_a, score_b) :=
    if marks_a comparison "better_price"
    then (score_a + 1, score_b)%nat else (score_a, score_b + 1)%nat in
  (* Versatility factor *)
  let '(score_a, score_b) :=
    if marks_a comparison "more_versatile"
    then (score_a + 1, score_b)%nat else (score_a, score_b + 1)%nat in
  if (score_b <? score_a)%nat
  then default (VStr (py "Product A")) (comparison !! "product_a_name")
  else if (score_a <? score_b)%nat
  then default (VStr (py "Product B")) (comparison !! "product_b_name")
  else VStr (py "Tie - Both excellent choices").


(** * Vocabulary of the statements *)

(** The fields of a ProductRecord. *)
Definition ProductRecord_fields : list string :=
  ["name"; "price"; "concentration"; "skin_type"; "key_ingredients"; "benefits"].

(** Every field of the record is present (and, by the type of the map, a
    string). *)
Definition well_formed (p : gmap string str) : Prop :=
  Forall (λ k, is_Some (p !! k)) ProductRecord_fields.

(** The fields [compare_products] reads outside its [try] block. *)
Definition compare_fields : list string :=
  ["name"; "price"; "skin_type"; "key_ingredients"].

(** The string stored under [k]. *)
Definition field (p : gmap string str) (k : string) : str :=
  default [] (p !! k).

(** ** The numbers, in the words of the specification *)

(** The decimal digits of a string, in their order. *)
Definition digits_among (s : str) : str :=
  List.filter (λ c, bool_decide (48 ≤ c ∧ c ≤ 57)) s.

(** The number a string of digits writes in base ten: each digit counts
    for its value times the power of ten of its position. *)
Fixpoint decimal (digits : str) : Z :=
  match digits with
  | [] => 0
  | d :: rest =>
      (Z.of_N d - 48) * 10 ^ Z.of_nat (length rest) + decimal rest
  end%Z.

(** The extracted price: the number the digits of the price string write,
    [0] when it holds none. *)
Definition price_value (s : str) : Z := decimal (digits_among s).

(** The price string is one [int] converts under the limit [limit]: its
    digits are at most 640, or there is no limit, or they are at most the
    limit. *)
Definition converts (limit : nat) (s : str) : Prop :=
  (length (digits_among s) ≤ 640 ∨ limit = 0
   ∨ length (digits_among s) ≤ limit)%nat.

(** The first three characters of a string, or all of a shorter one. *)
Definition first_three (s : str) : str :=
  match s with
  | c1 :: c2 :: c3 :: _ => [c1; c2; c3]
  | _ => s
  end.

(** The extracted concentration: the number written by the digits found
    among the first three characters; none when no digit stands there. *)
Definition concentration_read (s : str) : option Z :=
  match digits_among (first_three s) with
  | [] => None
  | d :: rest => Some (decimal (d :: rest))
  end.

(** The extracted concentration of a record; none when the field is
    absent. *)
Definition concentration_in (p : gmap string str) : option Z :=
  match p !! "concentration" with
  | Some s => concentration_read s
  | None => None
  end.

(** The two concentrations of the comparison record: those extracted, or
    [0] for both when either extraction fails. *)
Definition concentrations_in (a b : gmap string str) : Z * Z :=
  match concentration_in a, concentration_in b with
  | Some conc_a, Some conc_b => (conc_a, conc_b)
  | _, _ => (0, 0)%Z
  end.

(** ** The tokens, in the words of the specification *)

(** [stripped] is [s] without its spaces. *)
Inductive space_stripped : str → str → Prop :=
| stripped_nil : space_stripped [] []
| stripped_space s stripped :
    space_stripped s stripped → space_stripped (32 :: s) stripped
| stripped_char c s stripped :
    c ≠ 32 → space_stripped s stripped →
    space_stripped (c :: s) (c :: stripped).

(** [tokens] are what stands between the commas of [s]: no token holds a
    comma, and the tokens with a comma between each two are [s]. *)
Definition comma_split (s : str) (tokens : list str) : Prop :=
  tokens ≠ [] ∧ Forall (λ token, 44 ∉ token) tokens ∧ s = join [44] tokens.

(** The tokens of an ingredient string: those of the lower-cased,
    space-stripped string. *)
Definition tokens_of (lower : str → str) (s : str) (tokens : list str)
  : Prop :=
  ∃ stripped, space_stripped (lower s) stripped ∧ comma_split stripped tokens.

(** The Jaccard similarity of two lists of tokens, taken as sets. *)
Definition similarity_of (tokens_a tokens_b : list str) : Q :=
  let set_a : gset str := list_to_set tokens_a in
  let set_b : gset str := list_to_set tokens_b in
  true_div (size (set_a ∩ set_b)) (size (set_a ∪ set_b)).

(** The number of comma-separated tokens of a string: one more than it
    has commas. *)
Definition token_count (s : str) : nat :=
  S (length (List.filter (λ c, bool_decide (c = 44)) s)).

(** The entries of the comparison record, in terms of the two products. *)
Record comparison_of (lower : str → str) (a b : gmap string str)
    (c : gmap string value) : Prop := {
  cmp_name_a : c !! "product_a_name" = Some (VStr (field a "name"));
  cmp_name_b : c !! "product_b_name" = Some (VStr (field b "name"));
  cmp_price_a : c !! "price_a" = Some (VInt (price_value (field a "price")));
  cmp_price_b : c !! "price_b" = Some (VInt (price_value (field b "price")));
  cmp_price_diff :
    c !! "price_diff"
    = Some (VInt (Z.abs (price_value (field a "price")
                         - price_value (field b "price"))));
  cmp_cheaper :
    c !! "cheaper_product"
    = Some (VStr (if (price_value (field a "price")
                      <? price_value (field b "price"))%Z
                  then field a "name" else field b "name"));
  cmp_better_price :
    c !! "better_price"
    = Some (VStr (if (price_value (field a "price")
                      <? price_value (field b "price"))%Z
                  then py "product_a" else py "product_b"));
  cmp_conc_a :
    c !! "concentration_a" = Some (VInt (concentrations_in a b).1);
  cmp_conc_b :
    c !! "concentration_b" = Some (VInt (concentrations_in a b).2);
  cmp_conc_diff :
    c !! "concentration_diff"
    = Some (VStr (str_of_int (Z.abs ((concentrations_in a b).1
                                     - (concentrations_in a b).2))
                  ++ py "%"));
  cmp_higher :
    c !! "higher_concentration"
    = Some (VStr (if ((concentrations_in a b).2
                      <? (concentrations_in a b).1)%Z
                  then field a "name" else field b "name"));
  cmp_skin :
    c !! "skin_type_match"
    = Some (VStr (_analyze_skin_type_overlap lower (field a "skin_type")
                    (field b "skin_type")));
  cmp_ingredients :
    c !! "ingredient_similarity"
    = Some (VStr (_calculate_ingredient_overlap lower
                    (field a "key_ingredients") (field b "key_ingredients")));
  cmp_versatile :
    c !! "more_versatile"
    = Some (VStr (_determine_versatility lower (field a "skin_type")
                    (field b "skin_type")))
}.

(** The concentration read from the first 3 characters of the record's
    [concentration] string, as the source attempts it inside its [try]
    blocks. *)
Definition concentration_of (limit : nat) (p : gmap string str) : result Z :=
  conc_str ← getitem p "concentration"; leading_int limit conc_str.

(** The price the budget rule reads, with the unguarded [int]. *)
Definition price_of (limit : nat) (p : gmap string str) : result Z :=
  price_str ← getitem p "price"; py_int limit (digits_of price_str).

(** The Jaccard similarity of the token sets of two strings. *)
Definition jaccard (lower : str → str) (a b : str) : Q :=
  true_div (size (token_set lower a ∩ token_set lower b))
           (size (token_set lower a ∪ token_set lower b)).

(** What is known of [str.lower]: on ASCII text it is [ascii_lower]. *)
Definition lowers_ascii (lower : str → str) : Prop :=
  ∀ s, is_ascii s = true → lower s = ascii_lower s.

(** ** Records used as instances *)

(** The two records of the scenario of the specification. *)
Definition scenario_a : gmap string str :=
  list_to_map
    [ ("name", py "A"); ("price", rupee :: py "500");
      ("concentration", py "10% X"); ("skin_type", py "Oily");
      ("key_ingredients", py "X,Y") ].

Definition scenario_b : gmap string str :=
  list_to_map
    [ ("name", py "B"); ("price", rupee :: py "800");
      ("concentration", py "15% X"); ("skin_type", py "All");
      ("key_ingredients", py "X,Z") ].

(** The same two products as full records, with a benefits text. *)
Definition product_a : gmap string str :=
  <["benefits" := py "Brightening"]> scenario_a.

Definition product_b : gmap string str :=
  <["benefits" := py "Hydration"]> scenario_b.

(** The scenario's product_a with a price that holds no digit. *)
Definition unpriced_a : gmap string str :=
  <["price" := py "N/A"]> product_a.

(** The scenario's product_a under another name: the same price,
    concentration and skin type as product_a. *)
Definition twin_of_a : gmap string str :=
  <["name" := py "Twin"]> product_a.

(** The scenario's products with other skin types: one token that holds
    "all" against two that do not. *)
Definition all_skin_a : gmap string str :=
  <["skin_type" := py "All"]> product_a.

Definition two_skin_b : gmap string str :=
  <["skin_type" := py "Oily, Dry"]> product_b.

(** The scenario's products under one name. *)
Definition same_name_b : gmap string str :=
  <["name" := py "A"]> product_b.

(** The scenario's product_a without its concentration. *)
Definition no_concentration_a : gmap string str :=
  delete "concentration" product_a.

(** Three questions in two categories. *)
Definition sample_questions : list (gmap string str) :=
  [ list_to_map [ ("question", py "Is it safe?"); ("category", py "Safety") ];
    list_to_map [ ("question", py "How to use?"); ("category", py "Usage") ];
    list_to_map [ ("question", py "Any side effects?");
                  ("category", py "Safety") ] ].

(** The fields [_determine_winner] reads. *)
Definition winner_fields : list string :=
  ["better_price"; "more_versatile"; "product_a_name"; "product_b_name"].

(** A comparison record in which both factors go to product_a, for a
    product that is itself called "Tie - Both excellent choices". *)
Definition tie_named_comparison : gmap string value :=
  list_to_map
    [ ("product_a_name", VStr (py "Tie - Both excellent choices"));
      ("product_b_name", VStr (py "B"));
      ("better_price", VStr (py "product_a"));
      ("more_versatile", VStr (py "product_a")) ].

(** ** Binary64 *)

(** [n / m] as CPython computes it for small operands: both converted to
    binary64, then divided with one rounding. *)
Definition float_div (n m : nat) : float :=
  PrimFloat.div (PrimFloat.of_uint63 (Uint63.of_Z (Z.of_nat n)))
                (PrimFloat.of_uint63 (Uint63.of_Z (Z.of_nat m))).

(** For an overlap of [n] tokens out of [m], the tests [n / m > 0.7] and
    [n / m > 0.3] give in binary64 what they give on the exact quotient. *)
Definition thresholds_agree (n m : nat) : bool :=
  Bool.eqb (PrimFloat.ltb 0x1.6666666666666p-1%float (float_div n m))
           (if Qlt_le_dec (7 # 10) (true_div n m) then true else false)
  && Bool.eqb (PrimFloat.ltb 0x1.3333333333333p-2%float (float_div n m))
              (if Qlt_le_dec (3 # 10) (true_div n m) then true else false).

(** * The rest of the comparison page *)

(** [d.get(k, dflt)] *)
Definition get_or {V} (d : gmap string V) (k : string) (dflt : V) : V :=
  default dflt (d !! k).

(** ** Whitespace *)

(** [c.isspace()] for a one-character [c]: the whitespace characters of
    Unicode, as [str.strip] and [str.split] with no argument use them. *)
Definition is_space (c : N) : bool :=
  ((9 <=? c) && (c <=? 13)) || ((28 <=? c) && (c <=? 32))
  || (c =? 133) || (c =? 160) || (c =? 5760)
  || ((8192 <=? c) && (c <=? 8202))
  || (c =? 8232) || (c =? 8233) || (c =? 8239) || (c =? 8287)
  || (c =? 12288).

(** [s.lstrip(chars)] for the set of characters [drop]. *)
Fixpoint lstrip_of (drop : N → bool) (s : str) : str :=
  match s with
  | [] => []
  | c :: s' => if drop c then lstrip_of drop s' else s
  end.

(** [s.rstrip(chars)] *)
Definition rstrip_of (drop : N → bool) (s : str) : str :=
  rev (lstrip_of drop (rev s)).

(** [s.strip()] *)
Definition strip (s : str) : str :=
  rstrip_of is_space (lstrip_of is_space s).

(** ** agents/parser_agent.py *)

Module ParserAgent.

(** [process]; the two log lines are left out. *)
Definition process (raw_data : gmap string str) : gmap string str :=
  list_to_map
    [ ("product_id", py "GLOW_001");
      ("name", get_or raw_data "name" []);
      ("concentration", get_or raw_data "concentration" []);
      ("skin_type", get_or raw_data "skin_type" []);
      ("key_ingredients", get_or raw_data "key_ingredients" []);
      ("benefits", get_or raw_data "benefits" []);
      ("how_to_use", get_or raw_data "how_to_use" []);
      ("side_effects", get_or raw_data "side_effects" []);
      ("price", get_or raw_data "price" []) ].

End ParserAgent.

(** ** logic_blocks/comparison_logic.py, the table *)

(** A line of the template, after its indentation. *)
Definition indented (n : nat) (s : str) : str := replicate n 32 ++ s.

(** The double quote of [class="comparison-table"]. *)
Definition dquote : N := 34.

Definition generate_comparison_table (product_a product_b : gmap string str)
  : result str :=
  name_a ← getitem product_a "name";
  name_b ← getitem product_b "name";
  concentration_a ← getitem product_a "concentration";
  concentration_b ← getitem product_b "concentration";
  skin_type_a ← getitem product_a "skin_type";
  skin_type_b ← getitem product_b "skin_type";
  ingredients_a ← getitem product_a "key_ingredients";
  ingredients_b ← getitem product_b "key_ingredients";
  benefits_a ← getitem product_a "benefits";
  benefits_b ← getitem product_b "benefits";
  price_a ← getitem product_a "price";
  price_b ← getitem product_b "price";
  let html :=
    concat
      [ [10];
        indented 4 (py "<table class=" ++ [dquote] ++ py "comparison-table"
                    ++ [dquote] ++ py ">"); [10];
        indented 8 (py "<thead>"); [10];
        indented 12 (py "<tr>"); [10];
        indented 16 (py "<th>Feature</th>"); [10];
        indented 16 (py "<th>" ++ name_a ++ py "</th>"); [10];
        indented 16 (py "<th>" ++ name_b ++ py "</th>"); [10];
        indented 12 (py "</tr>"); [10];
        indented 8 (py "</thead>"); [10];
        indented 8 (py "<tbody>"); [10];
        indented 12 (py "<tr>"); [10];
        indented 16 (py "<td>Concentration</td>"); [10];
        indented 16 (py "<td>" ++ concentration_a ++ py "</td>"); [10];
        indented 16 (py "<td>" ++ concentration_b ++ py "</td>"); [10];
        indented 12 (py "</tr>"); [10];
        indented 12 (py "<tr>"); [10];
        indented 16 (py "<td>Skin Type</td>"); [10];
        indented 16 (py "<td>" ++ skin_type_a ++ py "</td>"); [10];
        indented 16 (py "<td>" ++ skin_type_b ++ py "</td>"); [10];
        indented 12 (py "</tr>"); [10];
        indented 12 (py "<tr>"); [10];
        indented 16 (py "<td>Key Ingredients</td>"); [10];
        indented 16 (py "<td>" ++ ingredients_a ++ py "</td>"); [10];
        indented 16 (py "<td>" ++ ingredients_b ++ py "</td>"); [10];
        indented 12 (py "</tr>"); [10];
        indented 12 (py "<tr>"); [10];
        indented 16 (py "<td>Benefits</td>"); [10];
        indented 16 (py "<td>" ++ benefits_a ++ py "</td>"); [10];
        indented 16 (py "<td>" ++ benefits_b ++ py "</td>"); [10];
        indented 12 (py "</tr>"); [10];
        indented 12 (py "<tr>"); [10];
        indented 16 (py "<td>Price</td>"); [10];
        indented 16 (py "<td><strong>" ++ price_a ++ py "</strong></td>"); [10];
        indented 16 (py "<td><strong>" ++ price_b ++ py "</strong></td>"); [10];
        indented 12 (py "</tr>"); [10];
        indented 8 (py "</tbody>"); [10];
        indented 4 (py "</table>"); [10];
        indented 4 [] ] in
  Ok (strip html).

(** ** agents/comparison_agent.py, the page *)

(** The three characters the source file holds before the price
    difference of the insights: U+00E2, U+201A, U+00B9. *)
Definition insight_currency : str := [226; 8218; 185].

Definition _extract_insights (comparison : gmap string value) : list str :=
  [ py "Concentration difference: "
    ++ format_value (get_or comparison "concentration_diff" (VStr (py "N/A")));
    py "Price difference: " ++ insight_currency
    ++ format_value (get_or comparison "price_diff" (VStr (py "N/A")));
    py "Skin type compatibility: "
    ++ format_value (get_or comparison "skin_type_match" (VStr (py "Similar")));
    py "Ingredient overlap: "
    ++ format_value (get_or comparison "ingredient_similarity"
                       (VStr (py "Medium"))) ].

(** The values of a page: what [json.dump] will write. *)
#[local] Unset Elimination Schemes.
Inductive pyval : Type :=
| PStr (s : str)
| PInt (z : Z)
| PList (l : list pyval)
| PDict (d : gmap string pyval).
#[local] Set Elimination Schemes.

Definition pyval_of_value (v : value) : pyval :=
  match v with
  | VInt z => PInt z
  | VStr s => PStr s
  end.

(** ** templates/comparison_template.py *)

Module ComparisonTemplate.

Definition fill (data : gmap string pyval) : gmap string pyval :=
  list_to_map
    [ ("page_type", get_or data "page_type" (PStr (py "Product Comparison")));
      ("title", get_or data "title" (PStr []));
      ("product_a", get_or data "product_a" (PDict ∅));
      ("product_b", get_or data "product_b" (PDict ∅));
      ("detailed_comparison", get_or data "detailed_comparison" (PDict ∅));
      ("comparison_analysis", get_or data "comparison_analysis" (PStr []));
      ("recommendations", get_or data "recommendations" (PDict ∅));
      ("insights", get_or data "insights" (PList []));
      ("comparison_table_html", get_or data "comparison_table_html" (PStr []));
      ("winner", get_or data "winner" (PStr []));
      ("generated_at", get_or data "generated_at" (PStr [])) ].

End ComparisonTemplate.

Module ComparisonAgent.

Section Process.

(** [str.lower] *)
Variable lower : str → str.

(** [sys.get_int_max_str_digits()] *)
Variable max_str_digits : nat.

(** The inner dict the page holds for one product. *)
Definition product_entry (product : gmap string str) : result pyval :=
  name ← getitem product "name";
  concentration ← getitem product "concentration";
  skin_type ← getitem product "skin_type";
  ingredients ← getitem product "key_ingredients";
  benefits ← getitem product "benefits";
  price ← getitem product "price";
  Ok (PDict (list_to_map
               [ ("name", PStr name);
                 ("concentration", PStr concentration);
                 ("skin_type", PStr skin_type);
                 ("ingredients", PStr ingredients);
                 ("benefits", PStr benefits);
                 ("price", PStr price) ])).

(** [process]; [now] is what [datetime.now().isoformat()] returns when
    the page is assembled, and the log lines are left out. *)
Definition process (now : str) (data : gmap string (gmap string str))
  : result (gmap string pyval) :=
  let product_a := get_or data "product_a" ∅ in
  let product_b := get_or data "product_b" ∅ in
  comparison_details ←
    compare_products lower max_str_digits product_a product_b;
  analysis ←
    generate_comparison_analysis lower product_a product_b comparison_details;
  recommendations ←
    _generate_recommendations lower max_str_digits product_a product_b
      comparison_details;
  name_a ← getitem product_a "name";
  name_b ← getitem product_b "name";
  entry_a ← product_entry product_a;
  entry_b ← product_entry product_b;
  let insights := _extract_insights comparison_details in
  table ← generate_comparison_table product_a product_b;
  let winner := _determine_winner comparison_details in
  let comparison_data : gmap string pyval :=
    list_to_map
      [ ("page_type", PStr (py "Product Comparison"));
        ("title", PStr (name_a ++ py " vs " ++ name_b));
        ("product_a", entry_a);
        ("product_b", entry_b);
        ("detailed_comparison", PDict (pyval_of_value <$> comparison_details));
        ("comparison_analysis", PStr analysis);
        ("recommendations", PDict (PStr <$> recommendations));
        ("insights", PList (PStr <$> insights));
        ("comparison_table_html", PStr table);
        ("winner", pyval_of_value winner);
        ("generated_at", PStr now) ] in
  Ok (ComparisonTemplate.fill comparison_data).

End Process.

End ComparisonAgent.

(** * The FAQ agent and the benefits *)

(** [l[:count]] *)
Definition slice_to {A} (l : list A) (count : Z) : list A :=
  if (0 <=? count)%Z then take (Z.to_nat count) l
  else take (length l - Z.to_nat (- count)) l.

(** ** agents/faq_agent.py *)

Module FAQAgent.

(** One turn of the first loop of [_select_top_questions]. *)
Definition first_pass (count : Z)
    (state : gset str * list (gmap string str)) (q : gmap string str)
  : gset str * list (gmap string str) :=
  let '(categories_seen, selected) := state in
  let category := get_or q "category" [] in
  if bool_decide (category ∉ categories_seen)
     && (Z.of_nat (length selected) <? count)%Z
  then (categories_seen ∪ {[category]}, selected ++ [q])
  else (categories_seen, selected).

(** One turn of its second loop. *)
Definition second_pass (count : Z) (selected : list (gmap string str))
    (q : gmap string str) : list (gmap string str) :=
  if bool_decide (q ∉ selected) && (Z.of_nat (length selected) <? count)%Z
  then selected ++ [q]
  else selected.

Definition _select_top_questions (questions : list (gmap string str))
    (count : Z) : list (gmap string str) :=
  let '(categories_seen, selected) :=
    fold_left (first_pass count) questions (∅, []) in
  let remaining := (count - Z.of_nat (length selected))%Z in
  let selected :=
    if (0 <? remaining)%Z
    then fold_left (second_pass count) questions selected
    else selected in
  slice_to selected count.

Section Answers.

(** [str.lower] *)
Variable lower : str → str.

Definition _try_rule_based_answer (question_data product_data : gmap string str)
  : result str :=
  question_text ← getitem question_data "question";
  let question := lower question_text in
  if contains (py "price") question then
    Ok (py "The price of " ++ get_or product_data "name" (py "this product")
        ++ py " is " ++ get_or product_data "price" (py "available on request")
        ++ py ".")
  else if contains (py "side effects") question
          || contains (py "side effect") question then
    Ok (py "The known side effects are: "
        ++ get_or product_data "side_effects" (py "Please consult product label")
        ++ py ".")
  else if contains (py "how to use") question
          || contains (py "how do i apply") question then
    Ok (py "Usage instructions: "
        ++ get_or product_data "how_to_use" (py "Follow product instructions")
        ++ py ".")
  else if contains (py "skin type") question then
    Ok (get_or product_data "name" (py "This product")
        ++ py " is suitable for "
        ++ get_or product_data "skin_type" (py "various") ++ py " skin.")
  else if contains (py "ingredients") question then
    Ok (py "The key ingredients in "
        ++ get_or product_data "name" (py "this product") ++ py " are: "
        ++ get_or product_data "key_ingredients" (py "listed on packaging")
        ++ py ".")
  else if contains (py "benefits") question
          || contains (py "what does it do") question then
    Ok (get_or product_data "name" (py "This product")
        ++ py " provides the following benefits: "
        ++ get_or product_data "benefits" (py "multiple skin benefits")
        ++ py ".")
  else if contains (py "concentration") question then
    Ok (get_or product_data "name" (py "This product") ++ py " contains "
        ++ get_or product_data "concentration" (py "active ingredients")
        ++ py ".")
  else Ok [].

End Answers.

End FAQAgent.

(** ** logic_blocks/benefits_extractor.py *)

(** [s.split(sep)] for a one-character [sep]. *)
Fixpoint split_char (sep : N) (s : str) : list str :=
  match s with
  | [] => [[]]
  | c :: s' =>
      if c =? sep then [] :: split_char sep s'
      else match split_char sep s' with
           | [] => [[c]]
           | t :: ts => (c :: t) :: ts
           end
  end.

(** [s.split(sep, 1)]: cut at the first [sep], if there is one. *)
Fixpoint split_once (sep : N) (s : str) : list str :=
  match s with
  | [] => [[]]
  | c :: s' =>
      if c =? sep then [[]; s']
      else match split_once sep s' with
           | [] => [[c]]
           | t :: ts => (c :: t) :: ts
           end
  end.

(** The characters of ['0123456789.- ']. *)
Definition is_bullet (c : N) : bool :=
  is_digit c || (c =? 46) || (c =? 45) || (c =? 32).

Section Benefits.

(** [str.lower] *)
Variable lower : str → str.

(** One turn of the loop over the lines of the response.  Inside the
    [try], [parts[1]] is the only thing that can raise; the entry is
    appended when it does not. *)
Definition parse_line (benefits : list (gmap string str)) (line : str)
  : list (gmap string str) :=
  let line := lstrip_of is_bullet (strip line) in
  if contains [45] line && negb (bool_decide (line = [])) then
    let parts := split_once 45 line in
    match parts !! 0%nat, parts !! 1%nat with
    | Some name, Some description =>
        benefits ++ [ list_to_map [ ("name", strip name);
                                    ("description", strip description) ] ]
    | _, _ => benefits
    end
  else benefits.

(** One turn of the fallback loop over the listed benefits. *)
Definition fallback_benefit (benefits : list (gmap string str)) (benefit : str)
  : list (gmap string str) :=
  let benefit := strip benefit in
  if negb (bool_decide (benefit = [])) then
    benefits ++ [ list_to_map
                    [ ("name", benefit);
                      ("description",
                        py "This product provides " ++ lower benefit
                        ++ py " benefits.") ] ]
  else benefits.

(** [extract_benefits]; [response] is what [llm.generate] returned for
    the prompt (the empty string whenever the call failed). *)
Definition extract_benefits (response : str) (product_data : gmap string str)
  : list (gmap string str) :=
  let raw_benefits := get_or product_data "benefits" [] in
  let lines := split_char 10 (strip response) in
  let benefits := fold_left parse_line lines [] in
  if (length benefits =? 0)%nat
  then fold_left fallback_benefit (split_char 44 raw_benefits) benefits
  else benefits.

End Benefits.

Definition format_benefits_html (benefits : list (gmap string str))
  : result str :=
  html ← fold_left
           (λ (html : result str) (benefit : gmap string str),
              html ← html;
              name ← getitem benefit "name";
              description ← getitem benefit "description";
              Ok (html ++ py "<li><strong>" ++ name ++ py "</strong>: "
                  ++ description ++ py "</li>"))
           benefits (Ok (py "<ul>"));
  Ok (html ++ py "</ul>").

(** [[b['name'] for b in benefits]] *)
Fixpoint names_of (benefits : list (gmap string str)) : result (list str) :=
  match benefits with
  | [] => Ok []
  | b :: rest =>
      name ← getitem b "name";
      names ← names_of rest;
      Ok (name :: names)
  end.

Definition get_benefit_summary (benefits : list (gmap string str))
  : result str :=
  match benefits with
  | [] => Ok (py "Multiple skincare benefits")
  | _ :: _ =>
      benefit_names ← names_of (take 3 benefits);
      match benefit_names with
      | [name] => Ok name
      | [first; second] => Ok (first ++ py " and " ++ second)
      | _ =>
          Ok (join (py ", ") (slice_to benefit_names (-1)) ++ py ", and "
              ++ List.last benefit_names [])
      end
  end.

(** The entry the fallback of [extract_benefits] makes of one listed
    benefit. *)
Definition fallback_entry (lower : str → str) (benefit : str)
  : gmap string str :=
  list_to_map
    [ ("name", benefit);
      ("description",
        py "This product provides " ++ lower benefit ++ py " benefits.") ].

(** The keywords [_try_rule_based_answer] looks for. *)
Definition answer_keywords : list str :=
  [ py "price"; py "side effects"; py "side effect"; py "how to use";
    py "how do i apply"; py "skin type"; py "ingredients"; py "benefits";
    py "what does it do"; py "concentration" ].

(** [q.get("category", "")] *)
Definition category_of (q : gmap string str) : str := get_or q "category" [].

(** The categories of a list of questions. *)
Definition categories_of (questions : list (gmap string str)) : gset str :=
  list_to_set (category_of <$> questions).

(** What the first loop of [_select_top_questions] keeps true, once it
    has gone through the questions [done]. *)
Definition first_pass_inv (count : Z) (done : list (gmap string str))
    (state : gset str * list (gmap string str)) : Prop :=
  state.1 = categories_of state.2 ∧
  NoDup (category_of <$> state.2) ∧
  (∀ q, q ∈ state.2 → q ∈ done) ∧
  (Z.of_nat (length state.2) ≤ Z.max 0 count)%Z ∧
  ((Z.of_nat (length state.2) < count)%Z → categories_of done ⊆ state.1).

(** What its second loop keeps true. *)
Definition second_pass_inv (count : Z) (questions done : list (gmap string str))
    (selected : list (gmap string str)) : Prop :=
  NoDup selected ∧
  (∀ q, q ∈ selected → q ∈ questions) ∧
  (Z.of_nat (length selected) ≤ Z.max 0 count)%Z ∧
  ((Z.of_nat (length selected) < count)%Z → ∀ q, q ∈ done → q ∈ selected).

(** ** Vocabulary for the page *)

(** [piece] occurs in [text] as a contiguous block. *)
Definition occurs_in (piece text : str) : Prop :=
  ∃ before after, text = before ++ piece ++ after.

(** The keys of a parsed product. *)
Definition parsed_fields : list string :=
  ["product_id"; "name"; "concentration"; "skin_type"; "key_ingredients";
   "benefits"; "how_to_use"; "side_effects"; "price"].

(** The keys the parser copies from the raw record. *)
Definition copied_fields : list string :=
  ["name"; "concentration"; "skin_type"; "key_ingredients"; "benefits";
   "how_to_use"; "side_effects"; "price"].

(** The keys of a comparison page. *)
Definition page_fields : list string :=
  ["page_type"; "title"; "product_a"; "product_b"; "detailed_comparison";
   "comparison_analysis"; "recommendations"; "insights";
   "comparison_table_html"; "winner"; "generated_at"].

(** * Proofs *)

(** ** Lookups *)

Lemma getitem_field {p : gmap string str} {k : string} :
  is_Some (p !! k) → getitem p k = Ok (field p k).
Proof. intros [v Hv]. unfold getitem, field. now rewrite Hv. Qed.

Lemma getitem_some {V} (p : gmap string V) (k : string) (v : V) :
  p !! k = Some v → getitem p k = Ok v.
Proof. intros Hk. unfold getitem. now rewrite Hk. Qed.

Lemma getitem_absent {V} (p : gmap string V) (k : string) :
  p !! k = None → getitem p k = Raise (KeyError k).
Proof. intros Hk. unfold getitem. now rewrite Hk. Qed.

(** What [Forall] says about each key of a literal list of fields. *)
Ltac fields_of H :=
  unfold well_formed, ProductRecord_fields, compare_fields in H;
  repeat (let Hk := fresh "Hk" in
          apply Forall_cons in H as [Hk H];
          try rewrite (getitem_field Hk) in *);
  clear H.

Lemma well_formed_compare_fields (p : gmap string str) :
  well_formed p → Forall (λ k, is_Some (p !! k)) compare_fields.
Proof.
  unfold well_formed, ProductRecord_fields, compare_fields.
  rewrite !Forall_cons. tauto.
Qed.

(** ** Numeric extraction *)

Lemma digits_of_idempotent (s : str) : digits_of (digits_of s) = digits_of s.
Proof.
  unfold digits_of. induction s as [|c s IH]; [reflexivity|].
  simpl. destruct (is_digit c) eqn:Hc; [|exact IH].
  simpl. rewrite Hc, IH. reflexivity.
Qed.

(** The generator of the source keeps the decimal digits. *)
Lemma digits_of_among (s : str) : digits_of s = digits_among s.
Proof.
  unfold digits_of, digits_among. induction s as [|c s IH]; [reflexivity|].
  cbn [List.filter]. rewrite IH.
  replace (is_digit c) with (bool_decide (48 ≤ c ∧ c ≤ 57)); [reflexivity|].
  unfold is_digit.
  destruct (N.leb_spec 48 c), (N.leb_spec c 57); cbn [andb];
    (apply bool_decide_eq_true_2 || apply bool_decide_eq_false_2); lia.
Qed.

Lemma int_of_digits_acc (s : str) (acc : Z) :
  fold_left (λ acc c, 10 * acc + digit_val c)%Z s acc
  = (acc * 10 ^ Z.of_nat (length s) + decimal s)%Z.
Proof.
  revert acc. induction s as [|c s IH]; intros acc.
  - cbn [fold_left decimal length]. lia.
  - cbn [fold_left decimal length]. rewrite IH. unfold digit_val.
    rewrite Nat2Z.inj_succ, Z.pow_succ_r by lia. ring.
Qed.

(** [int] reads a string of digits in base ten. *)
Lemma int_of_digits_decimal (s : str) : int_of_digits s = decimal s.
Proof. unfold int_of_digits. rewrite int_of_digits_acc. lia. Qed.

Lemma exceeds_limit_converts (limit : nat) (s : str) :
  exceeds_limit limit (digits_of s) = false ↔ converts limit s.
Proof.
  unfold exceeds_limit, converts. rewrite digits_of_among.
  destruct (Nat.ltb_spec 640 (length (digits_among s))),
    (Nat.ltb_spec 0 limit), (Nat.ltb_spec limit (length (digits_among s)));
    cbn [andb]; split; intros Hc; try reflexivity; try discriminate Hc; lia.
Qed.

Lemma extract_price_spec (limit : nat) (s : str) :
  _extract_price limit s
  = if exceeds_limit limit (digits_of s) then Raise ValueError
    else Ok (price_value s).
Proof.
  unfold _extract_price, price_value, py_int. cbv zeta.
  rewrite <- digits_of_among, <- int_of_digits_decimal.
  destruct (digits_of s); reflexivity.
Qed.

Lemma extract_price_ok (limit : nat) (s : str) :
  converts limit s → _extract_price limit s = Ok (price_value s).
Proof.
  intros Hs. rewrite extract_price_spec.
  apply exceeds_limit_converts in Hs. rewrite Hs. reflexivity.
Qed.

Lemma extract_price_raises (limit : nat) (s : str) :
  ¬ converts limit s → _extract_price limit s = Raise ValueError.
Proof.
  intros Hs. rewrite extract_price_spec.
  destruct (exceeds_limit limit (digits_of s)) eqn:Hl; [reflexivity|].
  apply exceeds_limit_converts in Hl. contradiction.
Qed.

Lemma converts_dec (limit : nat) (s : str) :
  converts limit s ∨ ¬ converts limit s.
Proof.
  destruct (exceeds_limit limit (digits_of s)) eqn:Hl.
  - right. intros Hs. apply exceeds_limit_converts in Hs. congruence.
  - left. apply exceeds_limit_converts, Hl.
Qed.

(** A price without a digit is read as 0, whatever the limit. *)
Lemma price_without_digits (limit : nat) (s : str) :
  digits_of s = [] → converts limit s ∧ price_value s = 0%Z.
Proof.
  intros Hd. rewrite digits_of_among in Hd. unfold converts, price_value.
  rewrite Hd. cbn [length decimal]. split; [lia | reflexivity].
Qed.

(** Extraction reads nothing but the digits. *)
Lemma extract_price_digits (limit : nat) (s : str) :
  _extract_price limit (digits_of s) = _extract_price limit s.
Proof. unfold _extract_price. rewrite digits_of_idempotent. reflexivity. Qed.

Example extract_price_examples (limit : nat) :
  _extract_price limit (rupee :: py "500") = Ok 500%Z ∧
  _extract_price limit (py "Rs. 1,299.00") = Ok 129900%Z ∧
  _extract_price limit (py "N/A") = Ok 0%Z ∧
  _extract_price limit [] = Ok 0%Z.
Proof. repeat split. Qed.

(** A price of 4301 digits under the default limit, and without limit. *)
Example extract_price_limit :
  _extract_price default_max_str_digits (rupee :: repeat 49 4301)
  = Raise ValueError ∧
  _extract_price default_max_str_digits (rupee :: repeat 48 4301)
  = Raise ValueError ∧
  (∃ z, _extract_price default_max_str_digits (rupee :: repeat 49 4300) = Ok z) ∧
  (∃ z, _extract_price 0 (rupee :: repeat 49 4301) = Ok z).
Proof.
  split; [vm_compute; reflexivity|]. split; [vm_compute; reflexivity|].
  split; eexists; apply extract_price_ok.
  - right. right. vm_compute. lia.
  - right. left. reflexivity.
Qed.

Lemma take_first_three (s : str) : take 3 s = first_three s.
Proof. destruct s as [|c1 [|c2 [|c3 s]]]; reflexivity. Qed.

Lemma digits_among_length (s : str) :
  (length (digits_among s) ≤ length s)%nat.
Proof. unfold digits_among. apply List.filter_length_le. Qed.

(** The slice and the generator of the source read the concentration of
    the first three characters; three digits are under any limit. *)
Lemma leading_int_spec (limit : nat) (s : str) :
  leading_int limit s
  = match concentration_read s with
    | Some conc => Ok conc
    | None => Raise ValueError
    end.
Proof.
  unfold leading_int, concentration_read, py_int.
  rewrite take_first_three, digits_of_among.
  assert (Hlen : (length (digits_among (first_three s)) ≤ 3)%nat).
  { etransitivity; [apply digits_among_length|].
    destruct s as [|c1 [|c2 [|c3 s]]]; cbn [first_three length]; lia. }
  destruct (digits_among (first_three s)) as [|d rest]; [reflexivity|].
  rewrite int_of_digits_decimal.
  replace (exceeds_limit limit (d :: rest)) with false; [reflexivity|].
  unfold exceeds_limit.
  destruct (Nat.ltb_spec 640 (length (d :: rest))); [lia | reflexivity].
Qed.

Lemma concentration_of_spec (limit : nat) (p : gmap string str) :
  concentration_of limit p
  = match p !! "concentration" with
    | None => Raise (KeyError "concentration")
    | Some s => match concentration_read s with
                | Some conc => Ok conc
                | None => Raise ValueError
                end
    end.
Proof.
  unfold concentration_of, getitem.
  destruct (p !! "concentration") as [s|]; [|reflexivity].
  cbn [mbind result_bind]. apply leading_int_spec.
Qed.

Lemma concentration_of_in (limit : nat) (p : gmap string str) (conc : Z) :
  concentration_of limit p = Ok conc ↔ concentration_in p = Some conc.
Proof.
  rewrite concentration_of_spec. unfold concentration_in.
  destruct (p !! "concentration") as [s|]; [|split; discriminate].
  destruct (concentration_read s); split; congruence.
Qed.

Lemma concentration_of_fails (limit : nat) (p : gmap string str) :
  (∃ e, concentration_of limit p = Raise e) ↔ concentration_in p = None.
Proof.
  rewrite concentration_of_spec. unfold concentration_in.
  destruct (p !! "concentration") as [s|].
  - destruct (concentration_read s); split;
      [intros [e He]; discriminate He | discriminate | reflexivity | eauto].
  - split; [reflexivity | eauto].
Qed.

(** The slice keeps three characters, whatever follows them. *)
Example leading_int_examples (limit : nat) :
  leading_int limit (py "10% Niacinamide") = Ok 10%Z ∧
  leading_int limit (py "2.5% X") = Ok 25%Z ∧
  leading_int limit (py "100% pure") = Ok 100%Z ∧
  leading_int limit (py "1234") = Ok 123%Z ∧
  leading_int limit (py "5 to 10%") = Ok 5%Z ∧
  leading_int limit (rupee :: py "12%") = Ok 12%Z ∧
  leading_int limit (py "N/A") = Raise ValueError ∧
  leading_int limit (py "ca. 5%") = Raise ValueError.
Proof. repeat split. Qed.

(** ** The concentrations of the comparison record *)

Lemma extract_concentrations_cases (limit : nat) (a b : gmap string str) :
  extract_concentrations limit a b
  = match concentration_of limit a, concentration_of limit b with
    | Ok conc_a, Ok conc_b => (conc_a, conc_b)
    | _, _ => (0, 0)%Z
    end.
Proof.
  unfold extract_concentrations, concentration_of.
  destruct (getitem a "concentration") as [sa|ea]; simpl; [|reflexivity].
  destruct (leading_int limit sa) as [ca|ea]; simpl; [|reflexivity].
  destruct (getitem b "concentration") as [sb|eb]; simpl; [|reflexivity].
  destruct (leading_int limit sb) as [cb|eb]; reflexivity.
Qed.

Lemma extract_concentrations_spec (limit : nat) (a b : gmap string str) :
  extract_concentrations limit a b = concentrations_in a b.
Proof.
  rewrite extract_concentrations_cases, !concentration_of_spec.
  unfold concentrations_in, concentration_in.
  destruct (a !! "concentration") as [sa|]; [|reflexivity].
  destruct (concentration_read sa); [|reflexivity].
  destruct (b !! "concentration") as [sb|]; [|reflexivity].
  destruct (concentration_read sb); reflexivity.
Qed.

Lemma concentrations_in_self (a : gmap string str) :
  (concentrations_in a a).1 = (concentrations_in a a).2.
Proof. unfold concentrations_in. destruct (concentration_in a); reflexivity. Qed.

(** A concentration without digits on both sides: both read as 0. *)
Example concentrations_without_digits (limit : nat) :
  extract_concentrations limit (<["concentration" := py "N/A"]> scenario_a)
                         (<["concentration" := py "N/A"]> scenario_b)
  = (0, 0)%Z ∧
  extract_concentrations limit scenario_a
                         (<["concentration" := py "N/A"]> scenario_b)
  = (0, 0)%Z.
Proof. split; vm_compute; reflexivity. Qed.

(** ** The comparison record *)

(** On records that hold the four fields and whose prices [int] converts,
    the comparison returns, with the entries [comparison_of] lists. *)
Lemma compare_products_ok lower limit (a b : gmap string str) :
  Forall (λ k, is_Some (a !! k)) compare_fields →
  Forall (λ k, is_Some (b !! k)) compare_fields →
  converts limit (field a "price") → converts limit (field b "price") →
  ∃ c, compare_products lower limit a b = Ok c ∧ comparison_of lower a b c.
Proof.
  intros Ha Hb Hpa Hpb. unfold compare_products.
  fields_of Ha. fields_of Hb.
  cbn [mbind result_bind].
  rewrite (extract_price_ok limit _ Hpa). cbn [mbind result_bind].
  rewrite (extract_price_ok limit _ Hpb). cbn [mbind result_bind].
  rewrite extract_concentrations_spec.
  destruct (concentrations_in a b) as [conc_a conc_b] eqn:Hconc.
  eexists. split; [reflexivity|].
  split; rewrite ?Hconc; reflexivity.
Qed.

(** The outcome of the comparison, lookup by lookup in the order of the
    source. *)
Lemma compare_products_outcome lower limit (a b : gmap string str) :
  (∃ c, compare_products lower limit a b = Ok c ∧
        Forall (λ k, is_Some (a !! k)) compare_fields ∧
        Forall (λ k, is_Some (b !! k)) compare_fields ∧
        converts limit (field a "price") ∧ converts limit (field b "price"))
  ∨ (∃ k, compare_products lower limit a b = Raise (KeyError k) ∧
          k ∈ compare_fields ∧ (a !! k = None ∨ b !! k = None))
  ∨ (compare_products lower limit a b = Raise ValueError ∧
     is_Some (a !! "price") ∧
     (¬ converts limit (field a "price")
      ∨ is_Some (b !! "price") ∧ ¬ converts limit (field b "price"))).
Proof.
  assert (Hin : ∀ k, k ∈ ["name"; "price"; "skin_type"; "key_ingredients"]
                     → k ∈ compare_fields) by (intros k Hk; exact Hk).
  unfold compare_products, getitem, field.
  destruct (a !! "price") as [pa|] eqn:Hpa; cbn [mbind result_bind default];
    [|right; left; exists "price"; repeat split; [apply Hin; set_solver | auto]].
  destruct (converts_dec limit pa) as [Hca|Hca];
    [rewrite (extract_price_ok limit pa Hca)
    |rewrite (extract_price_raises limit pa Hca)]; cbn [mbind result_bind];
    [|right; right; split; [reflexivity|]; split; [eauto | left; exact Hca]].
  destruct (b !! "price") as [pb|] eqn:Hpb; cbn [mbind result_bind default];
    [|right; left; exists "price"; repeat split; [apply Hin; set_solver | auto]].
  destruct (converts_dec limit pb) as [Hcb|Hcb];
    [rewrite (extract_price_ok limit pb Hcb)
    |rewrite (extract_price_raises limit pb Hcb)]; cbn [mbind result_bind];
    [|right; right; split; [reflexivity|]; split; [eauto|];
      right; split; [eauto | exact Hcb]].
  destruct (extract_concentrations limit a b) as [conc_a conc_b].
  destruct (a !! "name") as [na|] eqn:Hna; cbn [mbind result_bind];
    [|right; left; exists "name"; repeat split; [apply Hin; set_solver | auto]].
  destruct (b !! "name") as [nb|] eqn:Hnb; cbn [mbind result_bind];
    [|right; left; exists "name"; repeat split; [apply Hin; set_solver | auto]].
  destruct (a !! "skin_type") as [sa|] eqn:Hsa; cbn [mbind result_bind];
    [|right; left; exists "skin_type"; repeat split;
      [apply Hin; set_solver | auto]].
  destruct (b !! "skin_type") as [sb|] eqn:Hsb; cbn [mbind result_bind];
    [|right; left; exists "skin_type"; repeat split;
      [apply Hin; set_solver | auto]].
  destruct (a !! "key_ingredients") as [ia|] eqn:Hia; cbn [mbind result_bind];
    [|right; left; exists "key_ingredients"; repeat split;
      [apply Hin; set_solver | auto]].
  destruct (b !! "key_ingredients") as [ib|] eqn:Hib; cbn [mbind result_bind];
    [|right; left; exists "key_ingredients"; repeat split;
      [apply Hin; set_solver | auto]].
  left. eexists. split; [reflexivity|].
  unfold compare_fields. rewrite !Forall_cons, !Forall_nil.
  rewrite Hna, Hsa, Hia, Hnb, Hsb, Hib. eauto 20.
Qed.

(** A comparison that returned did so on records that hold the four
    fields and prices [int] converts, and its entries are those of
    [comparison_of]. *)
Lemma compare_products_inv lower limit (a b : gmap string str)
    (c : gmap string value) :
  compare_products lower limit a b = Ok c →
  Forall (λ k, is_Some (a !! k)) compare_fields ∧
  Forall (λ k, is_Some (b !! k)) compare_fields ∧
  converts limit (field a "price") ∧ converts limit (field b "price") ∧
  comparison_of lower a b c.
Proof.
  intros Hc.
  destruct (compare_products_outcome lower limit a b)
    as [(c' & _ & Ha & Hb & Hpa & Hpb) | [(k & Hk & _) | (Hv & _)]];
    [|congruence..].
  destruct (compare_products_ok lower limit a b Ha Hb Hpa Hpb)
    as (c'' & Hc'' & Hof).
  assert (c'' = c) by congruence. subst c''. auto.
Qed.

(** With the four fields on both sides, a price [int] does not convert
    makes the comparison raise [ValueError]. *)
Lemma compare_products_over_limit lower limit (a b : gmap string str) :
  Forall (λ k, is_Some (a !! k)) compare_fields →
  Forall (λ k, is_Some (b !! k)) compare_fields →
  ¬ converts limit (field a "price") ∨ ¬ converts limit (field b "price") →
  compare_products lower limit a b = Raise ValueError.
Proof.
  intros Ha Hb Hover.
  destruct (compare_products_outcome lower limit a b)
    as [(c & _ & _ & _ & Hca & Hcb) | [(k & _ & Hk & Hnone) | (Hv & _)]].
  - tauto.
  - exfalso. unfold compare_fields in Ha, Hb, Hk.
    rewrite !Forall_cons in Ha, Hb. rewrite !elem_of_cons, elem_of_nil in Hk.
    destruct Ha as ([? ?] & [? ?] & [? ?] & [? ?] & _).
    destruct Hb as ([? ?] & [? ?] & [? ?] & [? ?] & _).
    destruct Hk as [->|[->|[->|[->|[]]]]]; destruct Hnone; congruence.
  - exact Hv.
Qed.

(** ** Tokens *)

Lemma split_comma_nonempty (s : str) : split_comma s ≠ [].
Proof.
  destruct s as [|c s]; simpl; [discriminate|].
  destruct (c =? 44); [discriminate|].
  destruct (split_comma s); discriminate.
Qed.

Lemma split_comma_length (s : str) : (1 ≤ length (split_comma s))%nat.
Proof.
  pose proof (split_comma_nonempty s) as Hne.
  destruct (split_comma s); [congruence | simpl; lia].
Qed.

Section Tokens.

Variable lower : str → str.

Lemma token_set_nonempty (s : str) : token_set lower s ≠ ∅.
Proof.
  unfold token_set.
  pose proof (split_comma_nonempty (strip_spaces (lower s))) as Hne.
  destruct (split_comma (strip_spaces (lower s))) as [|t ts]; [congruence|].
  simpl. set_solver.
Qed.

Lemma token_set_size (s : str) : (0 < size (token_set lower s))%nat.
Proof.
  pose proof (token_set_nonempty s) as Hne.
  destruct (decide (size (token_set lower s) = 0%nat)) as [H0|H0]; [|lia].
  apply size_empty_iff in H0. apply leibniz_equiv in H0. contradiction.
Qed.

Lemma union_size_pos (a b : str) :
  (0 < size (token_set lower a ∪ token_set lower b))%nat.
Proof.
  pose proof (token_set_size a) as Ha.
  assert (size (token_set lower a)
          ≤ size (token_set lower a ∪ token_set lower b))%nat
    by apply subseteq_size, union_subseteq_l.
  lia.
Qed.

Lemma overlap_le_union (a b : str) :
  (size (token_set lower a ∩ token_set lower b)
   ≤ size (token_set lower a ∪ token_set lower b))%nat.
Proof.
  apply subseteq_size.
  etrans; [apply intersection_subseteq_l | apply union_subseteq_l].
Qed.

Lemma overlap_comm (a b : str) :
  token_set lower a ∩ token_set lower b = token_set lower b ∩ token_set lower a.
Proof. apply (comm_L _). Qed.

Lemma union_comm (a b : str) :
  token_set lower a ∪ token_set lower b = token_set lower b ∪ token_set lower a.
Proof. apply (comm_L _). Qed.

Lemma overlap_self (a : str) :
  token_set lower a ∩ token_set lower a = token_set lower a.
Proof. apply (idemp_L _). Qed.

Lemma union_self (a : str) :
  token_set lower a ∪ token_set lower a = token_set lower a.
Proof. apply (idemp_L _). Qed.

End Tokens.

(** ** The exact quotient *)

Lemma true_div_bounds (n m : nat) :
  (n ≤ m)%nat → (0 < m)%nat → (0 <= true_div n m)%Q ∧ (true_div n m <= 1)%Q.
Proof.
  intros Hnm Hm. unfold true_div.
  assert (0 < inject_Z (Z.of_nat m))%Q as Hpos
    by (unfold Qlt; simpl; lia).
  split.
  - apply Qle_shift_div_l; [exact Hpos|].
    unfold Qle; simpl; lia.
  - apply Qle_shift_div_r; [exact Hpos|].
    unfold Qle; simpl; lia.
Qed.

Lemma true_div_self (n : nat) : (0 < n)%nat → (true_div n n == 1)%Q.
Proof.
  intros Hn. unfold true_div. apply Qmult_inv_r.
  unfold Qeq; simpl; lia.
Qed.

Lemma ascii_lower_lowers_ascii : lowers_ascii ascii_lower.
Proof. intros s _. reflexivity. Qed.

(** ** The exact quotient against binary64 *)

(** The literals [0.7] and [0.3] denote these two binary64 numbers. *)
Example literals_of_thresholds :
  PrimFloat.eqb 0x1.6666666666666p-1 (float_div 7 10) = true ∧
  PrimFloat.eqb 0x1.3333333333333p-2 (float_div 3 10) = true.
Proof. split; vm_compute; reflexivity. Qed.

(** Up to 128 tokens in the union, whatever the overlap, the two
    threshold tests read the same in binary64 and on the exact quotient. *)
Lemma binary64_thresholds_agree :
  forallb (λ m, forallb (λ n, thresholds_agree n m) (seq 0 (S m))) (seq 1 128)
  = true.
Proof. vm_compute. reflexivity. Qed.

(** ** The ingredient label *)

Lemma ingredient_label_cases lower (a b : str) :
  _calculate_ingredient_overlap lower a b
  = if Qlt_le_dec (7 # 10) (jaccard lower a b) then py "High similarity"
    else if Qlt_le_dec (3 # 10) (jaccard lower a b) then py "Medium similarity"
    else py "Different formulations".
Proof.
  unfold _calculate_ingredient_overlap, jaccard.
  pose proof (union_size_pos lower a b) as Hpos.
  destruct (Nat.eqb_spec (size (token_set lower a ∪ token_set lower b)) 0);
    [lia | reflexivity].
Qed.

(** *** The tokens of the source against those of the specification *)

Lemma space_stripped_strip (s : str) : space_stripped s (strip_spaces s).
Proof.
  unfold strip_spaces. induction s as [|c s IH]; [constructor|].
  cbn [List.filter]. destruct (N.eqb_spec c 32) as [->|Hc]; cbn [negb].
  - apply stripped_space, IH.
  - apply stripped_char; [exact Hc | exact IH].
Qed.

Lemma space_stripped_unique (s stripped : str) :
  space_stripped s stripped → stripped = strip_spaces s.
Proof.
  unfold strip_spaces. induction 1 as [|s stripped _ IH|c s stripped Hc _ IH].
  - reflexivity.
  - exact IH.
  - cbn [List.filter]. destruct (N.eqb_spec c 32) as [->|_]; [congruence|].
    cbn [negb]. rewrite IH. reflexivity.
Qed.

Lemma split_comma_token (token : str) :
  44 ∉ token → split_comma token = [token].
Proof.
  induction token as [|c token IH]; intros Hno; [reflexivity|].
  cbn [split_comma]. destruct (N.eqb_spec c 44) as [->|_].
  - exfalso. apply Hno. left.
  - rewrite IH; [reflexivity|]. intros Hin. apply Hno. right. exact Hin.
Qed.

Lemma split_comma_app (token rest : str) :
  44 ∉ token → split_comma (token ++ 44 :: rest) = token :: split_comma rest.
Proof.
  induction token as [|c token IH]; intros Hno; [reflexivity|].
  cbn [split_comma app]. destruct (N.eqb_spec c 44) as [->|_].
  - exfalso. apply Hno. left.
  - rewrite IH; [reflexivity|]. intros Hin. apply Hno. right. exact Hin.
Qed.

Lemma split_comma_join (token : str) (tokens : list str) :
  Forall (λ token, 44 ∉ token) (token :: tokens) →
  split_comma (join [44] (token :: tokens)) = token :: tokens.
Proof.
  revert token. induction tokens as [|token' tokens IH]; intros token Hno;
    apply Forall_cons in Hno as [Hno Hrest].
  - cbn [join]. apply split_comma_token, Hno.
  - change (join [44] (token :: token' :: tokens))
      with (token ++ 44 :: join [44] (token' :: tokens)).
    rewrite (split_comma_app _ _ Hno), (IH _ Hrest). reflexivity.
Qed.

Lemma comma_split_unique (s : str) (tokens : list str) :
  comma_split s tokens → tokens = split_comma s.
Proof.
  intros (Hne & Hno & ->).
  destruct tokens as [|token tokens]; [congruence|].
  symmetry. apply split_comma_join, Hno.
Qed.

Lemma comma_split_split (s : str) : comma_split s (split_comma s).
Proof.
  unfold comma_split. induction s as [|c s (Hne & Hno & Hjoin)].
  - split; [discriminate|]. split; [|reflexivity].
    repeat constructor. apply not_elem_of_nil.
  - cbn [split_comma]. destruct (N.eqb_spec c 44) as [->|Hc].
    + split; [discriminate|]. split.
      * constructor; [apply not_elem_of_nil | exact Hno].
      * destruct (split_comma s) as [|token tokens]; [congruence|].
        change (join [44] ([] :: token :: tokens))
          with (44 :: join [44] (token :: tokens)).
        rewrite <- Hjoin. reflexivity.
    + destruct (split_comma s) as [|token tokens]; [congruence|].
      split; [discriminate|].
      apply Forall_cons in Hno as [Hno Hrest]. split.
      * constructor; [|exact Hrest].
        intros Hin. apply elem_of_cons in Hin as [Hin|Hin]; [|exact (Hno Hin)].
        apply Hc. symmetry. exact Hin.
      * rewrite Hjoin. destruct tokens; reflexivity.
Qed.

(** The tokens of the claim are those the source computes. *)
Lemma tokens_of_source lower (s : str) (tokens : list str) :
  tokens_of lower s tokens ↔ tokens = split_comma (strip_spaces (lower s)).
Proof.
  split.
  - intros (stripped & Hstripped & Hsplit).
    apply space_stripped_unique in Hstripped. subst stripped.
    apply comma_split_unique, Hsplit.
  - intros ->. exists (strip_spaces (lower s)).
    split; [apply space_stripped_strip | apply comma_split_split].
Qed.

Lemma jaccard_tokens lower (a b : str) (tokens_a tokens_b : list str) :
  tokens_of lower a tokens_a → tokens_of lower b tokens_b →
  jaccard lower a b = similarity_of tokens_a tokens_b.
Proof.
  intros Ha Hb. apply tokens_of_source in Ha, Hb. subst.
  reflexivity.
Qed.

Lemma token_count_split (s : str) : length (split_comma s) = token_count s.
Proof.
  unfold token_count. induction s as [|c s IH]; [reflexivity|].
  cbn [split_comma List.filter].
  destruct (N.eqb_spec c 44) as [->|Hc].
  - rewrite bool_decide_eq_true_2 by reflexivity.
    cbn [length]. rewrite IH. reflexivity.
  - rewrite bool_decide_eq_false_2 by exact Hc.
    rewrite <- IH. pose proof (split_comma_nonempty s) as Hne.
    destruct (split_comma s); [congruence | reflexivity].
Qed.

(** C7: the ingredient label follows the Jaccard similarity of the
    lower-cased, space-stripped, comma-split token sets by strict
    thresholds: above 0.7 "High similarity", else above 0.3 "Medium
    similarity", else "Different formulations"; a similarity of exactly
    0.7 gives "Medium similarity"; and the similarity lies in [0,1].
    Each string has its tokens, and no others. *)
Theorem ingredient_label_thresholds lower (a b : str) :
  ∃ tokens_a tokens_b,
    (∀ tokens, tokens_of lower a tokens ↔ tokens = tokens_a) ∧
    (∀ tokens, tokens_of lower b tokens ↔ tokens = tokens_b) ∧
    let similarity := similarity_of tokens_a tokens_b in
    let label := _calculate_ingredient_overlap lower a b in
    ((0 <= similarity)%Q ∧ (similarity <= 1)%Q) ∧
    ((7 # 10 < similarity)%Q ↔ label = py "High similarity") ∧
    ((3 # 10 < similarity)%Q ∧ (similarity <= 7 # 10)%Q
     ↔ label = py "Medium similarity") ∧
    ((similarity <= 3 # 10)%Q ↔ label = py "Different formulations") ∧
    ((similarity == 7 # 10)%Q → label = py "Medium similarity").
Proof.
  exists (split_comma (strip_spaces (lower a))),
    (split_comma (strip_spaces (lower b))).
  split; [intros tokens; apply tokens_of_source|].
  split; [intros tokens; apply tokens_of_source|].
  intros similarity label.
  assert (Hsim : similarity = jaccard lower a b) by reflexivity.
  assert (Hlabel : label
    = if Qlt_le_dec (7 # 10) similarity then py "High similarity"
      else if Qlt_le_dec (3 # 10) similarity then py "Medium similarity"
      else py "Different formulations")
    by (rewrite Hsim; apply ingredient_label_cases).
  split.
  { rewrite Hsim.
    apply true_div_bounds; [apply overlap_le_union | apply union_size_pos]. }
  rewrite Hlabel. clear Hlabel label.
  assert (3 # 10 < 7 # 10)%Q as H37 by reflexivity.
  destruct (Qlt_le_dec (7 # 10) similarity) as [Hhi|Hhi];
    [|destruct (Qlt_le_dec (3 # 10) similarity) as [Hmid|Hmid]];
    repeat split; intros; try reflexivity; try discriminate; lra.
Qed.

(** The tokens of two ingredient lists as a label would print them. *)
Example tokens_of_examples :
  tokens_of ascii_lower (py "Vitamin C, Hyaluronic Acid,Vitamin E")
    [py "vitaminc"; py "hyaluronicacid"; py "vitamine"] ∧
  tokens_of ascii_lower (py " ,X,") [[]; py "x"; []] ∧
  tokens_of ascii_lower [] [[]].
Proof. repeat split; apply tokens_of_source; vm_compute; reflexivity. Qed.

(** Seven shared tokens out of ten: the similarity is exactly 0.7 and the
    label is the middle one. *)
Example ingredient_label_at_seven_tenths :
  (jaccard ascii_lower (py "a,b,c,d,e,f,g,h,i,j") (py "a,b,c,d,e,f,g")
   == 7 # 10)%Q ∧
  _calculate_ingredient_overlap ascii_lower
    (py "a,b,c,d,e,f,g,h,i,j") (py "a,b,c,d,e,f,g")
  = py "Medium similarity".
Proof. split; vm_compute; reflexivity. Qed.

(** Three shared tokens out of ten: exactly 0.3 is not above the lower
    threshold. *)
Example ingredient_label_at_three_tenths :
  (jaccard ascii_lower (py "a,b,c,d,e,f,g,h,i,j") (py "a,b,c")
   == 3 # 10)%Q ∧
  _calculate_ingredient_overlap ascii_lower
    (py "a,b,c,d,e,f,g,h,i,j") (py "a,b,c")
  = py "Different formulations".
Proof. split; vm_compute; reflexivity. Qed.

(** ** Symmetry of the labels *)

Lemma skin_type_overlap_sym lower (a b : str) :
  _analyze_skin_type_overlap lower a b = _analyze_skin_type_overlap lower b a.
Proof.
  unfold _analyze_skin_type_overlap. cbv zeta.
  rewrite (overlap_comm lower b a).
  rewrite (orb_comm (contains (py "all") (lower a))).
  rewrite (andb_comm (size (token_set lower a ∩ token_set lower b)
                      =? size (token_set lower b))%nat).
  reflexivity.
Qed.

Lemma ingredient_overlap_sym lower (a b : str) :
  _calculate_ingredient_overlap lower a b
  = _calculate_ingredient_overlap lower b a.
Proof.
  unfold _calculate_ingredient_overlap. cbv zeta.
  rewrite (overlap_comm lower b a), (union_comm lower b a).
  reflexivity.
Qed.

(** C8: both overlap labels are symmetric in their two arguments. *)
Theorem overlap_labels_symmetric lower (a b : str) :
  _analyze_skin_type_overlap lower a b = _analyze_skin_type_overlap lower b a ∧
  _calculate_ingredient_overlap lower a b
  = _calculate_ingredient_overlap lower b a.
Proof. split; [apply skin_type_overlap_sym | apply ingredient_overlap_sym]. Qed.

(** ** The empty-union branch *)

Lemma token_set_empty lower : lower [] = [] → token_set lower [] = {[ [] ]}.
Proof.
  intros Hl. unfold token_set. rewrite Hl. simpl.
  apply (right_id_L ∅ (∪)).
Qed.

(** C9: the "Unknown" label is unreachable: a split on commas gives at
    least one token, so the union of the two token sets is never empty;
    and two empty ingredient strings both give the singleton of the empty
    token, a similarity of 1 and the label "High similarity". *)
Theorem unknown_label_unreachable lower (a b : str) :
  lowers_ascii lower →
  ((1 ≤ length (split_comma a))%nat ∧
   token_set lower a ∪ token_set lower b ≠ ∅ ∧
   _calculate_ingredient_overlap lower a b ≠ py "Unknown") ∧
  (split_comma [] = [[]] ∧
   token_set lower [] = {[ [] ]} ∧
   (jaccard lower [] [] == 1)%Q ∧
   _calculate_ingredient_overlap lower [] [] = py "High similarity").
Proof.
  intros Hlower. split; [split; [|split]|].
  - apply split_comma_length.
  - intros Hempty. pose proof (union_size_pos lower a b) as Hpos.
    rewrite Hempty, size_empty in Hpos. lia.
  - rewrite ingredient_label_cases.
    destruct (Qlt_le_dec _ _); [discriminate|].
    destruct (Qlt_le_dec _ _); discriminate.
  - assert (Hnil : lower [] = []) by (apply (Hlower []); reflexivity).
    assert (Hjac : (jaccard lower [] [] == 1)%Q).
    { unfold jaccard.
      rewrite overlap_self, union_self.
      rewrite (token_set_empty lower Hnil), size_singleton.
      reflexivity. }
    repeat split.
    + exact (token_set_empty lower Hnil).
    + exact Hjac.
    + rewrite ingredient_label_cases.
      destruct (Qlt_le_dec _ _) as [_|Hle]; [reflexivity|].
      exfalso. rewrite Hjac in Hle. revert Hle. apply Qlt_not_le. reflexivity.
Qed.

Lemma unknown_label_unreachable_witness :
  lowers_ascii ascii_lower ∧
  _calculate_ingredient_overlap ascii_lower (py "X,Y") (py "") ≠ py "Unknown".
Proof.
  split; [exact ascii_lower_lowers_ascii|].
  exact (proj2 (proj2 (proj1
    (unknown_label_unreachable ascii_lower (py "X,Y") (py "")
       ascii_lower_lowers_ascii)))).
Defined.

(** ** Substrings *)

Lemma starts_with_prefix (needle hay : str) :
  starts_with needle hay = true ↔ ∃ after, hay = needle ++ after.
Proof.
  revert hay. induction needle as [|x needle IH]; intros hay.
  - split; [intros _; exists hay; reflexivity | reflexivity].
  - destruct hay as [|y hay]; cbn [starts_with].
    + split; [discriminate | intros [after H]; discriminate H].
    + rewrite andb_true_iff, N.eqb_eq, IH. split.
      * intros [-> [after ->]]. exists after. reflexivity.
      * intros [after H]. injection H as -> ->. eauto.
Qed.

(** [needle in hay] holds exactly when [needle] occurs in [hay]. *)
Lemma contains_occurs (needle hay : str) :
  contains needle hay = true ↔ occurs_in needle hay.
Proof.
  unfold occurs_in. induction hay as [|y hay IH].
  - cbn [contains]. rewrite orb_false_r, starts_with_prefix. split.
    + intros [after H]. exists [], after. exact H.
    + intros (before & after & H).
      destruct before; [exists after; exact H | discriminate H].
  - cbn [contains]. rewrite orb_true_iff, starts_with_prefix, IH. split.
    + intros [[after H] | (before & after & H)].
      * exists [], after. exact H.
      * exists (y :: before), after. rewrite H. reflexivity.
    + intros (before & after & H). destruct before as [|z before].
      * left. exists after. exact H.
      * right. injection H as -> H. eauto.
Qed.

Lemma contains_false (needle hay : str) :
  contains needle hay = false ↔ ¬ occurs_in needle hay.
Proof.
  rewrite <- contains_occurs. destruct (contains needle hay); split;
    congruence.
Qed.

(** ** A product compared with itself *)

Lemma skin_type_overlap_self lower (s : str) :
  _analyze_skin_type_overlap lower s s
  = if contains (py "all") (lower s)
    then py "One product suits all skin types"
    else py "Identical skin type targeting".
Proof.
  unfold _analyze_skin_type_overlap. cbv zeta.
  rewrite overlap_self, orb_diag, Nat.eqb_refl.
  pose proof (token_set_size lower s) as Hpos.
  destruct (contains (py "all") (lower s)); [reflexivity|].
  destruct (Nat.eqb_spec (size (token_set lower s)) 0); [lia | reflexivity].
Qed.

Lemma ingredient_overlap_self lower (s : str) :
  _calculate_ingredient_overlap lower s s = py "High similarity".
Proof.
  rewrite ingredient_label_cases.
  assert (Hone : (jaccard lower s s == 1)%Q).
  { unfold jaccard. rewrite overlap_self, union_self.
    apply true_div_self, token_set_size. }
  destruct (Qlt_le_dec _ _) as [_|Hle]; [reflexivity|].
  exfalso. rewrite Hone in Hle. revert Hle. apply Qlt_not_le. reflexivity.
Qed.

Lemma product_a_well_formed : well_formed product_a.
Proof. repeat constructor; vm_compute; eexists; reflexivity. Qed.

Lemma product_b_well_formed : well_formed product_b.
Proof. repeat constructor; vm_compute; eexists; reflexivity. Qed.

(** C4, as amended: a well-formed record whose price [int] converts,
    compared with itself, has a price difference of 0, a concentration
    difference of "0%" and the ingredient label "High similarity"; its
    skin-type label is "Identical skin type targeting" unless the
    lower-cased skin type contains "all", where it is "One product suits
    all skin types".  A price of more digits than the interpreter's limit
    makes the comparison raise [ValueError] instead. *)
Theorem compare_self lower limit (a : gmap string str) :
  well_formed a →
  (converts limit (field a "price") →
   ∃ c, compare_products lower limit a a = Ok c ∧
        c !! "price_diff" = Some (VInt 0) ∧
        c !! "concentration_diff" = Some (VStr (py "0%")) ∧
        c !! "skin_type_match"
        = Some (VStr (if contains (py "all") (lower (field a "skin_type"))
                      then py "One product suits all skin types"
                      else py "Identical skin type targeting")) ∧
        (occurs_in (py "all") (lower (field a "skin_type")) →
         c !! "skin_type_match"
         = Some (VStr (py "One product suits all skin types"))) ∧
        (¬ occurs_in (py "all") (lower (field a "skin_type")) →
         c !! "skin_type_match"
         = Some (VStr (py "Identical skin type targeting"))) ∧
        c !! "ingredient_similarity" = Some (VStr (py "High similarity"))) ∧
  (¬ converts limit (field a "price") →
   compare_products lower limit a a = Raise ValueError).
Proof.
  intros Ha. apply well_formed_compare_fields in Ha. split.
  - intros Hpa.
    destruct (compare_products_ok lower limit a a Ha Ha Hpa Hpa)
      as (c & Hc & Hof).
    exists c. split; [exact Hc|].
    split; [|split; [|split; [|split; [|split]]]].
    + rewrite (cmp_price_diff _ _ _ _ Hof), Z.sub_diag. reflexivity.
    + rewrite (cmp_conc_diff _ _ _ _ Hof), concentrations_in_self, Z.sub_diag.
      reflexivity.
    + rewrite (cmp_skin _ _ _ _ Hof), skin_type_overlap_self. reflexivity.
    + intros Hall. apply contains_occurs in Hall.
      rewrite (cmp_skin _ _ _ _ Hof), skin_type_overlap_self, Hall.
      reflexivity.
    + intros Hall. apply contains_false in Hall.
      rewrite (cmp_skin _ _ _ _ Hof), skin_type_overlap_self, Hall.
      reflexivity.
    + rewrite (cmp_ingredients _ _ _ _ Hof), ingredient_overlap_self.
      reflexivity.
  - intros Hpa.
    destruct (compare_products_outcome lower limit a a)
      as [(c & _ & _ & _ & Hca & _) | [(k & _ & Hk & Hnone) | (Hv & _)]].
    + contradiction.
    + exfalso. unfold compare_fields in Ha, Hk.
      rewrite !Forall_cons in Ha. rewrite !elem_of_cons, elem_of_nil in Hk.
      destruct Ha as ([? ?] & [? ?] & [? ?] & [? ?] & _).
      destruct Hk as [->|[->|[->|[->|[]]]]]; destruct Hnone; congruence.
    + exact Hv.
Qed.

Lemma compare_self_witness :
  well_formed product_a ∧
  converts default_max_str_digits (field product_a "price") ∧
  ∃ c, compare_products ascii_lower default_max_str_digits product_a product_a
       = Ok c ∧
       c !! "price_diff" = Some (VInt 0) ∧
       c !! "concentration_diff" = Some (VStr (py "0%")) ∧
       c !! "skin_type_match"
       = Some (VStr (py "Identical skin type targeting")) ∧
       c !! "ingredient_similarity" = Some (VStr (py "High similarity")).
Proof.
  assert (Hp : converts default_max_str_digits (field product_a "price"))
    by (left; vm_compute; lia).
  split; [exact product_a_well_formed|]. split; [exact Hp|].
  destruct (proj1 (compare_self ascii_lower default_max_str_digits product_a
                     product_a_well_formed) Hp)
    as (c & Hc & Hprice & Hconc & Hskin & _ & _ & Hing).
  exists c. auto.
Defined.

(** C4, as stated, fails on a record whose skin type is "All": compared
    with itself it is labelled "One product suits all skin types". *)
Lemma compare_self_all_skin_types :
  well_formed product_b ∧
  (c ← compare_products ascii_lower default_max_str_digits product_b product_b;
   Ok (c !! "skin_type_match"))
  = Ok (Some (VStr (py "One product suits all skin types"))) ∧
  ¬ (∃ c, compare_products ascii_lower default_max_str_digits
            product_b product_b = Ok c ∧
          c !! "skin_type_match"
          = Some (VStr (py "Identical skin type targeting"))).
Proof.
  split; [exact product_b_well_formed|].
  split; [vm_compute; reflexivity|].
  intros (c & Hc & Hskin).
  assert (Hrun : (c' ← compare_products ascii_lower default_max_str_digits
                         product_b product_b;
                  Ok (c' !! "skin_type_match"))
                 = Ok (Some (VStr (py "Identical skin type targeting"))))
    by (rewrite Hc; simpl; rewrite Hskin; reflexivity).
  vm_compute in Hrun. discriminate Hrun.
Qed.

(** ** Tie-breaks of the comparison record *)

Lemma versatility_cases lower (sa sb : str) :
  _determine_versatility lower sa sb = py "product_a" ∧
    ¬ occurs_in (py "all") (lower sb) ∧
    (occurs_in (py "all") (lower sa)
     ∨ (token_count sb < token_count sa)%nat)
  ∨
  _determine_versatility lower sa sb = py "product_b" ∧
    (occurs_in (py "all") (lower sb)
     ∨ ¬ occurs_in (py "all") (lower sa)
       ∧ (token_count sa ≤ token_count sb)%nat).
Proof.
  unfold _determine_versatility. cbv zeta. rewrite !token_count_split.
  destruct (contains (py "all") (lower sb)) eqn:Hb;
    [apply contains_occurs in Hb; right; auto|].
  apply contains_false in Hb.
  destruct (contains (py "all") (lower sa)) eqn:Ha;
    [apply contains_occurs in Ha; left; auto|].
  apply contains_false in Ha.
  destruct (Nat.ltb_spec (token_count sb) (token_count sa));
    [left | right]; auto.
Qed.

Lemma side_tags_differ : py "product_a" ≠ py "product_b".
Proof. discriminate. Qed.

(** Two different literals cannot be equal. *)
Ltac tag_clash :=
  match goal with
  | H : Some (VStr (py _)) = Some (VStr (py _)) |- _ => discriminate H
  | H : VStr (py _) = VStr (py _) |- _ => discriminate H
  | H : py _ = py _ |- _ => discriminate H
  end.

(** C5, as amended: every tie goes to product_b.  With equal extracted
    prices cheaper_product is product_b's name and better_price is
    "product_b"; with equal concentrations higher_concentration is
    product_b's name; when neither skin type contains "all" and the
    comma-token counts are equal, more_versatile is "product_b".
    Product_a takes the price and concentration fields only on a strict
    inequality in its favour.  It takes more_versatile exactly when
    product_b's skin type does not contain "all" and either its own does
    or it has strictly more tokens: with "all" it needs no more tokens. *)
Theorem ties_favor_product_b lower limit (a b : gmap string str) :
  well_formed a → well_formed b →
  converts limit (field a "price") → converts limit (field b "price") →
  ∃ (c : gmap string value) (price_a price_b conc_a conc_b : Z),
    compare_products lower limit a b = Ok c ∧
    (* the extracted numbers are those of the record *)
    (price_a = price_value (field a "price") ∧
     price_b = price_value (field b "price") ∧
     (conc_a, conc_b) = concentrations_in a b ∧
     c !! "price_a" = Some (VInt price_a) ∧
     c !! "price_b" = Some (VInt price_b) ∧
     c !! "concentration_a" = Some (VInt conc_a) ∧
     c !! "concentration_b" = Some (VInt conc_b)) ∧
    (* price *)
    (c !! "cheaper_product"
     = Some (VStr (if (price_a <? price_b)%Z
                   then field a "name" else field b "name")) ∧
     ((price_a < price_b)%Z
      ↔ c !! "better_price" = Some (VStr (py "product_a"))) ∧
     (¬ (price_a < price_b)%Z
      ↔ c !! "better_price" = Some (VStr (py "product_b"))) ∧
     (price_a = price_b →
      c !! "cheaper_product" = Some (VStr (field b "name")) ∧
      c !! "better_price" = Some (VStr (py "product_b")))) ∧
    (* concentration *)
    (c !! "higher_concentration"
     = Some (VStr (if (conc_b <? conc_a)%Z
                   then field a "name" else field b "name")) ∧
     (conc_a = conc_b →
      c !! "higher_concentration" = Some (VStr (field b "name")))) ∧
    (* versatility *)
    ((¬ occurs_in (py "all") (lower (field a "skin_type")) →
      ¬ occurs_in (py "all") (lower (field b "skin_type")) →
      (token_count (field a "skin_type") = token_count (field b "skin_type") →
       c !! "more_versatile" = Some (VStr (py "product_b"))) ∧
      (c !! "more_versatile" = Some (VStr (py "product_a"))
       ↔ (token_count (field b "skin_type")
          < token_count (field a "skin_type"))%nat)) ∧
     (c !! "more_versatile" = Some (VStr (py "product_a"))
      ↔ ¬ occurs_in (py "all") (lower (field b "skin_type")) ∧
        (occurs_in (py "all") (lower (field a "skin_type"))
         ∨ (token_count (field b "skin_type")
            < token_count (field a "skin_type"))%nat))).
Proof.
  intros Ha Hb Hpa Hpb.
  apply well_formed_compare_fields in Ha, Hb.
  destruct (compare_products_ok lower limit a b Ha Hb Hpa Hpb)
    as (c & Hc & Hof).
  exists c, (price_value (field a "price")), (price_value (field b "price")),
    (concentrations_in a b).1, (concentrations_in a b).2.
  split; [exact Hc|].
  split; [|split; [|split]].
  - do 2 (split; [reflexivity|]).
    split; [destruct (concentrations_in a b); reflexivity|].
    do 3 (split; [apply Hof|]). apply Hof.
  - rewrite (cmp_cheaper _ _ _ _ Hof), (cmp_better_price _ _ _ _ Hof).
    destruct (Z.ltb_spec (price_value (field a "price"))
                (price_value (field b "price"))) as [Hlt|Hge].
    + repeat split; intros; try reflexivity; try assumption; try lia;
        try contradiction; tag_clash.
    + repeat split; intros; try reflexivity; try assumption; try lia;
        tag_clash.
  - rewrite (cmp_higher _ _ _ _ Hof). split; [reflexivity|].
    intros Heq. rewrite Heq, Z.ltb_irrefl. reflexivity.
  - rewrite (cmp_versatile _ _ _ _ Hof).
    pose proof side_tags_differ as Hne.
    destruct (versatility_cases lower (field a "skin_type")
                (field b "skin_type")) as [(Hv & Hb1 & Ha1) | (Hv & Hcase)];
      rewrite Hv.
    + split; [intros Ha0 _; split|].
      * intros Hlen. destruct Ha1 as [Ha1|Ha1]; [contradiction | lia].
      * split; [intros _|reflexivity].
        destruct Ha1 as [Ha1|Ha1]; [contradiction | exact Ha1].
      * split; [intros _; auto | reflexivity].
    + split; [intros Ha0 Hb0; split|].
      * reflexivity.
      * split; [intros Heq; congruence|].
        intros Hlt. destruct Hcase as [Hb1|[_ Hle]]; [contradiction | lia].
      * split; [intros Heq; congruence|].
        intros [Hb0 Ha1]. exfalso.
        destruct Hcase as [Hb1|[Ha0 Hle]]; [contradiction|].
        destruct Ha1 as [Ha1|Ha1]; [contradiction | lia].
Qed.

Lemma twin_of_a_well_formed : well_formed twin_of_a.
Proof. repeat constructor; vm_compute; eexists; reflexivity. Qed.

(** Product_a against its twin: the prices, the concentrations and the
    token counts are equal, no skin type holds "all", and the four fields
    go to the twin, which is product_b. *)
Lemma ties_favor_product_b_witness :
  (well_formed product_a ∧ well_formed twin_of_a ∧
   converts default_max_str_digits (field product_a "price") ∧
   converts default_max_str_digits (field twin_of_a "price")) ∧
  (price_value (field product_a "price")
   = price_value (field twin_of_a "price") ∧
   (concentrations_in product_a twin_of_a).1
   = (concentrations_in product_a twin_of_a).2 ∧
   ¬ occurs_in (py "all") (ascii_lower (field product_a "skin_type")) ∧
   ¬ occurs_in (py "all") (ascii_lower (field twin_of_a "skin_type")) ∧
   token_count (field product_a "skin_type")
   = token_count (field twin_of_a "skin_type")) ∧
  ∃ c, compare_products ascii_lower default_max_str_digits product_a twin_of_a
       = Ok c ∧
       c !! "cheaper_product" = Some (VStr (py "Twin")) ∧
       c !! "better_price" = Some (VStr (py "product_b")) ∧
       c !! "higher_concentration" = Some (VStr (py "Twin")) ∧
       c !! "more_versatile" = Some (VStr (py "product_b")).
Proof.
  assert (Hpa : converts default_max_str_digits (field product_a "price"))
    by (left; vm_compute; lia).
  assert (Hpb : converts default_max_str_digits (field twin_of_a "price"))
    by (left; vm_compute; lia).
  split; [repeat split;
          [exact product_a_well_formed | exact twin_of_a_well_formed
          | exact Hpa | exact Hpb]|].
  assert (Hall : ¬ occurs_in (py "all")
                    (ascii_lower (field product_a "skin_type")))
    by (apply contains_false; reflexivity).
  split; [split; [|split; [|split; [|split]]];
          [reflexivity | reflexivity | exact Hall | exact Hall
          | reflexivity]|].
  destruct (ties_favor_product_b ascii_lower default_max_str_digits
              product_a twin_of_a product_a_well_formed twin_of_a_well_formed
              Hpa Hpb)
    as (c & price_a & price_b & conc_a & conc_b & Hc
        & (-> & -> & Hconc & _) & (_ & _ & _ & Hprice) & (_ & Hhigher)
        & (Hversatile & _)).
  exists c. split; [exact Hc|].
  destruct (Hprice eq_refl) as [Hcheaper Hbetter].
  split; [exact Hcheaper|]. split; [exact Hbetter|].
  split.
  - apply Hhigher. vm_compute in Hconc. congruence.
  - apply (Hversatile Hall Hall). reflexivity.
Defined.

(** C5, as stated, fails for more_versatile: a product_a whose skin type
    is "All" wins the field with one token against the two of product_b,
    so without a strict inequality in its favour. *)
Lemma versatility_without_more_tokens :
  (token_count (field all_skin_a "skin_type")
   < token_count (field two_skin_b "skin_type"))%nat ∧
  (c ← compare_products ascii_lower default_max_str_digits
         all_skin_a two_skin_b;
   Ok (c !! "more_versatile"))
  = Ok (Some (VStr (py "product_a"))).
Proof. split; [vm_compute; lia | vm_compute; reflexivity]. Qed.

(** ** The effectiveness and budget rules *)

Lemma concentration_of_field (limit : nat) (p : gmap string str) :
  is_Some (p !! "concentration") →
  concentration_of limit p = leading_int limit (field p "concentration").
Proof.
  intros Hp. unfold concentration_of. rewrite (getitem_field Hp). reflexivity.
Qed.

Lemma recommend_by_effectiveness_ok (limit : nat) (a b : gmap string str)
    (conc_a conc_b : Z) :
  concentration_of limit a = Ok conc_a → concentration_of limit b = Ok conc_b →
  is_Some (a !! "name") → is_Some (b !! "name") →
  _recommend_by_effectiveness limit a b
  = if (conc_b <=? conc_a)%Z then field a "name" else field b "name".
Proof.
  unfold _recommend_by_effectiveness, concentration_of.
  intros Hca Hcb Hna Hnb.
  destruct (getitem a "concentration") as [sa|]; simpl in *; [|discriminate].
  rewrite Hca. simpl.
  destruct (getitem b "concentration") as [sb|]; simpl in *; [|discriminate].
  rewrite Hcb. simpl.
  rewrite (getitem_field Hna), (getitem_field Hnb).
  destruct (conc_b <=? conc_a)%Z; reflexivity.
Qed.

Lemma recommend_by_effectiveness_fallback (limit : nat)
    (a b : gmap string str) :
  (∃ e, concentration_of limit a = Raise e)
  ∨ (∃ e, concentration_of limit b = Raise e) →
  _recommend_by_effectiveness limit a b = py "Both equally effective".
Proof.
  unfold _recommend_by_effectiveness, concentration_of.
  intros Hfail.
  destruct (getitem a "concentration") as [sa|]; simpl in *; [|reflexivity].
  destruct (leading_int limit sa) as [ca|]; simpl in *; [|reflexivity].
  destruct Hfail as [[e He]|[e He]]; [discriminate He|].
  destruct (getitem b "concentration") as [sb|]; simpl in *; [|reflexivity].
  destruct (leading_int limit sb) as [cb|]; simpl in *;
    [discriminate He|reflexivity].
Qed.

Lemma recommend_by_price_ok (limit : nat) (a b : gmap string str)
    (price_a price_b : Z) :
  price_of limit a = Ok price_a → price_of limit b = Ok price_b →
  is_Some (a !! "name") → is_Some (b !! "name") →
  _recommend_by_price limit a b
  = Ok (if (price_a <? price_b)%Z then field a "name" else field b "name").
Proof.
  unfold _recommend_by_price, price_of.
  intros Hpa Hpb Hna Hnb.
  destruct (getitem a "price") as [sa|]; simpl in *; [|discriminate].
  rewrite Hpa. simpl.
  destruct (getitem b "price") as [sb|]; simpl in *; [|discriminate].
  rewrite Hpb. simpl.
  rewrite (getitem_field Hna), (getitem_field Hnb).
  destruct (price_a <? price_b)%Z; reflexivity.
Qed.

(** The unguarded [int] of the budget rule: the extracted price when the
    string holds a digit and [int] converts it, [ValueError] otherwise. *)
Lemma py_int_digits (limit : nat) (s : str) :
  py_int limit (digits_of s)
  = if bool_decide (digits_among s = []) then Raise ValueError
    else if exceeds_limit limit (digits_of s) then Raise ValueError
    else Ok (price_value s).
Proof.
  unfold py_int, price_value.
  rewrite <- digits_of_among, <- int_of_digits_decimal.
  destruct (digits_of s) as [|d ds]; [reflexivity|].
  rewrite bool_decide_eq_false_2 by discriminate. reflexivity.
Qed.

Lemma price_of_ok (limit : nat) (p : gmap string str) :
  is_Some (p !! "price") →
  digits_among (field p "price") ≠ [] → converts limit (field p "price") →
  price_of limit p = Ok (price_value (field p "price")).
Proof.
  intros Hp Hd Hc. unfold price_of. rewrite (getitem_field Hp).
  cbn [mbind result_bind]. rewrite py_int_digits.
  rewrite bool_decide_eq_false_2 by exact Hd.
  apply exceeds_limit_converts in Hc. rewrite Hc. reflexivity.
Qed.

(** C6, as amended: for_maximum_results is product_a's name when the
    concentration read from the first 3 characters of product_a's string
    is at least product_b's, product_b's name otherwise (a tie goes to
    product_a, where the budget rule sends it to product_b), and the
    literal "Both equally effective" whenever either extraction fails.
    When the two names differ, it is product_a's name exactly when
    product_a's concentration is at least product_b's. *)
Theorem maximum_results_rule limit (a b : gmap string str) :
  (∀ conc_a conc_b,
     concentration_in a = Some conc_a → concentration_in b = Some conc_b →
     is_Some (a !! "name") → is_Some (b !! "name") →
     _recommend_by_effectiveness limit a b
     = (if (conc_b <=? conc_a)%Z then field a "name" else field b "name") ∧
     (conc_a = conc_b →
      _recommend_by_effectiveness limit a b = field a "name") ∧
     (field a "name" ≠ field b "name" →
      (_recommend_by_effectiveness limit a b = field a "name"
       ↔ (conc_b ≤ conc_a)%Z))) ∧
  (concentration_in a = None ∨ concentration_in b = None →
   _recommend_by_effectiveness limit a b = py "Both equally effective") ∧
  (well_formed a → well_formed b →
   digits_among (field a "price") ≠ [] → converts limit (field a "price") →
   digits_among (field b "price") ≠ [] → converts limit (field b "price") →
   _recommend_by_price limit a b
   = Ok (if (price_value (field a "price") <? price_value (field b "price"))%Z
         then field a "name" else field b "name") ∧
   (price_value (field a "price") = price_value (field b "price") →
    _recommend_by_price limit a b = Ok (field b "name"))).
Proof.
  split; [|split].
  - intros conc_a conc_b Hca Hcb Hna Hnb.
    apply (concentration_of_in limit) in Hca, Hcb.
    rewrite (recommend_by_effectiveness_ok limit a b conc_a conc_b
               Hca Hcb Hna Hnb).
    destruct (Z.leb_spec conc_b conc_a) as [Hle|Hgt].
    + repeat split; intros; try reflexivity; try assumption.
    + repeat split; intros; try reflexivity; try lia; congruence.
  - intros Hfail. apply recommend_by_effectiveness_fallback.
    destruct Hfail as [Hfail|Hfail];
      apply (concentration_of_fails limit) in Hfail; auto.
  - intros Ha Hb Hda Hca Hdb Hcb.
    unfold well_formed, ProductRecord_fields in Ha, Hb.
    rewrite !Forall_cons in Ha, Hb.
    destruct Ha as (Hna & Hpa & _), Hb as (Hnb & Hpb & _).
    rewrite (recommend_by_price_ok limit a b _ _
               (price_of_ok limit a Hpa Hda Hca)
               (price_of_ok limit b Hpb Hdb Hcb) Hna Hnb).
    split; [reflexivity|].
    intros Heq. rewrite Heq, Z.ltb_irrefl. reflexivity.
Qed.

(** The scenario, 10 against 15; product_a against its twin, a tie in
    concentration and in price; and product_a without digits at the head
    of its concentration. *)
Lemma maximum_results_rule_witness :
  _recommend_by_effectiveness default_max_str_digits product_a product_b
  = py "B" ∧
  _recommend_by_effectiveness default_max_str_digits product_a twin_of_a
  = py "A" ∧
  _recommend_by_effectiveness default_max_str_digits
    (<["concentration" := py "ca. 5%"]> product_a) product_b
  = py "Both equally effective" ∧
  _recommend_by_price default_max_str_digits product_a twin_of_a
  = Ok (py "Twin").
Proof.
  split; [|split; [|split]].
  - destruct (proj1 (maximum_results_rule default_max_str_digits
                       product_a product_b) 10%Z 15%Z eq_refl eq_refl)
      as (Hrule & _); [eexists; reflexivity..|].
    exact Hrule.
  - destruct (proj1 (maximum_results_rule default_max_str_digits
                       product_a twin_of_a) 10%Z 10%Z eq_refl eq_refl)
      as (_ & Htie & _); [eexists; reflexivity..|].
    exact (Htie eq_refl).
  - apply (proj1 (proj2 (maximum_results_rule default_max_str_digits
                           (<["concentration" := py "ca. 5%"]> product_a)
                           product_b))).
    left. reflexivity.
  - destruct (proj2 (proj2 (maximum_results_rule default_max_str_digits
                              product_a twin_of_a)))
      as (_ & Htie);
      [exact product_a_well_formed | exact twin_of_a_well_formed
      | vm_compute; discriminate | left; vm_compute; lia
      | vm_compute; discriminate | left; vm_compute; lia |].
    exact (Htie eq_refl).
Defined.

(** C6, as stated, fails when the two products bear one name: with
    concentrations 10 and 15 the rule returns product_b's name, which is
    product_a's name too, although 10 is not at least 15. *)
Lemma maximum_results_same_name :
  concentration_in product_a = Some 10%Z ∧
  concentration_in same_name_b = Some 15%Z ∧
  ¬ (15 ≤ 10)%Z ∧
  _recommend_by_effectiveness default_max_str_digits product_a same_name_b
  = field product_a "name".
Proof. split; [|split; [|split]]; [reflexivity | reflexivity | lia | reflexivity]. Qed.

(** The scenario's records: 10 against 15 recommends B, and a record
    against itself recommends its own name by the tie. *)
Example maximum_results_scenario (limit : nat) :
  _recommend_by_effectiveness limit scenario_a scenario_b = py "B" ∧
  _recommend_by_effectiveness limit scenario_b scenario_a = py "B" ∧
  _recommend_by_effectiveness limit scenario_a scenario_a = py "A".
Proof. repeat split; vm_compute; reflexivity. Qed.

(** No digit among the first three characters of one concentration. *)
Example maximum_results_no_digits (limit : nat) :
  _recommend_by_effectiveness limit
    (<["concentration" := py "N/A"]> scenario_a) scenario_b
  = py "Both equally effective".
Proof. vm_compute. reflexivity. Qed.

(** Only the first three characters count: "5 to 10%" reads as 5 and
    "1234" as 123. *)
Example concentration_read_examples :
  concentration_read (py "5 to 10%") = Some 5%Z ∧
  concentration_read (py "1234") = Some 123%Z ∧
  concentration_read (py "2.5%") = Some 25%Z ∧
  concentration_read (py "ca. 5%") = None ∧
  concentration_read [] = None.
Proof. repeat split. Qed.

(** ** The winner *)

Lemma determine_winner_cases (c : gmap string value) :
  _determine_winner c
  = if xorb (marks_a c "better_price") (marks_a c "more_versatile")
    then VStr (py "Tie - Both excellent choices")
    else if marks_a c "better_price"
    then default (VStr (py "Product A")) (c !! "product_a_name")
    else default (VStr (py "Product B")) (c !! "product_b_name").
Proof.
  unfold _determine_winner.
  destruct (marks_a c "better_price"), (marks_a c "more_versatile");
    reflexivity.
Qed.

Lemma marks_a_agree (c1 c2 : gmap string value) (k : string) :
  c1 !! k = c2 !! k → marks_a c1 k = marks_a c2 k.
Proof. intros Hk. unfold marks_a. rewrite Hk. reflexivity. Qed.

(** C10, as amended: the winner is a function of better_price,
    more_versatile, product_a_name and product_b_name alone.  It is "Tie -
    Both excellent choices" whenever better_price and more_versatile
    designate different sides, and otherwise the name of the side both
    designate ("Product A" or "Product B" when the name is absent); so it
    is the tie literal exactly when the sides differ, provided that name
    is not itself the literal. *)
Theorem winner_depends_on_four_fields :
  (∀ c1 c2 : gmap string value,
     (∀ k, k ∈ winner_fields → c1 !! k = c2 !! k) →
     _determine_winner c1 = _determine_winner c2) ∧
  (∀ c : gmap string value,
     let name_a := default (VStr (py "Product A")) (c !! "product_a_name") in
     let name_b := default (VStr (py "Product B")) (c !! "product_b_name") in
     let tie := VStr (py "Tie - Both excellent choices") in
     (marks_a c "better_price" ≠ marks_a c "more_versatile" →
      _determine_winner c = tie) ∧
     (marks_a c "better_price" = true → marks_a c "more_versatile" = true →
      _determine_winner c = name_a) ∧
     (marks_a c "better_price" = false → marks_a c "more_versatile" = false →
      _determine_winner c = name_b) ∧
     (name_a ≠ tie → name_b ≠ tie →
      (_determine_winner c = tie
       ↔ marks_a c "better_price" ≠ marks_a c "more_versatile"))).
Proof.
  split.
  - intros c1 c2 Hagree.
    assert (Hbp : c1 !! "better_price" = c2 !! "better_price")
      by (apply Hagree; repeat constructor).
    assert (Hmv : c1 !! "more_versatile" = c2 !! "more_versatile")
      by (apply Hagree; repeat constructor).
    assert (Hna : c1 !! "product_a_name" = c2 !! "product_a_name")
      by (apply Hagree; repeat constructor).
    assert (Hnb : c1 !! "product_b_name" = c2 !! "product_b_name")
      by (apply Hagree; repeat constructor).
    rewrite !determine_winner_cases.
    rewrite (marks_a_agree c1 c2 _ Hbp), (marks_a_agree c1 c2 _ Hmv), Hna, Hnb.
    reflexivity.
  - intros c name_a name_b tie. subst name_a name_b tie.
    rewrite determine_winner_cases.
    destruct (marks_a c "better_price"), (marks_a c "more_versatile"); simpl;
      repeat split; intros; try reflexivity; try congruence.
Qed.

(** C10, as stated, fails when the side both factors designate is named
    like the tie literal: the sides agree and the result is that literal. *)
Lemma winner_tie_literal_as_name :
  marks_a tie_named_comparison "better_price" = true ∧
  marks_a tie_named_comparison "more_versatile" = true ∧
  _determine_winner tie_named_comparison
  = VStr (py "Tie - Both excellent choices").
Proof. repeat split; vm_compute; reflexivity. Qed.

(** ** The scenario of the specification *)

Section AsciiText.

Variable lower : str → str.
Hypothesis lower_ascii : lowers_ascii lower.

Lemma token_set_ascii (s : str) :
  is_ascii s = true → token_set lower s = token_set ascii_lower s.
Proof. intros Hs. unfold token_set. rewrite (lower_ascii s Hs). reflexivity. Qed.

Lemma skin_type_overlap_ascii (a b : str) :
  is_ascii a = true → is_ascii b = true →
  _analyze_skin_type_overlap lower a b
  = _analyze_skin_type_overlap ascii_lower a b.
Proof.
  intros Ha Hb. unfold _analyze_skin_type_overlap.
  rewrite !(token_set_ascii a Ha), !(token_set_ascii b Hb).
  rewrite (lower_ascii a Ha), (lower_ascii b Hb). reflexivity.
Qed.

Lemma ingredient_overlap_ascii (a b : str) :
  is_ascii a = true → is_ascii b = true →
  _calculate_ingredient_overlap lower a b
  = _calculate_ingredient_overlap ascii_lower a b.
Proof.
  intros Ha Hb. unfold _calculate_ingredient_overlap.
  rewrite !(token_set_ascii a Ha), !(token_set_ascii b Hb). reflexivity.
Qed.

Lemma versatility_ascii (a b : str) :
  is_ascii a = true → is_ascii b = true →
  _determine_versatility lower a b = _determine_versatility ascii_lower a b.
Proof.
  intros Ha Hb. unfold _determine_versatility.
  rewrite (lower_ascii a Ha), (lower_ascii b Hb). reflexivity.
Qed.

Lemma jaccard_ascii (a b : str) :
  is_ascii a = true → is_ascii b = true →
  jaccard lower a b = jaccard ascii_lower a b.
Proof.
  intros Ha Hb. unfold jaccard.
  rewrite !(token_set_ascii a Ha), !(token_set_ascii b Hb). reflexivity.
Qed.

End AsciiText.

Lemma scenario_fields :
  Forall (λ k, is_Some (scenario_a !! k)) compare_fields ∧
  Forall (λ k, is_Some (scenario_b !! k)) compare_fields.
Proof. split; repeat constructor; vm_compute; eexists; reflexivity. Qed.

Lemma scenario_prices (limit : nat) :
  converts limit (field scenario_a "price") ∧
  converts limit (field scenario_b "price").
Proof. split; left; vm_compute; lia. Qed.

(** C1, as amended: on the two records of the scenario the comparison has
    price_a=500, price_b=800, price_diff=300, cheaper_product="A",
    better_price="product_a", concentration_a=10, concentration_b=15,
    higher_concentration="B", skin_type_match="One product suits all skin
    types", more_versatile="product_b", and the winner is "Tie - Both
    excellent choices"; the Jaccard similarity of the ingredients is 1/3,
    which is above 0.3, so ingredient_similarity="Medium similarity". *)
Theorem scenario_comparison lower limit :
  lowers_ascii lower →
  ∃ c, compare_products lower limit scenario_a scenario_b = Ok c ∧
       c !! "price_a" = Some (VInt 500) ∧
       c !! "price_b" = Some (VInt 800) ∧
       c !! "price_diff" = Some (VInt 300) ∧
       c !! "cheaper_product" = Some (VStr (py "A")) ∧
       c !! "better_price" = Some (VStr (py "product_a")) ∧
       c !! "concentration_a" = Some (VInt 10) ∧
       c !! "concentration_b" = Some (VInt 15) ∧
       c !! "higher_concentration" = Some (VStr (py "B")) ∧
       c !! "skin_type_match"
       = Some (VStr (py "One product suits all skin types")) ∧
       (jaccard lower (py "X,Y") (py "X,Z") == 1 # 3)%Q ∧
       c !! "ingredient_similarity" = Some (VStr (py "Medium similarity")) ∧
       c !! "more_versatile" = Some (VStr (py "product_b")) ∧
       _determine_winner c = VStr (py "Tie - Both excellent choices").
Proof.
  intros Hlower.
  destruct scenario_fields as [Ha Hb].
  destruct (scenario_prices limit) as [Hpa Hpb].
  destruct (compare_products_ok lower limit scenario_a scenario_b
              Ha Hb Hpa Hpb) as (c & Hc & Hof).
  exists c. split; [exact Hc|].
  assert (Hbetter : c !! "better_price" = Some (VStr (py "product_a")))
    by (rewrite (cmp_better_price _ _ _ _ Hof); vm_compute; reflexivity).
  assert (Hversatile : c !! "more_versatile" = Some (VStr (py "product_b"))).
  { rewrite (cmp_versatile _ _ _ _ Hof).
    rewrite (versatility_ascii lower Hlower) by reflexivity.
    vm_compute. reflexivity. }
  repeat split.
  - rewrite (cmp_price_a _ _ _ _ Hof). vm_compute. reflexivity.
  - rewrite (cmp_price_b _ _ _ _ Hof). vm_compute. reflexivity.
  - rewrite (cmp_price_diff _ _ _ _ Hof). vm_compute. reflexivity.
  - rewrite (cmp_cheaper _ _ _ _ Hof). vm_compute. reflexivity.
  - exact Hbetter.
  - rewrite (cmp_conc_a _ _ _ _ Hof). vm_compute. reflexivity.
  - rewrite (cmp_conc_b _ _ _ _ Hof). vm_compute. reflexivity.
  - rewrite (cmp_higher _ _ _ _ Hof). vm_compute. reflexivity.
  - rewrite (cmp_skin _ _ _ _ Hof).
    rewrite (skin_type_overlap_ascii lower Hlower) by reflexivity.
    vm_compute. reflexivity.
  - rewrite (jaccard_ascii lower Hlower) by reflexivity.
    vm_compute. reflexivity.
  - rewrite (cmp_ingredients _ _ _ _ Hof).
    rewrite (ingredient_overlap_ascii lower Hlower) by reflexivity.
    vm_compute. reflexivity.
  - exact Hversatile.
  - rewrite determine_winner_cases. unfold marks_a.
    rewrite Hbetter, Hversatile. vm_compute. reflexivity.
Qed.

Lemma scenario_comparison_witness :
  lowers_ascii ascii_lower ∧
  ltac:(let t := type of (scenario_comparison ascii_lower
                            default_max_str_digits
                            ascii_lower_lowers_ascii) in exact t).
Proof.
  split; [exact ascii_lower_lowers_ascii|].
  apply (scenario_comparison ascii_lower default_max_str_digits).
  intros s _. reflexivity.
Defined.

(** C1, as stated, fails on its own input: one shared ingredient out of
    three is a similarity above 0.3, so the label is "Medium similarity"
    and not "Different formulations". *)
Lemma scenario_similarity_is_medium :
  (c ← compare_products ascii_lower default_max_str_digits
         scenario_a scenario_b;
   Ok (c !! "ingredient_similarity"))
  = Ok (Some (VStr (py "Medium similarity"))) ∧
  ¬ (∃ c, compare_products ascii_lower default_max_str_digits
         scenario_a scenario_b = Ok c ∧
          c !! "ingredient_similarity"
          = Some (VStr (py "Different formulations"))).
Proof.
  split; [vm_compute; reflexivity|].
  intros (c & Hc & Hlabel).
  assert (Hrun : (c' ← compare_products ascii_lower default_max_str_digits
         scenario_a scenario_b;
                  Ok (c' !! "ingredient_similarity"))
                 = Ok (Some (VStr (py "Different formulations"))))
    by (rewrite Hc; simpl; rewrite Hlabel; reflexivity).
  vm_compute in Hrun. discriminate Hrun.
Qed.

(** ** Which operations can raise *)

Lemma recommend_for_skin_type_ok lower (a b : gmap string str) (t : str) :
  is_Some (a !! "skin_type") → is_Some (b !! "skin_type") →
  is_Some (a !! "name") → is_Some (b !! "name") →
  ∃ r, _recommend_for_skin_type lower a b t = Ok r.
Proof.
  intros Hsa Hsb Hna Hnb. unfold _recommend_for_skin_type.
  rewrite (getitem_field Hsa), (getitem_field Hsb),
    (getitem_field Hna), (getitem_field Hnb). simpl.
  destruct (_ && _); [eexists; reflexivity|].
  destruct (_ && _); eexists; reflexivity.
Qed.

Lemma recommend_by_price_raises (limit : nat) (a b : gmap string str) :
  is_Some (a !! "price") → is_Some (b !! "price") →
  digits_of (field a "price") = [] ∨ digits_of (field b "price") = [] →
  _recommend_by_price limit a b = Raise ValueError.
Proof.
  intros Hpa Hpb Hnone. unfold _recommend_by_price, py_int.
  rewrite (getitem_field Hpa), (getitem_field Hpb).
  cbn [mbind result_bind].
  destruct (digits_of (field a "price")) as [|d ds] eqn:Hda; [reflexivity|].
  destruct (exceeds_limit limit (d :: ds)); [reflexivity|].
  destruct Hnone as [Hnone|Hnone]; [discriminate Hnone|].
  cbn [mbind result_bind]. rewrite Hnone. reflexivity.
Qed.

(** The budget rule also raises on a price [int] does not convert. *)
Lemma recommend_by_price_over_limit (limit : nat) (a b : gmap string str) :
  is_Some (a !! "price") → is_Some (b !! "price") →
  ¬ converts limit (field a "price") ∨ ¬ converts limit (field b "price") →
  _recommend_by_price limit a b = Raise ValueError.
Proof.
  intros Hpa Hpb Hover. unfold _recommend_by_price.
  rewrite (getitem_field Hpa), (getitem_field Hpb).
  cbn [mbind result_bind]. rewrite !py_int_digits.
  destruct (bool_decide (digits_among (field a "price") = []));
    [reflexivity|].
  destruct (exceeds_limit limit (digits_of (field a "price"))) eqn:Hla;
    [reflexivity|].
  cbn [mbind result_bind].
  destruct (bool_decide (digits_among (field b "price") = []));
    [reflexivity|].
  destruct (exceeds_limit limit (digits_of (field b "price"))) eqn:Hlb;
    [reflexivity|].
  apply exceeds_limit_converts in Hla, Hlb. tauto.
Qed.

Lemma recommend_by_price_total (limit : nat) (a b : gmap string str) :
  is_Some (a !! "price") → is_Some (b !! "price") →
  is_Some (a !! "name") → is_Some (b !! "name") →
  digits_among (field a "price") ≠ [] → converts limit (field a "price") →
  digits_among (field b "price") ≠ [] → converts limit (field b "price") →
  ∃ r, _recommend_by_price limit a b = Ok r.
Proof.
  intros Hpa Hpb Hna Hnb Hda Hca Hdb Hcb.
  rewrite (recommend_by_price_ok limit a b _ _
             (price_of_ok limit a Hpa Hda Hca)
             (price_of_ok limit b Hpb Hdb Hcb) Hna Hnb).
  eexists. reflexivity.
Qed.

Lemma generate_comparison_analysis_total lower (a b : gmap string str)
    (c : gmap string value) :
  well_formed a → well_formed b → comparison_of lower a b c →
  ∃ text, generate_comparison_analysis lower a b c = Ok text.
Proof.
  intros Ha Hb Hof. unfold generate_comparison_analysis.
  fields_of Ha. fields_of Hb.
  rewrite (getitem_some _ _ _ (cmp_cheaper _ _ _ _ Hof)),
    (getitem_some _ _ _ (cmp_better_price _ _ _ _ Hof)),
    (getitem_some _ _ _ (cmp_price_a _ _ _ _ Hof)),
    (getitem_some _ _ _ (cmp_price_b _ _ _ _ Hof)),
    (getitem_some _ _ _ (cmp_conc_a _ _ _ _ Hof)),
    (getitem_some _ _ _ (cmp_conc_b _ _ _ _ Hof)),
    (getitem_some _ _ _ (cmp_higher _ _ _ _ Hof)),
    (getitem_some _ _ _ (cmp_ingredients _ _ _ _ Hof)),
    (getitem_some _ _ _ (cmp_versatile _ _ _ _ Hof)),
    (getitem_some _ _ _ (cmp_price_diff _ _ _ _ Hof)).
  cbn [mbind result_bind value_lower].
  repeat match goal with
         | |- context [decide ?P] =>
             destruct (decide P); cbn [mbind result_bind value_lower]
         end;
    eexists; reflexivity.
Qed.

Lemma generate_recommendations_total lower limit (a b : gmap string str)
    (c : gmap string value) :
  well_formed a → well_formed b →
  digits_among (field a "price") ≠ [] → converts limit (field a "price") →
  digits_among (field b "price") ≠ [] → converts limit (field b "price") →
  ∃ r, _generate_recommendations lower limit a b c = Ok r ∧
       r !! "for_maximum_results"
       = Some (_recommend_by_effectiveness limit a b).
Proof.
  intros Ha Hb Hda Hca Hdb Hcb. unfold _generate_recommendations.
  unfold well_formed, ProductRecord_fields in Ha, Hb.
  rewrite !Forall_cons in Ha, Hb.
  destruct Ha as (Hna & Hpa & _ & Hsa & _), Hb as (Hnb & Hpb & _ & Hsb & _).
  destruct (recommend_for_skin_type_ok lower a b (py "oily") Hsa Hsb Hna Hnb)
    as [r1 ->].
  destruct (recommend_for_skin_type_ok lower a b (py "sensitive")
              Hsa Hsb Hna Hnb) as [r2 ->].
  destruct (recommend_by_price_total limit a b Hpa Hpb Hna Hnb
              Hda Hca Hdb Hcb) as [r3 ->].
  simpl. eexists. split; reflexivity.
Qed.

(** On well-formed records whose prices both hold a digit and are ones
    [int] converts, the whole pipeline returns. *)
Lemma core_total lower limit (a b : gmap string str) :
  well_formed a → well_formed b →
  digits_among (field a "price") ≠ [] → converts limit (field a "price") →
  digits_among (field b "price") ≠ [] → converts limit (field b "price") →
  ∃ c text r,
    compare_products lower limit a b = Ok c ∧
    generate_comparison_analysis lower a b c = Ok text ∧
    _generate_recommendations lower limit a b c = Ok r.
Proof.
  intros Ha Hb Hda Hca Hdb Hcb.
  destruct (compare_products_ok lower limit a b
              (well_formed_compare_fields a Ha)
              (well_formed_compare_fields b Hb) Hca Hcb) as (c & Hc & Hof).
  destruct (generate_comparison_analysis_total lower a b c Ha Hb Hof)
    as [text Htext].
  destruct (generate_recommendations_total lower limit a b c Ha Hb
              Hda Hca Hdb Hcb) as (r & Hr & _).
  exists c, text, r. auto.
Qed.

(** The budget rule on the scenario. *)
Example budget_rule_scenario (limit : nat) :
  _recommend_by_price limit scenario_a scenario_b = Ok (py "A") ∧
  _recommend_by_price limit (<["price" := py "800"]> scenario_a) scenario_b
  = Ok (py "B") ∧
  _recommend_by_price limit unpriced_a product_b = Raise ValueError.
Proof. repeat split. Qed.

(** C2 fails on the code: the budget rule calls [int] on the digits of a
    price without the guard of [_extract_price], so a price that holds no
    digit makes it, and with it the whole recommendation set, raise
    [ValueError], on records for which the comparison itself goes through
    with that price read as 0 (as long as the other price is one [int]
    converts). *)
Theorem budget_rule_raises_without_digits lower limit (a b : gmap string str)
    (c : gmap string value) :
  well_formed a → well_formed b →
  digits_of (field a "price") = [] ∨ digits_of (field b "price") = [] →
  _recommend_by_price limit a b = Raise ValueError ∧
  _generate_recommendations lower limit a b c = Raise ValueError ∧
  (converts limit (field a "price") → converts limit (field b "price") →
   ∃ c', compare_products lower limit a b = Ok c' ∧
         (digits_of (field a "price") = [] → c' !! "price_a" = Some (VInt 0)) ∧
         (digits_of (field b "price") = [] → c' !! "price_b" = Some (VInt 0))).
Proof.
  intros Ha Hb Hnone.
  pose proof (well_formed_compare_fields a Ha) as Hfa.
  pose proof (well_formed_compare_fields b Hb) as Hfb.
  unfold well_formed, ProductRecord_fields in Ha, Hb.
  rewrite !Forall_cons in Ha, Hb.
  destruct Ha as (Hna & Hpa & _ & Hsa & _), Hb as (Hnb & Hpb & _ & Hsb & _).
  pose proof (recommend_by_price_raises limit a b Hpa Hpb Hnone) as Hraise.
  split; [exact Hraise|]. split.
  - unfold _generate_recommendations.
    destruct (recommend_for_skin_type_ok lower a b (py "oily") Hsa Hsb Hna Hnb)
      as [r1 ->].
    destruct (recommend_for_skin_type_ok lower a b (py "sensitive")
                Hsa Hsb Hna Hnb) as [r2 ->].
    simpl. rewrite Hraise. reflexivity.
  - intros Hca Hcb.
    destruct (compare_products_ok lower limit a b Hfa Hfb Hca Hcb)
      as (c' & Hc' & Hof).
    exists c'. split; [exact Hc'|]. split; intros Hd.
    + rewrite (cmp_price_a _ _ _ _ Hof).
      rewrite (proj2 (price_without_digits limit _ Hd)). reflexivity.
    + rewrite (cmp_price_b _ _ _ _ Hof).
      rewrite (proj2 (price_without_digits limit _ Hd)). reflexivity.
Qed.

Lemma budget_rule_raises_witness :
  well_formed unpriced_a ∧ well_formed product_b ∧
  digits_of (field unpriced_a "price") = [] ∧
  _generate_recommendations ascii_lower default_max_str_digits
    unpriced_a product_b ∅
  = Raise ValueError ∧
  ∃ c, compare_products ascii_lower default_max_str_digits unpriced_a product_b
       = Ok c ∧ c !! "price_a" = Some (VInt 0).
Proof.
  assert (Ha : well_formed unpriced_a)
    by (repeat constructor; vm_compute; eexists; reflexivity).
  assert (Hb : well_formed product_b)
    by (repeat constructor; vm_compute; eexists; reflexivity).
  assert (Hd : digits_of (field unpriced_a "price") = [])
    by (vm_compute; reflexivity).
  split; [exact Ha|]. split; [exact Hb|]. split; [exact Hd|].
  destruct (budget_rule_raises_without_digits
              ascii_lower default_max_str_digits unpriced_a product_b ∅ Ha Hb
              (or_introl Hd)) as (_ & Hraise & Hcompare).
  split; [exact Hraise|].
  destruct Hcompare as (c & Hc & Hzero & _);
    [left; vm_compute; lia | left; vm_compute; lia |].
  exists c. split; [exact Hc | exact (Hzero Hd)].
Defined.

(** ** Absent fields *)

Lemma compare_products_raises lower limit (a b : gmap string str) :
  (∃ k, k ∈ compare_fields ∧ (a !! k = None ∨ b !! k = None)) →
  converts limit (field a "price") → converts limit (field b "price") →
  ∃ k, compare_products lower limit a b = Raise (KeyError k) ∧
       k ∈ compare_fields ∧ (a !! k = None ∨ b !! k = None).
Proof.
  intros (k0 & Hk0 & Hnone) Hca Hcb.
  destruct (compare_products_outcome lower limit a b)
    as [(c & _ & Ha & Hb & _) | [Hkey | (_ & _ & Hover)]].
  - exfalso. unfold compare_fields in Ha, Hb, Hk0.
    rewrite !Forall_cons in Ha, Hb.
    rewrite !elem_of_cons, elem_of_nil in Hk0.
    destruct Ha as ([? ?] & [? ?] & [? ?] & [? ?] & _).
    destruct Hb as ([? ?] & [? ?] & [? ?] & [? ?] & _).
    destruct Hk0 as [->|[->|[->|[->|[]]]]]; destruct Hnone; congruence.
  - exact Hkey.
  - tauto.
Qed.

Lemma concentration_in_absent (p : gmap string str) :
  p !! "concentration" = None → concentration_in p = None.
Proof. intros Hp. unfold concentration_in. rewrite Hp. reflexivity. Qed.

Lemma concentrations_in_absent (a b : gmap string str) :
  a !! "concentration" = None ∨ b !! "concentration" = None →
  concentrations_in a b = (0, 0)%Z.
Proof.
  intros Hnone. unfold concentrations_in.
  destruct Hnone as [Hnone|Hnone];
    rewrite (concentration_in_absent _ Hnone);
    [|destruct (concentration_in a)]; reflexivity.
Qed.

Lemma recommend_for_skin_type_raises lower (a b : gmap string str) (t : str) :
  a !! "skin_type" = None ∨ b !! "skin_type" = None →
  _recommend_for_skin_type lower a b t = Raise (KeyError "skin_type").
Proof.
  intros Hnone. unfold _recommend_for_skin_type, getitem.
  destruct (a !! "skin_type") as [sa|]; [|reflexivity].
  destruct Hnone as [Hnone|Hnone]; [discriminate Hnone|].
  rewrite Hnone. reflexivity.
Qed.

(** C3, as amended: [compare_products] returns exactly when name, price,
    skin_type and key_ingredients are present in both records and both
    prices are ones [int] converts.  When one of the four is absent it
    raises the missing-key error, and the key it reports is such an
    absent field, unless a price that is present holds more digits than
    the interpreter's limit, where the [ValueError] of [int] may come
    first; it raises the missing-key error in no other case.  The
    recommendation set raises it when skin_type is absent, and when price
    is absent from product_a while the names and skin types are there.
    An absent concentration is not propagated: inside the [try] blocks it
    makes both concentrations of the comparison 0 and the
    for_maximum_results recommendation "Both equally effective". *)
Theorem missing_field_propagation lower limit (a b : gmap string str) :
  ((∃ c, compare_products lower limit a b = Ok c)
   ↔ Forall (λ k, is_Some (a !! k)) compare_fields ∧
     Forall (λ k, is_Some (b !! k)) compare_fields ∧
     converts limit (field a "price") ∧ converts limit (field b "price")) ∧
  ((∃ k, k ∈ compare_fields ∧ (a !! k = None ∨ b !! k = None)) →
   (converts limit (field a "price") → converts limit (field b "price") →
    ∃ k, compare_products lower limit a b = Raise (KeyError k)) ∧
   ((∃ k, compare_products lower limit a b = Raise (KeyError k))
    ∨ compare_products lower limit a b = Raise ValueError)) ∧
  (∀ k, compare_products lower limit a b = Raise (KeyError k) →
        k ∈ compare_fields ∧ (a !! k = None ∨ b !! k = None)) ∧
  (∀ c, compare_products lower limit a b = Ok c →
        a !! "concentration" = None ∨ b !! "concentration" = None →
        c !! "concentration_a" = Some (VInt 0) ∧
        c !! "concentration_b" = Some (VInt 0)) ∧
  (a !! "skin_type" = None ∨ b !! "skin_type" = None →
   ∀ c, _generate_recommendations lower limit a b c
        = Raise (KeyError "skin_type")) ∧
  (is_Some (a !! "skin_type") → is_Some (b !! "skin_type") →
   is_Some (a !! "name") → is_Some (b !! "name") →
   a !! "price" = None →
   ∀ c, _generate_recommendations lower limit a b c
        = Raise (KeyError "price")) ∧
  (a !! "concentration" = None ∨ b !! "concentration" = None →
   _recommend_by_effectiveness limit a b = py "Both equally effective").
Proof.
  split; [|split; [|split; [|split; [|split; [|split]]]]].
  - split.
    + intros [c Hc].
      destruct (compare_products_inv lower limit a b c Hc)
        as (Ha & Hb & Hca & Hcb & _). auto.
    + intros (Ha & Hb & Hca & Hcb).
      destruct (compare_products_ok lower limit a b Ha Hb Hca Hcb)
        as (c & Hc & _). eauto.
  - intros Habsent. split.
    + intros Hca Hcb.
      destruct (compare_products_raises lower limit a b Habsent Hca Hcb)
        as (k & Hk & _). eauto.
    + destruct (converts_dec limit (field a "price")) as [Hca|Hca];
        [destruct (converts_dec limit (field b "price")) as [Hcb|Hcb]|].
      * destruct (compare_products_raises lower limit a b Habsent Hca Hcb)
          as (k & Hk & _). eauto.
      * destruct (compare_products_outcome lower limit a b)
          as [(c & _ & _ & _ & _ & Hcb') | [(k & Hk & _) | (Hv & _)]];
          [contradiction | eauto | auto].
      * destruct (compare_products_outcome lower limit a b)
          as [(c & _ & _ & _ & Hca' & _) | [(k & Hk & _) | (Hv & _)]];
          [contradiction | eauto | auto].
  - intros k Hk.
    destruct (compare_products_outcome lower limit a b)
      as [(c & Hc & _) | [(k' & Hk' & Hin & Hnone) | (Hv & _)]];
      [congruence | | congruence].
    assert (k' = k) by congruence. subst k'. auto.
  - intros c Hc Hnone.
    destruct (compare_products_inv lower limit a b c Hc)
      as (_ & _ & _ & _ & Hof).
    rewrite (cmp_conc_a _ _ _ _ Hof), (cmp_conc_b _ _ _ _ Hof).
    rewrite (concentrations_in_absent a b Hnone). split; reflexivity.
  - intros Hnone c. unfold _generate_recommendations.
    rewrite (recommend_for_skin_type_raises lower a b (py "oily") Hnone).
    reflexivity.
  - intros Hsa Hsb Hna Hnb Hprice c. unfold _generate_recommendations.
    destruct (recommend_for_skin_type_ok lower a b (py "oily") Hsa Hsb Hna Hnb)
      as [r1 ->].
    destruct (recommend_for_skin_type_ok lower a b (py "sensitive")
                Hsa Hsb Hna Hnb) as [r2 ->].
    unfold _recommend_by_price. rewrite (getitem_absent a _ Hprice).
    reflexivity.
  - intros Hnone. apply recommend_by_effectiveness_fallback.
    destruct Hnone as [Hnone|Hnone];
      apply concentration_in_absent, (concentration_of_fails limit) in Hnone;
      auto.
Qed.

(** The scenario's product_a without its price: the comparison reports
    the absent key. *)
Example missing_price_is_propagated :
  compare_products ascii_lower default_max_str_digits
    (delete "price" product_a) product_b
  = Raise (KeyError "price").
Proof. vm_compute. reflexivity. Qed.

(** The scenario's product_b without its skin type: the comparison
    raises for an absent key, and so does the recommendation set. *)
Lemma missing_field_propagation_witness :
  (∃ k, compare_products ascii_lower default_max_str_digits
          product_a (delete "skin_type" product_b) = Raise (KeyError k)) ∧
  _generate_recommendations ascii_lower default_max_str_digits
    product_a (delete "skin_type" product_b) ∅
  = Raise (KeyError "skin_type").
Proof.
  destruct (missing_field_propagation ascii_lower default_max_str_digits
              product_a (delete "skin_type" product_b))
    as (_ & Hcompare & _ & _ & Hrecommend & _).
  split.
  - apply Hcompare.
    + exists "skin_type". split; [repeat constructor|].
      right. reflexivity.
    + left. vm_compute. lia.
    + left. vm_compute. lia.
  - apply Hrecommend. right. reflexivity.
Defined.

(** C3, as stated, fails on a record without its concentration: the
    comparison returns, with both concentrations 0, and so does the
    recommendation set, with the fallback literal. *)
Lemma absent_concentration_is_absorbed :
  no_concentration_a !! "concentration" = None ∧
  (c ← compare_products ascii_lower default_max_str_digits
         no_concentration_a product_b;
   Ok (c !! "concentration_a", c !! "concentration_b"))
  = Ok (Some (VInt 0), Some (VInt 0)) ∧
  (r ← _generate_recommendations ascii_lower default_max_str_digits
         no_concentration_a product_b ∅;
   Ok (r !! "for_maximum_results"))
  = Ok (Some (py "Both equally effective")).
Proof. split; [|split]; vm_compute; reflexivity. Qed.


(** * The rest of the comparison page: proofs *)

(** ** The parser *)

Lemma parser_lookup (raw : gmap string str) (k : string) :
  k ∈ copied_fields →
  ParserAgent.process raw !! k = Some (get_or raw k []).
Proof.
  unfold copied_fields. rewrite !elem_of_cons, elem_of_nil.
  intros [->|[->|[->|[->|[->|[->|[->|[->|[]]]]]]]]]; reflexivity.
Qed.

(** Whatever the raw record holds, the parsed product has exactly the
    nine keys of the parser, so it is a well-formed ProductRecord; each
    copied field is the raw string, or the empty string when the raw
    record lacks it; and product_id is always "GLOW_001", also when the
    raw record brings one. *)
Lemma parser_output_shape (raw : gmap string str) :
  dom (ParserAgent.process raw) = list_to_set parsed_fields ∧
  well_formed (ParserAgent.process raw) ∧
  ParserAgent.process raw !! "product_id" = Some (py "GLOW_001") ∧
  (∀ k v, k ∈ copied_fields → raw !! k = Some v →
          ParserAgent.process raw !! k = Some v) ∧
  (∀ k, k ∈ copied_fields → raw !! k = None →
        ParserAgent.process raw !! k = Some []).
Proof.
  split; [|split; [|split; [|split]]].
  - unfold ParserAgent.process. rewrite dom_list_to_map_L. reflexivity.
  - unfold well_formed, ProductRecord_fields.
    repeat constructor; rewrite parser_lookup by (unfold copied_fields; set_solver);
      eexists; reflexivity.
  - reflexivity.
  - intros k v Hk Hv. rewrite (parser_lookup raw k Hk). unfold get_or.
    rewrite Hv. reflexivity.
  - intros k Hk Hv. rewrite (parser_lookup raw k Hk). unfold get_or.
    rewrite Hv. reflexivity.
Qed.

(** X2: parsing is idempotent: a parsed product parses to itself. *)
Theorem parser_idempotent (raw : gmap string str) :
  ParserAgent.process (ParserAgent.process raw) = ParserAgent.process raw.
Proof.
  unfold ParserAgent.process at 1.
  assert (Hget : ∀ k, k ∈ copied_fields →
            get_or (ParserAgent.process raw) k [] = get_or raw k []).
  { intros k Hk. unfold get_or at 1. rewrite (parser_lookup raw k Hk).
    reflexivity. }
  rewrite !Hget by (unfold copied_fields; repeat constructor).
  reflexivity.
Qed.

(** ** The page template *)

Lemma fill_lookup (data : gmap string pyval) (k : string) (v : pyval) :
  k ∈ page_fields → data !! k = Some v →
  ComparisonTemplate.fill data !! k = Some v.
Proof.
  unfold page_fields. rewrite !elem_of_cons, elem_of_nil.
  intros Hk Hv. unfold ComparisonTemplate.fill.
  destruct Hk as [->|[->|[->|[->|[->|[->|[->|[->|[->|[->|[->|[]]]]]]]]]]]];
    (etrans; [reflexivity|]); unfold get_or; rewrite Hv; reflexivity.
Qed.

Lemma fill_dom (data : gmap string pyval) :
  dom (ComparisonTemplate.fill data) = list_to_set page_fields.
Proof.
  unfold ComparisonTemplate.fill. rewrite dom_list_to_map_L. reflexivity.
Qed.

(** X3: a filled comparison page has exactly the eleven keys of the
    template, whatever the data: keys of the data outside the template
    are dropped, a template key the data holds keeps its value, and
    filling a filled page changes nothing. *)
Theorem template_fill_shape (data : gmap string pyval) :
  dom (ComparisonTemplate.fill data) = list_to_set page_fields ∧
  (∀ k, k ∉ page_fields → ComparisonTemplate.fill data !! k = None) ∧
  (∀ k v, k ∈ page_fields → data !! k = Some v →
          ComparisonTemplate.fill data !! k = Some v) ∧
  ComparisonTemplate.fill (ComparisonTemplate.fill data)
  = ComparisonTemplate.fill data.
Proof.
  split; [apply fill_dom|]. split; [|split].
  - intros k Hk. apply not_elem_of_dom. rewrite fill_dom.
    rewrite elem_of_list_to_set. exact Hk.
  - apply fill_lookup.
  - assert (Hsome : ∀ k, k ∈ page_fields →
              is_Some (ComparisonTemplate.fill data !! k)).
    { intros k Hk. apply elem_of_dom. rewrite fill_dom.
      apply elem_of_list_to_set. exact Hk. }
    apply map_eq. intros k.
    destruct (decide (k ∈ page_fields)) as [Hk|Hk].
    + destruct (Hsome k Hk) as [v Hv]. rewrite Hv.
      apply (fill_lookup _ k v Hk Hv).
    + transitivity (@None pyval).
      * apply not_elem_of_dom. rewrite fill_dom, elem_of_list_to_set.
        exact Hk.
      * symmetry. apply not_elem_of_dom.
        rewrite fill_dom, elem_of_list_to_set. exact Hk.
Qed.

(** ** The skin-type recommendation *)

(** X4: the skin-type recommendation does not depend on the order of the
    two products; it names a product only when that product alone
    mentions the skin type, and answers "Both products suitable" when both
    mention it and also when neither does. *)
Theorem skin_type_recommendation_symmetric lower (a b : gmap string str)
    (target : str) :
  is_Some (a !! "skin_type") → is_Some (b !! "skin_type") →
  is_Some (a !! "name") → is_Some (b !! "name") →
  let mentions p := contains (lower target) (lower (field p "skin_type")) in
  _recommend_for_skin_type lower a b target
  = _recommend_for_skin_type lower b a target ∧
  _recommend_for_skin_type lower a b target
  = Ok (if mentions a && negb (mentions b) then field a "name"
        else if mentions b && negb (mentions a) then field b "name"
        else py "Both products suitable") ∧
  (mentions a = false → mentions b = false →
   _recommend_for_skin_type lower a b target
   = Ok (py "Both products suitable")).
Proof.
  intros Hsa Hsb Hna Hnb mentions. subst mentions.
  unfold _recommend_for_skin_type.
  rewrite (getitem_field Hsa), (getitem_field Hsb),
    (getitem_field Hna), (getitem_field Hnb).
  cbn [mbind result_bind].
  destruct (contains (lower target) (lower (field a "skin_type")));
    destruct (contains (lower target) (lower (field b "skin_type")));
    cbn [andb negb]; repeat split; intros; try reflexivity; discriminate.
Qed.

Lemma skin_type_recommendation_witness :
  is_Some (scenario_a !! "skin_type") ∧
  _recommend_for_skin_type ascii_lower scenario_a scenario_b (py "sensitive")
  = Ok (py "Both products suitable").
Proof.
  assert (Hsa : is_Some (scenario_a !! "skin_type")) by (eexists; reflexivity).
  assert (Hsb : is_Some (scenario_b !! "skin_type")) by (eexists; reflexivity).
  assert (Hna : is_Some (scenario_a !! "name")) by (eexists; reflexivity).
  assert (Hnb : is_Some (scenario_b !! "name")) by (eexists; reflexivity).
  split; [exact Hsa|].
  apply (skin_type_recommendation_symmetric ascii_lower scenario_a scenario_b
           (py "sensitive") Hsa Hsb Hna Hnb); reflexivity.
Defined.

(** ** Recommendations against the comparison record *)

Lemma well_formed_field (p : gmap string str) (k : string) :
  well_formed p → k ∈ ProductRecord_fields → is_Some (p !! k).
Proof.
  intros Hp Hk. exact (proj1 (Forall_forall _ _) Hp k Hk).
Qed.

Lemma product_prices (limit : nat) :
  (digits_among (field product_a "price") ≠ []
   ∧ converts limit (field product_a "price")) ∧
  (digits_among (field product_b "price") ≠ []
   ∧ converts limit (field product_b "price")).
Proof.
  repeat split; try (vm_compute; discriminate); left; vm_compute; lia.
Qed.

(** The comparison of the two products of the scenario. *)
Lemma products_compare (limit : nat) :
  ∃ c, compare_products ascii_lower limit product_a product_b = Ok c.
Proof.
  destruct (product_prices limit) as [[_ Hca] [_ Hcb]].
  destruct (compare_products_ok ascii_lower limit product_a product_b
              (well_formed_compare_fields _ product_a_well_formed)
              (well_formed_compare_fields _ product_b_well_formed) Hca Hcb)
    as (c & Hc & _).
  eauto.
Qed.

(** X5: on well-formed records whose prices both hold a digit, the
    budget rule of the agent and the comparison of the logic block go
    together.  When both prices are ones [int] converts, both return and
    the budget recommendation is the cheaper_product of the comparison
    record: they read the prices the same way and break the tie the same
    way.  When one price has more digits than the interpreter's limit,
    both raise [ValueError]. *)
Theorem budget_rule_matches_cheaper_product lower limit
    (a b : gmap string str) :
  well_formed a → well_formed b →
  digits_among (field a "price") ≠ [] → digits_among (field b "price") ≠ [] →
  (converts limit (field a "price") → converts limit (field b "price") →
   ∃ c r, compare_products lower limit a b = Ok c ∧
          _recommend_by_price limit a b = Ok r ∧
          c !! "cheaper_product" = Some (VStr r)) ∧
  (¬ converts limit (field a "price") ∨ ¬ converts limit (field b "price") →
   compare_products lower limit a b = Raise ValueError ∧
   _recommend_by_price limit a b = Raise ValueError).
Proof.
  intros Ha Hb Hda Hdb.
  assert (Hpa : is_Some (a !! "price"))
    by (apply (well_formed_field a _ Ha); repeat constructor).
  assert (Hpb : is_Some (b !! "price"))
    by (apply (well_formed_field b _ Hb); repeat constructor).
  assert (Hna : is_Some (a !! "name"))
    by (apply (well_formed_field a _ Ha); repeat constructor).
  assert (Hnb : is_Some (b !! "name"))
    by (apply (well_formed_field b _ Hb); repeat constructor).
  split.
  - intros Hca Hcb.
    destruct (compare_products_ok lower limit a b
                (well_formed_compare_fields a Ha)
                (well_formed_compare_fields b Hb) Hca Hcb) as (c & Hc & Hof).
    exists c. eexists. split; [exact Hc|]. split.
    + apply (recommend_by_price_ok limit a b _ _
               (price_of_ok limit a Hpa Hda Hca)
               (price_of_ok limit b Hpb Hdb Hcb) Hna Hnb).
    + apply (cmp_cheaper _ _ _ _ Hof).
  - intros Hover. split.
    + apply compare_products_over_limit;
        [apply well_formed_compare_fields, Ha
        |apply well_formed_compare_fields, Hb | exact Hover].
    + apply recommend_by_price_over_limit; assumption.
Qed.

Lemma budget_rule_matches_cheaper_product_witness :
  (well_formed product_a ∧ well_formed product_b ∧
   digits_among (field product_a "price") ≠ [] ∧
   digits_among (field product_b "price") ≠ []) ∧
  (converts default_max_str_digits (field product_a "price") ∧
   converts default_max_str_digits (field product_b "price")) ∧
  ∃ c r, compare_products ascii_lower default_max_str_digits
           product_a product_b = Ok c ∧
         _recommend_by_price default_max_str_digits product_a product_b
         = Ok r ∧
         c !! "cheaper_product" = Some (VStr r).
Proof.
  destruct (product_prices default_max_str_digits) as [[Hda Hca] [Hdb Hcb]].
  split; [repeat split;
          [exact product_a_well_formed | exact product_b_well_formed
          | exact Hda | exact Hdb]|].
  split; [split; [exact Hca | exact Hcb]|].
  exact (proj1 (budget_rule_matches_cheaper_product ascii_lower
                  default_max_str_digits product_a product_b
                  product_a_well_formed product_b_well_formed Hda Hdb)
           Hca Hcb).
Defined.

(** X6: on the record a comparison returned, when both concentrations
    are read and differ, the effectiveness recommendation is the
    higher_concentration of the record; when they are read and are equal
    the two disagree: the record names product_b and the recommendation
    names product_a. *)
Theorem maximum_results_against_higher_concentration lower limit
    (a b : gmap string str) (c : gmap string value) (conc_a conc_b : Z) :
  compare_products lower limit a b = Ok c →
  concentration_in a = Some conc_a → concentration_in b = Some conc_b →
  (conc_a ≠ conc_b →
   c !! "higher_concentration"
   = Some (VStr (_recommend_by_effectiveness limit a b))) ∧
  (conc_a = conc_b →
   c !! "higher_concentration" = Some (VStr (field b "name")) ∧
   _recommend_by_effectiveness limit a b = field a "name").
Proof.
  intros Hc Hca Hcb.
  destruct (compare_products_inv lower limit a b c Hc)
    as (Ha & Hb & _ & _ & Hof).
  assert (Hna : is_Some (a !! "name"))
    by (apply (proj1 (Forall_forall _ _) Ha); repeat constructor).
  assert (Hnb : is_Some (b !! "name"))
    by (apply (proj1 (Forall_forall _ _) Hb); repeat constructor).
  rewrite (cmp_higher _ _ _ _ Hof). unfold concentrations_in.
  rewrite Hca, Hcb.
  apply (concentration_of_in limit) in Hca, Hcb.
  rewrite (recommend_by_effectiveness_ok limit a b conc_a conc_b
             Hca Hcb Hna Hnb).
  cbn [fst snd].
  split.
  - intros Hne.
    destruct (Z.ltb_spec conc_b conc_a) as [Hlt|Hge];
      destruct (Z.leb_spec conc_b conc_a) as [Hle|Hgt];
      try reflexivity; lia.
  - intros ->. rewrite Z.ltb_irrefl, Z.leb_refl. split; reflexivity.
Qed.

(** The scenario, 10 against 15, and product_a against its twin, 10
    against 10. *)
Lemma maximum_results_against_higher_concentration_witness :
  (concentration_in product_a = Some 10%Z ∧
   concentration_in product_b = Some 15%Z ∧
   concentration_in twin_of_a = Some 10%Z) ∧
  (∃ c, compare_products ascii_lower default_max_str_digits
          product_a product_b = Ok c ∧
        c !! "higher_concentration"
        = Some (VStr (_recommend_by_effectiveness default_max_str_digits
                        product_a product_b))) ∧
  (∃ c, compare_products ascii_lower default_max_str_digits
          product_a twin_of_a = Ok c ∧
        c !! "higher_concentration" = Some (VStr (py "Twin")) ∧
        _recommend_by_effectiveness default_max_str_digits
          product_a twin_of_a = py "A").
Proof.
  split; [repeat split|]. split.
  - destruct (products_compare default_max_str_digits) as [c Hc].
    exists c. split; [exact Hc|].
    apply (proj1 (maximum_results_against_higher_concentration ascii_lower
                    default_max_str_digits product_a product_b c 10 15
                    Hc eq_refl eq_refl)).
    lia.
  - destruct (compare_products_ok ascii_lower default_max_str_digits
                product_a twin_of_a
                (well_formed_compare_fields _ product_a_well_formed)
                (well_formed_compare_fields _ twin_of_a_well_formed))
      as (c & Hc & _); [left; vm_compute; lia..|].
    exists c. split; [exact Hc|].
    apply (proj2 (maximum_results_against_higher_concentration ascii_lower
                    default_max_str_digits product_a twin_of_a c 10 10
                    Hc eq_refl eq_refl)).
    reflexivity.
Defined.

(** ** The winner of a comparison *)

(** X7: on the record [compare_products] returned, the winner is
    product_a's name when product_a is strictly cheaper and the more
    versatile, product_b's name when it is neither, and "Tie - Both
    excellent choices" when exactly one of the two holds; the fallback
    names "Product A" and "Product B" are never used. *)
Theorem winner_of_comparison lower limit (a b : gmap string str)
    (c : gmap string value) :
  compare_products lower limit a b = Ok c →
  let cheaper_a :=
    (price_value (field a "price") <? price_value (field b "price"))%Z in
  let versatile_a :=
    bool_decide (_determine_versatility lower (field a "skin_type")
                   (field b "skin_type") = py "product_a") in
  _determine_winner c
  = VStr (if cheaper_a && versatile_a then field a "name"
          else if negb cheaper_a && negb versatile_a then field b "name"
          else py "Tie - Both excellent choices").
Proof.
  intros Hc.
  destruct (compare_products_inv lower limit a b c Hc)
    as (_ & _ & _ & _ & Hof).
  cbv zeta.
  rewrite determine_winner_cases. unfold marks_a.
  rewrite (cmp_better_price _ _ _ _ Hof), (cmp_versatile _ _ _ _ Hof),
    (cmp_name_a _ _ _ _ Hof), (cmp_name_b _ _ _ _ Hof).
  destruct (price_value (field a "price") <? price_value (field b "price"))%Z;
    destruct (versatility_cases lower (field a "skin_type")
                (field b "skin_type")) as [(Hv & _)|(Hv & _)];
    rewrite Hv; reflexivity.
Qed.

Lemma winner_of_comparison_witness :
  ∃ c, compare_products ascii_lower default_max_str_digits product_a product_b
       = Ok c ∧
       _determine_winner c = VStr (py "Tie - Both excellent choices").
Proof.
  destruct (products_compare default_max_str_digits) as [c Hc].
  exists c. split; [exact Hc|].
  exact (winner_of_comparison ascii_lower default_max_str_digits
           product_a product_b c Hc).
Defined.

(** ** The narrative *)

(** The lookups of the narrative in a comparison record. *)
Ltac narrative_lookups Hof :=
  rewrite ?(getitem_some _ _ _ (cmp_cheaper _ _ _ _ Hof)),
    ?(getitem_some _ _ _ (cmp_better_price _ _ _ _ Hof)),
    ?(getitem_some _ _ _ (cmp_price_a _ _ _ _ Hof)),
    ?(getitem_some _ _ _ (cmp_price_b _ _ _ _ Hof)),
    ?(getitem_some _ _ _ (cmp_conc_a _ _ _ _ Hof)),
    ?(getitem_some _ _ _ (cmp_conc_b _ _ _ _ Hof)),
    ?(getitem_some _ _ _ (cmp_higher _ _ _ _ Hof)),
    ?(getitem_some _ _ _ (cmp_ingredients _ _ _ _ Hof)),
    ?(getitem_some _ _ _ (cmp_versatile _ _ _ _ Hof)),
    ?(getitem_some _ _ _ (cmp_price_diff _ _ _ _ Hof)).

(** Every decision the narrative takes, one case each. *)
Ltac narrative_cases :=
  cbn [mbind result_bind value_lower];
  repeat match goal with
         | |- context [decide ?P] =>
             destruct (decide P); cbn [mbind result_bind value_lower]
         end.

(** X8: the narrative needs two fields the comparison does without.  On
    the record a comparison returned, it raises the missing-key error
    for an absent concentration, which the comparison had absorbed, and
    for an absent benefits text, which the comparison never reads; with
    all six fields it returns. *)
Theorem narrative_missing_fields lower limit (a b : gmap string str)
    (c : gmap string value) :
  compare_products lower limit a b = Ok c →
  (a !! "concentration" = None ∨ b !! "concentration" = None →
   generate_comparison_analysis lower a b c
   = Raise (KeyError "concentration")) ∧
  (is_Some (a !! "concentration") → is_Some (b !! "concentration") →
   a !! "benefits" = None ∨ b !! "benefits" = None →
   generate_comparison_analysis lower a b c
   = Raise (KeyError "benefits")) ∧
  (well_formed a → well_formed b →
   ∃ text, generate_comparison_analysis lower a b c = Ok text).
Proof.
  intros Hc.
  destruct (compare_products_inv lower limit a b c Hc)
    as (Ha & Hb & _ & _ & Hof).
  split; [|split].
  - intros Hnone. unfold generate_comparison_analysis.
    fields_of Ha. fields_of Hb. cbn [mbind result_bind].
    destruct (a !! "concentration") as [ca|] eqn:Hca.
    + destruct Hnone as [Hnone|Hnone]; [discriminate Hnone|].
      rewrite (getitem_some a _ _ Hca), (getitem_absent b _ Hnone).
      reflexivity.
    + rewrite (getitem_absent a _ Hca). reflexivity.
  - intros Hca Hcb Hnone. unfold generate_comparison_analysis.
    fields_of Ha. fields_of Hb.
    rewrite (getitem_field Hca), (getitem_field Hcb).
    narrative_lookups Hof.
    destruct (a !! "benefits") as [ba|] eqn:Hba.
    + destruct Hnone as [Hnone|Hnone]; [discriminate Hnone|].
      rewrite (getitem_some a _ _ Hba), (getitem_absent b _ Hnone).
      narrative_cases; reflexivity.
    + rewrite (getitem_absent a _ Hba). narrative_cases; reflexivity.
  - intros Hwa Hwb.
    exact (generate_comparison_analysis_total lower a b c Hwa Hwb Hof).
Qed.

(** The records of the scenario have no benefits text, and product_a
    without its concentration has none to print. *)
Lemma narrative_missing_fields_witness :
  (∃ c, compare_products ascii_lower default_max_str_digits
          scenario_a scenario_b = Ok c ∧
        generate_comparison_analysis ascii_lower scenario_a scenario_b c
        = Raise (KeyError "benefits")) ∧
  (∃ c, compare_products ascii_lower default_max_str_digits
          no_concentration_a product_b = Ok c ∧
        generate_comparison_analysis ascii_lower no_concentration_a
          product_b c
        = Raise (KeyError "concentration")).
Proof.
  split.
  - destruct scenario_fields as [Ha Hb].
    destruct (scenario_prices default_max_str_digits) as [Hpa Hpb].
    destruct (compare_products_ok ascii_lower default_max_str_digits
                scenario_a scenario_b Ha Hb Hpa Hpb) as (c & Hc & _).
    exists c. split; [exact Hc|].
    destruct (narrative_missing_fields ascii_lower default_max_str_digits
                scenario_a scenario_b c Hc) as (_ & Hbenefits & _).
    apply Hbenefits.
    + eexists; reflexivity.
    + eexists; reflexivity.
    + left. reflexivity.
  - destruct (compare_products_ok ascii_lower default_max_str_digits
                no_concentration_a product_b) as (c & Hc & _);
      [repeat constructor; vm_compute; eexists; reflexivity
      |apply well_formed_compare_fields, product_b_well_formed
      |left; vm_compute; lia..|].
    exists c. split; [exact Hc|].
    apply (proj1 (narrative_missing_fields ascii_lower
                    default_max_str_digits no_concentration_a product_b
                    c Hc)).
    left. reflexivity.
Defined.

(** ** What the narrative says *)

Lemma occurs_in_refl (s : str) : occurs_in s s.
Proof. exists [], []. rewrite app_nil_r. reflexivity. Qed.

Lemma occurs_in_trans (x y z : str) :
  occurs_in x y → occurs_in y z → occurs_in x z.
Proof.
  intros (p1 & q1 & ->) (p2 & q2 & ->).
  exists (p2 ++ p1), (q1 ++ q2). rewrite <- !app_assoc. reflexivity.
Qed.

Lemma occurs_in_app_l (x y z : str) : occurs_in x y → occurs_in x (y ++ z).
Proof.
  intros (p & q & ->). exists p, (q ++ z). rewrite <- !app_assoc. reflexivity.
Qed.

Lemma occurs_in_app_r (x y z : str) : occurs_in x z → occurs_in x (y ++ z).
Proof.
  intros (p & q & ->). exists (y ++ p), q. rewrite <- !app_assoc. reflexivity.
Qed.

Lemma occurs_in_concat (piece : str) (pieces : list str) :
  piece ∈ pieces → occurs_in piece (concat pieces).
Proof.
  induction 1 as [piece pieces|piece other pieces _ IH]; simpl.
  - apply occurs_in_app_l, occurs_in_refl.
  - apply occurs_in_app_r, IH.
Qed.

(** A piece of a paragraph of a text made of paragraphs. *)
Lemma occurs_in_paragraph (piece : str) (paragraph paragraphs : list str) :
  piece ∈ paragraph → concat paragraph ∈ paragraphs →
  occurs_in piece (concat paragraphs).
Proof.
  intros Hpiece Hpar.
  apply (occurs_in_trans _ (concat paragraph)); apply occurs_in_concat;
    assumption.
Qed.

Ltac find_piece := repeat first [apply list_elem_of_here | apply list_elem_of_further].

Lemma occurs_in_concat_skip (x piece : str) (pieces : list str) :
  occurs_in x (concat pieces) → occurs_in x (concat (piece :: pieces)).
Proof. apply occurs_in_app_r. Qed.

Lemma occurs_in_concat_three (x y z : str) (pieces : list str) :
  occurs_in (x ++ y ++ z) (concat (x :: y :: z :: pieces)).
Proof.
  exists [], (concat pieces). simpl. rewrite <- !app_assoc. reflexivity.
Qed.

(** Three pieces in a row of one paragraph of the narrative. *)
Ltac in_paragraph para :=
  apply (occurs_in_trans _ (concat para));
  [ repeat first [apply occurs_in_concat_three | apply occurs_in_concat_skip]
  | apply occurs_in_concat; find_piece ].

(** X9: on well-formed records and the record their comparison
    returned, the narrative is returned; it names the cheaper product
    with the lower of the two extracted prices, states the absolute
    price difference, and says "Both have similar concentrations"
    exactly when the two concentrations of the record are equal (so also
    when either failed to parse), naming the product of higher
    concentration otherwise. *)
Theorem narrative_content lower limit (a b : gmap string str)
    (c : gmap string value) :
  well_formed a → well_formed b →
  compare_products lower limit a b = Ok c →
  ∃ text,
    generate_comparison_analysis lower a b c = Ok text ∧
    let price_a := price_value (field a "price") in
    let price_b := price_value (field b "price") in
    let conc_a := (concentrations_in a b).1 in
    let conc_b := (concentrations_in a b).2 in
    occurs_in (py ". In terms of pricing, "
               ++ ((if (price_a <? price_b)%Z then field a "name"
                    else field b "name")
                   ++ py " is more affordable at " ++ [rupee]
                   ++ str_of_int (Z.min price_a price_b))
               ++ py ", making it the more budget-friendly option.") text ∧
    occurs_in (py ". The price difference of " ++ [rupee]
               ++ str_of_int (Z.abs (price_a - price_b))) text ∧
    (conc_a = conc_b →
     occurs_in (py "Key differences include formulation and targeting. "
                ++ py "Both have similar concentrations"
                ++ py ", which may indicate different potency levels. ")
       text) ∧
    (conc_a ≠ conc_b →
     occurs_in (py "Key differences include formulation and targeting. "
                ++ ((if (conc_b <? conc_a)%Z then field a "name"
                     else field b "name")
                    ++ py " has a higher concentration")
                ++ py ", which may indicate different potency levels. ")
       text).
Proof.
  intros Ha Hb Hc.
  destruct (compare_products_inv lower limit a b c Hc)
    as (_ & _ & _ & _ & Hof).
  unfold generate_comparison_analysis.
  fields_of Ha. fields_of Hb. narrative_lookups Hof. narrative_cases.
  all: eexists; split; [reflexivity|]; cbv zeta.
  all: match goal with
       | |- context [concat [?c1; ?c2; ?c3; ?c4]] =>
           replace (concat [c1; c2; c3; c4]) with (c1 ++ c2 ++ c3 ++ c4)
             by (cbn [concat]; rewrite app_nil_r; reflexivity)
       end.
  all: destruct (Z.ltb_spec (price_value (field a "price"))
                   (price_value (field b "price"))) as [Hlt|Hge];
    [rewrite Z.min_l by lia | rewrite Z.min_r by lia].
  all: try match goal with
           | H : VStr (py _) = VStr (py _) |- _ => discriminate H
           | H : VStr (py ?x) ≠ VStr (py ?x) |- _ =>
               exfalso; apply H; reflexivity
           end.
  all: try match goal with
           | H : ¬ (_ ≠ _) |- _ => apply dec_stable in H
           end.
  all: split; [|split; [|split]].
  all: try (intros Hconc; exfalso; congruence).
  all: try intros _.
  all: match goal with
       | |- occurs_in (py ". The price difference of " ++ _)
              (concat [_; _; _; _; concat ?para]) => in_paragraph para
       | |- occurs_in _ (concat [_; _; concat ?para; _; _]) => in_paragraph para
       end.
Qed.

Lemma narrative_content_witness :
  ∃ c text,
    compare_products ascii_lower default_max_str_digits product_a product_b
    = Ok c ∧
    generate_comparison_analysis ascii_lower product_a product_b c = Ok text ∧
    occurs_in (py ". In terms of pricing, A is more affordable at "
               ++ [rupee] ++ py "500"
               ++ py ", making it the more budget-friendly option.") text ∧
    occurs_in (py ". The price difference of " ++ [rupee] ++ py "300") text ∧
    occurs_in (py "B has a higher concentration") text.
Proof.
  destruct (products_compare default_max_str_digits) as [c Hc].
  destruct (narrative_content ascii_lower default_max_str_digits
              product_a product_b c product_a_well_formed
              product_b_well_formed Hc)
    as (text & Htext & Hprice & Hdiff & _ & Hconc).
  exists c, text. split; [exact Hc|]. split; [exact Htext|].
  split; [exact Hprice|]. split; [exact Hdiff|].
  eapply occurs_in_trans; [|apply Hconc; vm_compute; discriminate].
  exists (py "Key differences include formulation and targeting. "),
    (py ", which may indicate different potency levels. ").
  reflexivity.
Defined.

(** ** Stripping *)

Lemma lstrip_spaces (drop : N → bool) (ws : str) (c : N) (s : str) :
  forallb drop ws = true → drop c = false →
  lstrip_of drop (ws ++ c :: s) = c :: s.
Proof.
  intros Hws Hc. induction ws as [|w ws IH]; simpl.
  - rewrite Hc. reflexivity.
  - simpl in Hws. apply andb_prop in Hws as [Hw Hws].
    rewrite Hw. exact (IH Hws).
Qed.

Lemma rstrip_spaces (drop : N → bool) (s : str) (c : N) (ws : str) :
  forallb drop ws = true → drop c = false →
  rstrip_of drop (s ++ c :: ws) = s ++ [c].
Proof.
  intros Hws Hc. unfold rstrip_of.
  rewrite rev_app_distr. simpl. rewrite <- app_assoc. simpl.
  rewrite (lstrip_spaces drop (rev ws) c (rev s)).
  - simpl. rewrite rev_involutive. reflexivity.
  - rewrite forallb_forall in *. intros x Hx. apply Hws.
    apply in_rev. exact Hx.
  - exact Hc.
Qed.

(** A text between two runs of whitespace is what [strip] keeps, when it
    starts and ends with something else. *)
Lemma strip_frame (ws1 : str) (c1 : N) (s : str) (c2 : N) (ws2 : str) :
  forallb is_space ws1 = true → forallb is_space ws2 = true →
  is_space c1 = false → is_space c2 = false →
  strip (ws1 ++ (c1 :: s ++ [c2]) ++ ws2) = c1 :: s ++ [c2].
Proof.
  intros Hws1 Hws2 Hc1 Hc2. unfold strip.
  change ((c1 :: s ++ [c2]) ++ ws2) with (c1 :: (s ++ [c2]) ++ ws2).
  rewrite (lstrip_spaces is_space ws1 c1 _ Hws1 Hc1).
  rewrite <- app_assoc.
  change (c1 :: s ++ [c2] ++ ws2) with ((c1 :: s) ++ c2 :: ws2).
  rewrite (rstrip_spaces is_space (c1 :: s) c2 ws2 Hws2 Hc2).
  reflexivity.
Qed.

(** The same for a text given as pieces: spaces, a first piece, the
    middle pieces, a last piece, spaces. *)
Lemma strip_pieces (ws1 wsf : str) (c1 : N) (s1 : str) (middle : list str)
    (wsl s2 : str) (c2 : N) (ws2 ws3 : str) :
  forallb is_space (ws1 ++ wsf) = true →
  forallb is_space (ws2 ++ ws3) = true →
  is_space c1 = false → is_space c2 = false →
  strip (concat ([ws1; wsf ++ c1 :: s1] ++ middle
                 ++ [wsl ++ s2 ++ [c2]; ws2; ws3]))
  = c1 :: (s1 ++ concat middle ++ wsl ++ s2) ++ [c2].
Proof.
  intros Hws1 Hws2 Hc1 Hc2.
  rewrite <- (strip_frame (ws1 ++ wsf) c1 (s1 ++ concat middle ++ wsl ++ s2)
                c2 (ws2 ++ ws3) Hws1 Hws2 Hc1 Hc2).
  f_equal. rewrite !concat_app. cbn [concat]. rewrite !app_nil_r.
  repeat (rewrite <- ?app_assoc; cbn [app]).
  reflexivity.
Qed.

Example strip_examples :
  strip (py "  a b  ") = py "a b" ∧
  strip [10; 9; 160; 120; 8232] = [120] ∧
  strip (py "   ") = [] ∧
  strip [] = [].
Proof. repeat split. Qed.

(** ** The comparison table *)

Lemma table_frame (c1 : N) (s1 m ws s2 : str) (c2 : N) :
  c1 :: (s1 ++ m ++ ws ++ s2) ++ [c2]
  = (c1 :: s1) ++ (m ++ ws) ++ (s2 ++ [c2]).
Proof. simpl. rewrite <- !app_assoc. reflexivity. Qed.

Lemma occurs_in_cell (n : nat) (opening v closing : str) :
  occurs_in v (indented n (opening ++ v ++ closing)).
Proof.
  unfold indented. apply occurs_in_app_r, occurs_in_app_r, occurs_in_app_l.
  apply occurs_in_refl.
Qed.

(** X10: with all six fields on both sides the table is returned, and
    whatever the field values are (blank ones included) it begins with
    the opening tag of the table and ends with its closing tag: stripping
    removes the indentation of the template and nothing else.  Every
    field value stands in it as it is, with no escaping. *)
Theorem comparison_table_shape (a b : gmap string str) :
  well_formed a → well_formed b →
  ∃ html body,
    generate_comparison_table a b = Ok html ∧
    html = (py "<table class=" ++ [dquote] ++ py "comparison-table"
            ++ [dquote] ++ py ">") ++ body ++ py "</table>" ∧
    (∀ k, k ∈ ProductRecord_fields →
          occurs_in (field a k) html ∧ occurs_in (field b k) html).
Proof.
  intros Ha Hb. unfold generate_comparison_table.
  fields_of Ha. fields_of Hb. cbn [mbind result_bind].
  match goal with
  | |- context [strip (concat ?L)] =>
      rewrite <- (take_drop 2 L); rewrite <- (take_drop 69 (drop 2 L))
  end.
  cbn [take drop].
  match goal with
  | |- context [strip (concat (_ ++ ?M ++ _))] =>
      set (middle := M);
      pose proof (strip_pieces [10] (replicate 4 32) 60
                    (py "table class=" ++ [dquote] ++ py "comparison-table"
                     ++ [dquote] ++ py ">")
                    middle (replicate 4 32) (py "</table") 62
                    [10] (indented 4 [])
                    eq_refl eq_refl eq_refl eq_refl) as Hstrip
  end.
  match type of Hstrip with _ = ?h => exists h end.
  exists (concat middle ++ replicate 4 32).
  split; [f_equal; exact Hstrip|].
  split; [apply table_frame|].
  assert (Hmid : ∀ v piece, occurs_in v piece → piece ∈ middle →
            occurs_in v
              (60 :: ((py "table class=" ++ [dquote] ++ py "comparison-table"
                       ++ [dquote] ++ py ">")
                      ++ concat middle ++ replicate 4 32 ++ py "</table")
                  ++ [62])).
  { intros v piece Hv Hpiece.
    apply (occurs_in_trans _ (concat middle)).
    - apply (occurs_in_trans _ piece); [exact Hv|].
      apply occurs_in_concat, Hpiece.
    - apply (occurs_in_app_r _ [60]), occurs_in_app_l, occurs_in_app_r,
        occurs_in_app_l, occurs_in_refl. }
  intros k Hin. unfold ProductRecord_fields in Hin.
  rewrite !elem_of_cons, elem_of_nil in Hin.
  destruct Hin as [->|[->|[->|[->|[->|[->|[]]]]]]]; split;
    (eapply Hmid; [apply occurs_in_cell | subst middle; find_piece]).
Qed.

Lemma comparison_table_shape_witness :
  well_formed product_a ∧ well_formed product_b ∧
  ∃ html body,
    generate_comparison_table product_a product_b = Ok html ∧
    html = (py "<table class=" ++ [dquote] ++ py "comparison-table"
            ++ [dquote] ++ py ">") ++ body ++ py "</table>".
Proof.
  assert (Ha : well_formed product_a)
    by (repeat constructor; vm_compute; eexists; reflexivity).
  assert (Hb : well_formed product_b)
    by (repeat constructor; vm_compute; eexists; reflexivity).
  split; [exact Ha|]. split; [exact Hb|].
  destruct (comparison_table_shape product_a product_b Ha Hb)
    as (html & body & Hhtml & Hshape & _).
  exists html, body. split; [exact Hhtml | exact Hshape].
Defined.


(** One lookup of a chain: present, or the chain raises its key. *)
Ltac lookup_or_raise p k :=
  destruct (p !! k) eqn:?; cbn [mbind result_bind];
  [ | exists k; split; [reflexivity | split; [find_piece | auto]] ].

(** X11: the table reads all six fields of both records, benefits and
    concentration included: as soon as one is absent it raises the
    missing-key error, for a key that is indeed absent. *)
Theorem comparison_table_missing_field (a b : gmap string str) :
  (∃ k, k ∈ ProductRecord_fields ∧ (a !! k = None ∨ b !! k = None)) →
  ∃ k, generate_comparison_table a b = Raise (KeyError k) ∧
       k ∈ ProductRecord_fields ∧ (a !! k = None ∨ b !! k = None).
Proof.
  intros (k0 & Hk0 & Hnone).
  unfold generate_comparison_table, getitem, ProductRecord_fields in *.
  lookup_or_raise a "name". lookup_or_raise b "name".
  lookup_or_raise a "concentration". lookup_or_raise b "concentration".
  lookup_or_raise a "skin_type". lookup_or_raise b "skin_type".
  lookup_or_raise a "key_ingredients". lookup_or_raise b "key_ingredients".
  lookup_or_raise a "benefits". lookup_or_raise b "benefits".
  lookup_or_raise a "price". lookup_or_raise b "price".
  exfalso. rewrite !elem_of_cons, elem_of_nil in Hk0.
  destruct Hk0 as [->|[->|[->|[->|[->|[->|[]]]]]]]; destruct Hnone; congruence.
Qed.

Lemma comparison_table_missing_field_witness :
  (∃ k, k ∈ ProductRecord_fields
        ∧ (scenario_a !! k = None ∨ scenario_b !! k = None)) ∧
  ∃ k, generate_comparison_table scenario_a scenario_b = Raise (KeyError k) ∧
       k ∈ ProductRecord_fields ∧
       (scenario_a !! k = None ∨ scenario_b !! k = None).
Proof.
  assert (Hex : ∃ k, k ∈ ProductRecord_fields
                     ∧ (scenario_a !! k = None ∨ scenario_b !! k = None)).
  { exists "benefits". split; [unfold ProductRecord_fields; find_piece|].
    left. reflexivity. }
  split; [exact Hex|].
  exact (comparison_table_missing_field scenario_a scenario_b Hex).
Defined.

(** ** The page *)








(** The page of the two products of the scenario, and of the same
    request when the first raw record has no price. *)
Example page_examples :
  (page ← ComparisonAgent.process ascii_lower default_max_str_digits
            (py "2026-01-01T00:00:00")
            (<["product_a" := ParserAgent.process product_a]>
               (<["product_b" := ParserAgent.process product_b]> ∅));
   Ok (page !! "winner", page !! "title", page !! "generated_at"))
  = Ok (Some (PStr (py "Tie - Both excellent choices")),
        Some (PStr (py "A vs B")),
        Some (PStr (py "2026-01-01T00:00:00"))) ∧
  ComparisonAgent.process ascii_lower default_max_str_digits
    (py "2026-01-01T00:00:00")
    (<["product_a" := ParserAgent.process (delete "price" product_a)]>
       (<["product_b" := ParserAgent.process product_b]> ∅))
  = Raise ValueError.
Proof. split; vm_compute; reflexivity. Qed.


(** ** The insights *)

(** X14: on the record a comparison returned, the four insights quote
    its derived fields, never the fallbacks of the lookups; the price
    line carries the three characters U+00E2 U+201A U+00B9 before the
    amount, where the narrative writes the rupee sign. *)
Theorem insights_of_comparison lower limit (a b : gmap string str)
    (c : gmap string value) :
  compare_products lower limit a b = Ok c →
  _extract_insights c
  = [ py "Concentration difference: "
      ++ str_of_int (Z.abs ((concentrations_in a b).1
                            - (concentrations_in a b).2))
      ++ py "%";
      py "Price difference: " ++ [226; 8218; 185]
      ++ str_of_int (Z.abs (price_value (field a "price")
                            - price_value (field b "price")));
      py "Skin type compatibility: "
      ++ _analyze_skin_type_overlap lower (field a "skin_type")
           (field b "skin_type");
      py "Ingredient overlap: "
      ++ _calculate_ingredient_overlap lower (field a "key_ingredients")
           (field b "key_ingredients") ].
Proof.
  intros Hc.
  destruct (compare_products_inv lower limit a b c Hc)
    as (_ & _ & _ & _ & Hof).
  unfold _extract_insights, get_or.
  rewrite (cmp_conc_diff _ _ _ _ Hof), (cmp_price_diff _ _ _ _ Hof),
    (cmp_skin _ _ _ _ Hof), (cmp_ingredients _ _ _ _ Hof).
  reflexivity.
Qed.

Lemma insights_of_comparison_witness :
  ∃ c, compare_products ascii_lower default_max_str_digits product_a product_b
       = Ok c ∧
       _extract_insights c
       = [ py "Concentration difference: 5%";
           py "Price difference: " ++ [226; 8218; 185] ++ py "300";
           py "Skin type compatibility: One product suits all skin types";
           py "Ingredient overlap: Medium similarity" ].
Proof.
  destruct (products_compare default_max_str_digits) as [c Hc].
  exists c. split; [exact Hc|].
  rewrite (insights_of_comparison ascii_lower default_max_str_digits
             product_a product_b c Hc).
  vm_compute. reflexivity.
Defined.

(** ** The rule-based answers *)

(** X15: when the question text is there, the rule-based answer is
    returned without raising, and it is the empty string, which sends the
    question to the language model, exactly when none of the ten keywords
    occurs in the lower-cased question; a question that mentions the
    price gets the price sentence whatever else it mentions. *)
Theorem rule_based_answer_empty lower (question_data product_data : gmap string str)
    (question : str) :
  question_data !! "question" = Some question →
  ∃ answer,
    FAQAgent._try_rule_based_answer lower question_data product_data
    = Ok answer ∧
    (answer = []
     ↔ Forall (λ keyword, contains keyword (lower question) = false)
         answer_keywords) ∧
    (contains (py "price") (lower question) = true →
     answer = py "The price of "
              ++ get_or product_data "name" (py "this product")
              ++ py " is "
              ++ get_or product_data "price" (py "available on request")
              ++ py ".").
Proof.
  intros Hq. unfold FAQAgent._try_rule_based_answer.
  rewrite (getitem_some _ _ _ Hq). cbn [mbind result_bind].
  assert (Hkw : Forall (λ keyword, contains keyword (lower question) = false)
                  answer_keywords
                → contains (py "price") (lower question) = false
                  ∧ contains (py "side effects") (lower question) = false
                  ∧ contains (py "side effect") (lower question) = false
                  ∧ contains (py "how to use") (lower question) = false
                  ∧ contains (py "how do i apply") (lower question) = false
                  ∧ contains (py "skin type") (lower question) = false
                  ∧ contains (py "ingredients") (lower question) = false
                  ∧ contains (py "benefits") (lower question) = false
                  ∧ contains (py "what does it do") (lower question) = false
                  ∧ contains (py "concentration") (lower question) = false).
  { unfold answer_keywords. rewrite !Forall_cons. tauto. }
  repeat match goal with
         | |- context [if ?test then Ok (_ ++ _) else _] =>
             match test with
             | context [contains ?kw (lower question)] =>
                 destruct (contains kw (lower question)) eqn:?; cbn [orb]
             end
         end.
  all: eexists; split; [reflexivity|].
  all: split;
    [ split;
      [ intros Hnil;
        try (exfalso; apply (f_equal (@length N)) in Hnil;
             rewrite ?length_app in Hnil; simpl in Hnil; lia)
      | intros Hall; try (exfalso; apply Hkw in Hall; intuition congruence) ]
    | intros Hprice; first [reflexivity | discriminate Hprice] ].
  all: try reflexivity.
  unfold answer_keywords. repeat constructor; assumption.
Qed.

Lemma rule_based_answer_empty_witness :
  ({[ "question" := py "Is it vegan?" ]} : gmap string str) !! "question"
  = Some (py "Is it vegan?") ∧
  FAQAgent._try_rule_based_answer ascii_lower
    {[ "question" := py "Is it vegan?" ]} product_a
  = Ok [].
Proof.
  split; [reflexivity|].
  destruct (rule_based_answer_empty ascii_lower
              {[ "question" := py "Is it vegan?" ]} product_a
              (py "Is it vegan?") (lookup_singleton_eq _ _))
    as (answer & Hanswer & Hempty & _).
  rewrite Hanswer. f_equal. apply Hempty.
  unfold answer_keywords. repeat constructor.
Defined.

(** ** The benefits *)

Lemma contains_singleton (c : N) (s : str) : contains [c] s = true → c ∈ s.
Proof.
  induction s as [|y s IH]; simpl; [discriminate|].
  destruct (N.eqb_spec c y) as [->|Hne]; simpl.
  - intros _. apply list_elem_of_here.
  - intros Hs. apply list_elem_of_further, IH, Hs.
Qed.

Lemma lstrip_of_elem (drop : N → bool) (x : N) (s : str) :
  x ∈ lstrip_of drop s → x ∈ s.
Proof.
  induction s as [|c s IH]; simpl; [trivial|].
  destruct (drop c); [|trivial].
  intros Hx. apply list_elem_of_further, IH, Hx.
Qed.

Lemma rstrip_of_elem (drop : N → bool) (x : N) (s : str) :
  x ∈ rstrip_of drop s → x ∈ s.
Proof.
  unfold rstrip_of. rewrite !list_elem_of_In, <- in_rev, <- !list_elem_of_In.
  intros Hx. apply lstrip_of_elem in Hx.
  rewrite list_elem_of_In, <- in_rev, <- list_elem_of_In in Hx. exact Hx.
Qed.

Lemma strip_elem (x : N) (s : str) : x ∈ strip s → x ∈ s.
Proof.
  unfold strip. intros Hx.
  apply rstrip_of_elem, lstrip_of_elem in Hx. exact Hx.
Qed.

Lemma split_char_elem (sep x : N) (s piece : str) :
  piece ∈ split_char sep s → x ∈ piece → x ∈ s.
Proof.
  revert piece. induction s as [|c s IH]; simpl; intros piece Hpiece Hx.
  - apply list_elem_of_singleton in Hpiece. subst piece. exact Hx.
  - destruct (c =? sep).
    + apply elem_of_cons in Hpiece as [->|Hpiece];
        [inversion Hx | apply list_elem_of_further, (IH piece Hpiece Hx)].
    + destruct (split_char sep s) as [|t ts] eqn:Hsplit.
      * apply list_elem_of_singleton in Hpiece. subst piece.
        apply list_elem_of_singleton in Hx. subst x. apply list_elem_of_here.
      * apply elem_of_cons in Hpiece as [->|Hpiece].
        -- apply elem_of_cons in Hx as [->|Hx]; [apply list_elem_of_here|].
           apply list_elem_of_further, (IH t); [apply list_elem_of_here|exact Hx].
        -- apply list_elem_of_further, (IH piece); [|exact Hx].
           apply list_elem_of_further, Hpiece.
Qed.

Section BenefitsProofs.

Variable lower : str → str.

Lemma parse_line_without_hyphen (benefits : list (gmap string str)) (line : str) :
  45 ∉ line → parse_line benefits line = benefits.
Proof.
  intros Hline. unfold parse_line.
  destruct (contains [45] (lstrip_of is_bullet (strip line))) eqn:Hc;
    [|reflexivity].
  exfalso. apply Hline.
  apply strip_elem, (lstrip_of_elem is_bullet), contains_singleton, Hc.
Qed.

Lemma parse_lines_without_hyphen (lines : list str)
    (benefits : list (gmap string str)) :
  (∀ line, line ∈ lines → 45 ∉ line) →
  fold_left parse_line lines benefits = benefits.
Proof.
  revert benefits. induction lines as [|line lines IH]; intros benefits Hall;
    simpl; [reflexivity|].
  rewrite parse_line_without_hyphen by (apply Hall, list_elem_of_here).
  apply IH. intros l Hl. apply Hall, list_elem_of_further, Hl.
Qed.

Lemma fallback_fold (pieces : list str) (benefits : list (gmap string str)) :
  fold_left (fallback_benefit lower) pieces benefits
  = benefits
    ++ (fallback_entry lower <$> filter (λ s, s ≠ []) (strip <$> pieces)).
Proof.
  revert benefits. induction pieces as [|piece pieces IH]; intros benefits;
    simpl.
  - rewrite app_nil_r. reflexivity.
  - rewrite IH. unfold fallback_benefit at 1.
    rewrite filter_cons. destruct (decide (strip piece ≠ [])) as [Hne|He].
    + rewrite bool_decide_eq_false_2 by exact Hne. simpl.
      rewrite <- app_assoc. reflexivity.
    + rewrite bool_decide_eq_true_2 by (destruct (decide (strip piece = []));
        [assumption | contradiction]).
      reflexivity.
Qed.

End BenefitsProofs.

(** X16: when the response of the language model holds no hyphen, as
    when the call failed and the response is empty, the benefits are
    those the product lists: one entry per comma-separated piece that is
    not blank, in order, named by the stripped piece and described by the
    fixed sentence around its lower-cased name. *)
Theorem benefits_without_hyphen lower (response : str)
    (product_data : gmap string str) :
  45 ∉ response →
  extract_benefits lower response product_data
  = fallback_entry lower
    <$> filter (λ s, s ≠ [])
          (strip <$> split_char 44 (get_or product_data "benefits" [])).
Proof.
  intros Hresponse. unfold extract_benefits.
  rewrite parse_lines_without_hyphen.
  - simpl. rewrite fallback_fold. reflexivity.
  - intros line Hline Hx. apply Hresponse.
    apply strip_elem, (split_char_elem 10 45 _ line); assumption.
Qed.

Lemma benefits_without_hyphen_witness :
  (45 ∉ ([] : str)) ∧
  extract_benefits ascii_lower [] product_a
  = [ fallback_entry ascii_lower (py "Brightening") ].
Proof.
  assert (Hempty : 45 ∉ ([] : str)) by (intros Hin; inversion Hin).
  split; [exact Hempty|].
  rewrite (benefits_without_hyphen ascii_lower [] product_a Hempty).
  reflexivity.
Defined.

(** An entry with the two keys the formatting reads. *)
Lemma names_of_total (benefits : list (gmap string str)) :
  Forall (λ b, is_Some (b !! "name")) benefits →
  ∃ names, names_of benefits = Ok names ∧ length names = length benefits.
Proof.
  induction 1 as [|b rest Hb _ IH]; simpl.
  - exists []. split; reflexivity.
  - destruct IH as (names & -> & Hlen). rewrite (getitem_field Hb).
    cbn [mbind result_bind]. eexists. split; [reflexivity|].
    simpl. rewrite Hlen. reflexivity.
Qed.

Lemma benefit_summary_total (benefits : list (gmap string str)) :
  Forall (λ b, is_Some (b !! "name")) benefits →
  ∃ summary, get_benefit_summary benefits = Ok summary.
Proof.
  intros Hall. unfold get_benefit_summary.
  destruct benefits as [|b rest]; [eexists; reflexivity|].
  destruct (names_of_total (take 3 (b :: rest))) as (names & -> & _).
  { apply Forall_take, Hall. }
  cbn [mbind result_bind].
  destruct names as [|n1 [|n2 [|n3 names]]]; eexists; reflexivity.
Qed.

Lemma format_benefits_fold (benefits : list (gmap string str)) (html : str) :
  Forall (λ b, is_Some (b !! "name") ∧ is_Some (b !! "description")) benefits →
  ∃ html',
    fold_left
      (λ (html : result str) (benefit : gmap string str),
         html ← html;
         name ← getitem benefit "name";
         description ← getitem benefit "description";
         Ok (html ++ py "<li><strong>" ++ name ++ py "</strong>: "
             ++ description ++ py "</li>"))
      benefits (Ok html)
    = Ok html'.
Proof.
  intros Hall. revert html.
  induction Hall as [|b rest [Hn Hd] _ IH]; intros html; simpl.
  - eexists. reflexivity.
  - rewrite (getitem_field Hn), (getitem_field Hd). cbn [mbind result_bind].
    apply IH.
Qed.

Lemma parse_lines_entries (lines : list str)
    (benefits : list (gmap string str)) :
  Forall (λ b, is_Some (b !! "name") ∧ is_Some (b !! "description")) benefits →
  Forall (λ b, is_Some (b !! "name") ∧ is_Some (b !! "description"))
    (fold_left parse_line lines benefits).
Proof.
  revert benefits. induction lines as [|line lines IH]; intros benefits Hall;
    simpl; [exact Hall|].
  apply IH. unfold parse_line.
  destruct (_ && _); [|exact Hall].
  destruct (_ !! 0%nat); [|exact Hall].
  destruct (_ !! 1%nat); [|exact Hall].
  apply Forall_app. split; [exact Hall|].
  repeat constructor; eexists; reflexivity.
Qed.

(** X17: whatever the language model answers, every entry of the
    extracted benefits carries a name and a description, so the HTML list
    and the one-line summary made of them are returned without a
    missing-key error. *)
Theorem extracted_benefits_are_complete lower (response : str)
    (product_data : gmap string str) :
  let benefits := extract_benefits lower response product_data in
  Forall (λ b, is_Some (b !! "name") ∧ is_Some (b !! "description")) benefits ∧
  (∃ html, format_benefits_html benefits = Ok html) ∧
  (∃ summary, get_benefit_summary benefits = Ok summary).
Proof.
  intros benefits.
  assert (Hall : Forall (λ b, is_Some (b !! "name")
                              ∧ is_Some (b !! "description")) benefits).
  { subst benefits. unfold extract_benefits.
    pose proof (parse_lines_entries
                  (split_char 10 (strip response)) [] (Forall_nil_2 _))
      as Hparsed.
    destruct (length _ =? 0)%nat; [|exact Hparsed].
    rewrite fallback_fold. apply Forall_app. split; [exact Hparsed|].
    apply Forall_fmap, Forall_forall. intros benefit _.
    split; eexists; reflexivity. }
  split; [exact Hall|]. split.
  - unfold format_benefits_html.
    destruct (format_benefits_fold benefits (py "<ul>") Hall) as [html ->].
    eexists. reflexivity.
  - apply benefit_summary_total.
    eapply Forall_impl; [exact Hall|]. intros b [Hn _]. exact Hn.
Qed.

(** X18: the summary names at most three benefits.  It is computed from
    the first three entries alone, so that an entry without a name raises
    only among those; with three or more it reads "first, second, and
    third", with two "first and second", with one its name, and with none
    a fixed phrase. *)
Theorem benefit_summary_reads_three (benefits : list (gmap string str)) :
  get_benefit_summary benefits = get_benefit_summary (take 3 benefits) ∧
  (∀ b1 b2 b3 rest n1 n2 n3,
     benefits = b1 :: b2 :: b3 :: rest →
     b1 !! "name" = Some n1 → b2 !! "name" = Some n2 →
     b3 !! "name" = Some n3 →
     get_benefit_summary benefits
     = Ok (n1 ++ py ", " ++ n2 ++ py ", and " ++ n3)) ∧
  (∀ b1 b2 n1 n2,
     benefits = [b1; b2] → b1 !! "name" = Some n1 → b2 !! "name" = Some n2 →
     get_benefit_summary benefits = Ok (n1 ++ py " and " ++ n2)) ∧
  (∀ b1 n1, benefits = [b1] → b1 !! "name" = Some n1 →
            get_benefit_summary benefits = Ok n1) ∧
  (benefits = [] →
   get_benefit_summary benefits = Ok (py "Multiple skincare benefits")).
Proof.
  split; [|split; [|split; [|split]]].
  - destruct benefits as [|b1 [|b2 [|b3 rest]]]; reflexivity.
  - intros b1 b2 b3 rest n1 n2 n3 -> H1 H2 H3.
    unfold get_benefit_summary. cbn [take names_of].
    rewrite (getitem_some _ _ _ H1), (getitem_some _ _ _ H2),
      (getitem_some _ _ _ H3).
    rewrite take_0. cbn [names_of mbind result_bind].
    change (slice_to [n1; n2; n3] (-1)) with [n1; n2].
    change (List.last [n1; n2; n3] []) with n3.
    cbn [join]. rewrite <- !app_assoc. reflexivity.
  - intros b1 b2 n1 n2 -> H1 H2.
    unfold get_benefit_summary. cbn [take names_of].
    rewrite (getitem_some _ _ _ H1), (getitem_some _ _ _ H2). reflexivity.
  - intros b1 n1 -> H1.
    unfold get_benefit_summary. cbn [take names_of].
    rewrite (getitem_some _ _ _ H1). reflexivity.
  - intros ->. reflexivity.
Qed.

(** ** The selection of questions *)

Lemma categories_of_snoc (questions : list (gmap string str))
    (q : gmap string str) :
  categories_of (questions ++ [q])
  = categories_of questions ∪ {[ category_of q ]}.
Proof.
  unfold categories_of. rewrite fmap_app. apply list_to_set_snoc_L.
Qed.

Lemma categories_of_mono (l k : list (gmap string str)) :
  (∀ q, q ∈ l → q ∈ k) → categories_of l ⊆ categories_of k.
Proof.
  intros Hlk c. unfold categories_of. rewrite !elem_of_list_to_set.
  rewrite !list_elem_of_fmap. intros (q & -> & Hq). exists q. auto.
Qed.

Section Selection.

Variable count : Z.

Lemma first_pass_step (done : list (gmap string str))
    (state : gset str * list (gmap string str)) (q : gmap string str) :
  first_pass_inv count done state →
  first_pass_inv count (done ++ [q]) (FAQAgent.first_pass count state q).
Proof.
  destruct state as [seen sel]. unfold first_pass_inv, FAQAgent.first_pass.
  cbn [fst snd]. intros (Hseen & Hnodup & Hsub & Hlen & Hcover).
  fold (category_of q).
  destruct (decide (category_of q ∉ seen)) as [Hnew|Hold];
    [rewrite (bool_decide_eq_true_2 _ Hnew)
    |rewrite (bool_decide_eq_false_2 _ Hold)]; cbn [andb].
  - destruct (Z.ltb_spec (Z.of_nat (length sel)) count) as [Hlt|Hge];
      cbn [fst snd].
    + split; [|split; [|split; [|split]]].
      * rewrite categories_of_snoc, Hseen. reflexivity.
      * rewrite fmap_app. apply NoDup_app. split; [exact Hnodup|].
        split; [|apply NoDup_singleton].
        intros c Hc Hq. apply list_elem_of_singleton in Hq. subst c.
        apply Hnew. rewrite Hseen. unfold categories_of.
        apply elem_of_list_to_set, Hc.
      * intros q' Hq'. apply elem_of_app in Hq' as [Hq'|Hq'];
          apply elem_of_app; [left; apply Hsub, Hq' | right; exact Hq'].
      * rewrite length_app. simpl. lia.
      * intros _. rewrite categories_of_snoc.
        apply union_mono_r, Hcover, Hlt.
    + split; [exact Hseen|]. split; [exact Hnodup|].
      split; [intros q' Hq'; apply elem_of_app; left; apply Hsub, Hq'|].
      split; [exact Hlen|]. intros Hlt. lia.
  - cbn [fst snd]. split; [exact Hseen|]. split; [exact Hnodup|].
    split; [intros q' Hq'; apply elem_of_app; left; apply Hsub, Hq'|].
    split; [exact Hlen|]. intros Hlt. rewrite categories_of_snoc.
    apply union_least; [apply Hcover, Hlt|].
    apply singleton_subseteq_l. apply dec_stable. exact Hold.
Qed.

Lemma first_pass_fold (questions done : list (gmap string str))
    (state : gset str * list (gmap string str)) :
  first_pass_inv count done state →
  first_pass_inv count (done ++ questions)
    (fold_left (FAQAgent.first_pass count) questions state).
Proof.
  revert done state.
  induction questions as [|q questions IH]; intros done state Hinv; simpl.
  - rewrite app_nil_r. exact Hinv.
  - replace (done ++ q :: questions) with ((done ++ [q]) ++ questions)
      by (rewrite <- app_assoc; reflexivity).
    apply IH, first_pass_step, Hinv.
Qed.

Lemma first_pass_start : first_pass_inv count [] (∅, []).
Proof.
  unfold first_pass_inv. cbn [fst snd].
  split; [reflexivity|]. split; [constructor|].
  split; [intros q Hq; exact Hq|]. split; [simpl; lia|].
  intros _. reflexivity.
Qed.

Lemma second_pass_step (questions done selected : list (gmap string str))
    (q : gmap string str) :
  q ∈ questions →
  second_pass_inv count questions done selected →
  second_pass_inv count questions (done ++ [q])
    (FAQAgent.second_pass count selected q).
Proof.
  intros Hq (Hnodup & Hsub & Hlen & Hall).
  unfold second_pass_inv, FAQAgent.second_pass.
  destruct (decide (q ∉ selected)) as [Hnew|Hold];
    [rewrite (bool_decide_eq_true_2 _ Hnew)
    |rewrite (bool_decide_eq_false_2 _ Hold)]; cbn [andb].
  - destruct (Z.ltb_spec (Z.of_nat (length selected)) count) as [Hlt|Hge].
    + split; [|split; [|split]].
      * apply NoDup_app. split; [exact Hnodup|].
        split; [|apply NoDup_singleton].
        intros q' Hq' Hin. apply list_elem_of_singleton in Hin. subst q'.
        exact (Hnew Hq').
      * intros q' Hq'. apply elem_of_app in Hq' as [Hq'|Hq'];
          [apply Hsub, Hq'|].
        apply list_elem_of_singleton in Hq'. subst q'. exact Hq.
      * rewrite length_app. simpl. lia.
      * intros _ q' Hq'. apply elem_of_app in Hq' as [Hq'|Hq'];
          apply elem_of_app; [left; apply (Hall Hlt), Hq' | right; exact Hq'].
    + split; [exact Hnodup|]. split; [exact Hsub|]. split; [exact Hlen|].
      intros Hlt. lia.
  - split; [exact Hnodup|]. split; [exact Hsub|]. split; [exact Hlen|].
    intros Hlt q' Hq'. apply elem_of_app in Hq' as [Hq'|Hq'];
      [apply (Hall Hlt), Hq'|].
    apply list_elem_of_singleton in Hq'. subst q'.
    apply dec_stable. exact Hold.
Qed.

Lemma second_pass_fold (questions rest done selected : list (gmap string str)) :
  (∀ q, q ∈ rest → q ∈ questions) →
  second_pass_inv count questions done selected →
  second_pass_inv count questions (done ++ rest)
    (fold_left (FAQAgent.second_pass count) rest selected).
Proof.
  revert done selected.
  induction rest as [|q rest IH]; intros done selected Hrest Hinv; simpl.
  - rewrite app_nil_r. exact Hinv.
  - replace (done ++ q :: rest) with ((done ++ [q]) ++ rest)
      by (rewrite <- app_assoc; reflexivity).
    apply IH.
    + intros q' Hq'. apply Hrest, list_elem_of_further, Hq'.
    + apply second_pass_step; [apply Hrest, list_elem_of_here | exact Hinv].
Qed.

Lemma second_pass_extends (rest selected : list (gmap string str)) :
  ∃ extra,
    fold_left (FAQAgent.second_pass count) rest selected = selected ++ extra.
Proof.
  revert selected. induction rest as [|q rest IH]; intros selected; simpl.
  - exists []. rewrite app_nil_r. reflexivity.
  - unfold FAQAgent.second_pass at 2.
    destruct (_ && _).
    + destruct (IH (selected ++ [q])) as [extra ->].
      exists (q :: extra). rewrite <- app_assoc. reflexivity.
    + apply IH.
Qed.

(** The list the two loops leave, before the final slice. *)
Lemma selection_loops (questions : list (gmap string str)) :
  ∃ (seen : gset str) (first selected : list (gmap string str)) extra,
    fold_left (FAQAgent.first_pass count) questions (∅, []) = (seen, first) ∧
    first_pass_inv count questions (seen, first) ∧
    selected = first ++ extra ∧
    second_pass_inv count questions questions selected ∧
    FAQAgent._select_top_questions questions count = slice_to selected count ∧
    ((Z.of_nat (length first) < count)%Z ∨ extra = []).
Proof.
  pose proof (first_pass_fold questions [] (∅, []) first_pass_start) as Hfirst.
  rewrite app_nil_l in Hfirst.
  unfold FAQAgent._select_top_questions.
  destruct (fold_left (FAQAgent.first_pass count) questions (∅, []))
    as [seen first] eqn:Hfold.
  pose proof Hfirst as (Hseen & Hnodup & Hsub & Hlen & Hcover).
  cbn [fst snd] in *.
  assert (Hstart : second_pass_inv count questions [] first).
  { split; [exact (NoDup_fmap_1 _ _ Hnodup)|]. split; [exact Hsub|].
    split; [exact Hlen|]. intros _ q Hq. inversion Hq. }
  exists seen, first.
  destruct (Z.ltb_spec 0 (count - Z.of_nat (length first))) as [Hmore|Hfull].
  - destruct (second_pass_extends questions first) as [extra Hextra].
    exists (first ++ extra), extra.
    split; [reflexivity|]. split; [exact Hfirst|]. split; [reflexivity|].
    split.
    + rewrite <- Hextra.
      apply (second_pass_fold questions questions [] first);
        [auto | exact Hstart].
    + split; [rewrite Hextra; reflexivity | left; lia].
  - exists first, []. split; [reflexivity|]. split; [exact Hfirst|].
    split; [rewrite app_nil_r; reflexivity|]. split.
    + destruct Hstart as (H1 & H2 & H3 & _).
      split; [exact H1|]. split; [exact H2|]. split; [exact H3|].
      intros Hlt. lia.
    + split; [reflexivity | right; reflexivity].
Qed.

Lemma slice_to_short {A} (l : list A) :
  (Z.of_nat (length l) ≤ Z.max 0 count)%Z → slice_to l count = l.
Proof.
  intros Hlen. unfold slice_to.
  destruct (Z.leb_spec 0 count) as [Hpos|Hneg].
  - apply take_ge. lia.
  - destruct l as [|x l]; [reflexivity | simpl in Hlen; lia].
Qed.

End Selection.

Lemma selection_result (questions : list (gmap string str)) (count : Z) :
  ∃ (first extra : list (gmap string str)),
    FAQAgent._select_top_questions questions count = first ++ extra ∧
    first_pass_inv count questions (categories_of first, first) ∧
    second_pass_inv count questions questions (first ++ extra) ∧
    ((Z.of_nat (length first) < count)%Z ∨ extra = []).
Proof.
  destruct (selection_loops count questions)
    as (seen & first & selected & extra & _ & Hfirst & -> & Hsecond & Hsel & Hor).
  exists first, extra.
  split.
  - rewrite Hsel. apply slice_to_short.
    destruct Hsecond as (_ & _ & Hlen & _). exact Hlen.
  - split; [|split; [exact Hsecond | exact Hor]].
    pose proof Hfirst as (Hseen & _). cbn [fst snd] in Hseen.
    rewrite <- Hseen. exact Hfirst.
Qed.

Lemma categories_size (l : list (gmap string str)) :
  NoDup (category_of <$> l) → size (categories_of l) = length l.
Proof.
  intros Hnodup. unfold categories_of.
  rewrite (size_list_to_set _ Hnodup). apply length_fmap.
Qed.

(** X19: the selection never repeats a question, takes its questions from
    the list it was given, and has as many questions as asked for, or all
    the distinct questions of the list when there are fewer (none for a
    count that is not positive). *)
Theorem selection_is_duplicate_free (questions : list (gmap string str))
    (count : Z) :
  let selected := FAQAgent._select_top_questions questions count in
  NoDup selected ∧
  (∀ q, q ∈ selected → q ∈ questions) ∧
  length selected
  = Nat.min (Z.to_nat count) (length (remove_dups questions)).
Proof.
  intros selected. subst selected.
  destruct (selection_result questions count)
    as (first & extra & -> & _ & (Hnodup & Hsub & Hlen & Hall) & _).
  split; [exact Hnodup|]. split; [exact Hsub|].
  assert (Hle : (length (first ++ extra) <= length (remove_dups questions))%nat).
  { apply submseteq_length, NoDup_submseteq; [exact Hnodup|].
    intros q Hq. apply elem_of_remove_dups, Hsub, Hq. }
  destruct (Z.lt_ge_cases (Z.of_nat (length (first ++ extra))) count)
    as [Hlt|Hge].
  - assert (Hge : (length (remove_dups questions) <= length (first ++ extra))%nat).
    { apply submseteq_length, NoDup_submseteq; [apply NoDup_remove_dups|].
      intros q Hq. apply (Hall Hlt), elem_of_remove_dups, Hq. }
    lia.
  - lia.
Qed.

(** X20: when the count is at least the number of categories, every
    category of the list has a question in the selection; when the count
    is between zero and the number of categories, the selection has
    exactly that many questions and no two of them share a category. *)
Theorem selection_covers_categories (questions : list (gmap string str))
    (count : Z) :
  let selected := FAQAgent._select_top_questions questions count in
  ((Z.of_nat (size (categories_of questions)) ≤ count)%Z →
   categories_of selected = categories_of questions) ∧
  ((0 ≤ count ≤ Z.of_nat (size (categories_of questions)))%Z →
   length selected = Z.to_nat count ∧ NoDup (category_of <$> selected)).
Proof.
  intros selected. subst selected.
  destruct (selection_result questions count)
    as (first & extra & -> & Hfirst & (_ & Hsub & _ & _) & Hor).
  destruct Hfirst as (_ & Hnodup & Hfsub & Hlen & Hcover). cbn [fst snd] in *.
  pose proof (categories_size first Hnodup) as Hsize.
  pose proof (subseteq_size _ _ (categories_of_mono first questions Hfsub))
    as Hsizes.
  split.
  - intros Hcount. apply (anti_symm (⊆)).
    + apply categories_of_mono, Hsub.
    + transitivity (categories_of first).
      * destruct (Z.lt_ge_cases (Z.of_nat (length first)) count) as [Hlt|Hge].
        -- apply Hcover, Hlt.
        -- assert (Heq : categories_of first = categories_of questions)
             by (apply set_subseteq_size_eq;
                 [apply categories_of_mono, Hfsub | lia]).
           rewrite Heq. reflexivity.
      * apply categories_of_mono. intros q Hq. apply elem_of_app. left.
        exact Hq.
  - intros [Hpos Hcount].
    assert (Hfull : ¬ (Z.of_nat (length first) < count)%Z).
    { intros Hlt. pose proof (subseteq_size _ _ (Hcover Hlt)). lia. }
    destruct Hor as [Hlt| ->]; [contradiction|].
    rewrite app_nil_r. split; [lia | exact Hnodup].
Qed.

Lemma selection_covers_categories_witness :
  categories_of (FAQAgent._select_top_questions sample_questions 5)
  = categories_of sample_questions ∧
  length (FAQAgent._select_top_questions sample_questions 1) = 1%nat ∧
  NoDup (category_of <$> FAQAgent._select_top_questions sample_questions 1).
Proof.
  split.
  - apply (proj1 (selection_covers_categories sample_questions 5)).
    vm_compute. discriminate.
  - apply (proj2 (selection_covers_categories sample_questions 1)).
    split; vm_compute; discriminate.
Defined.
